(** * ur_rtde: script upload, I/O facade and receive loop

    A shallow embedding of the host-side code of the ur_rtde client:

    - [ScriptClient]          (src/src/script_client.cpp)
    - [RTDEIOInterface]       (rtde_io_interface.cpp, src/unnamed/part_000)
    - [RTDEReceiveInterface]  (src/src/rtde_receive_interface.cpp)

    C++ objects become records, member functions become computations in a
    small state-and-exception monad, [std::string] becomes [list ascii],
    and [double] becomes the IEEE-754 model [spec_float]. *)

From Stdlib Require Import ZArith List Ascii String Bool Arith Lia.
From Stdlib Require Import Floats.SpecFloat.
Import ListNotations.

(* ===================================================================== *)
(** * C++ control flow: results, exceptions, the state monad              *)
(* ===================================================================== *)

Module Cxx.

(** The exceptions the modelled code can raise.  All of them derive from
    [std::exception], so a [catch (std::exception&)] handles each one. *)
Inductive exn : Type :=
| invalid_argument (what : string)
| range_error (what : string)
| out_of_range (what : string)
| logic_error (what : string)
| system_error (what : string).

Definition what (e : exn) : string :=
  match e with
  | invalid_argument w | range_error w | out_of_range w
  | logic_error w | system_error w => w
  end.

(** How a call ends: it returns a value, an exception leaves it, it runs
    into undefined behaviour, or the fuel given to a loop ran out before
    the loop ended. *)
Inductive result (A : Type) : Type :=
| Ret (a : A)
| Throw (e : exn)
| Undefined
| Unfinished.

Arguments Ret {A} a.
Arguments Throw {A} e.
Arguments Undefined {A}.
Arguments Unfinished {A}.

(** A member function of an object of type [St].  Side effects made
    before an exception is thrown stay in the state. *)
Definition M (St A : Type) : Type := St -> result A * St.

Definition ret {St A} (a : A) : M St A := fun s => (Ret a, s).

Definition bind {St A B} (c : M St A) (k : A -> M St B) : M St B :=
  fun s =>
    match c s with
    | (Ret a, s') => k a s'
    | (Throw e, s') => (Throw e, s')
    | (Undefined, s') => (Undefined, s')
    | (Unfinished, s') => (Unfinished, s')
    end.

Definition throw {St A} (e : exn) : M St A := fun s => (Throw e, s).
Definition undefined {St A} : M St A := fun s => (Undefined, s).
Definition unfinished {St A} : M St A := fun s => (Unfinished, s).
Definition get {St} : M St St := fun s => (Ret s, s).
Definition gets {St A} (f : St -> A) : M St A := fun s => (Ret (f s), s).
Definition modify {St} (f : St -> St) : M St unit := fun s => (Ret tt, f s).

(** [try { body } catch (std::exception& e) { handler e }] *)
Definition try_catch {St A} (body : M St A) (handler : exn -> M St A) : M St A :=
  fun s =>
    match body s with
    | (Throw e, s') => handler e s'
    | other => other
    end.

(** Lifts the result of a pure, fallible library call. *)
Definition lift {St A} (r : result A) : M St A := fun s => (r, s).

Module Notations.
Declare Scope cxx_scope.
Delimit Scope cxx_scope with cxx.
Notation "x <- c ;; k" := (bind c (fun x => k))
  (at level 61, c at next level, right associativity) : cxx_scope.
Notation "c ;; k" := (bind c (fun _ => k))
  (at level 61, right associativity) : cxx_scope.
End Notations.

End Cxx.

Import Cxx Cxx.Notations.
Local Open Scope Z_scope.
Local Open Scope cxx_scope.

(* ===================================================================== *)
(** * [std::string] and [std::stoi]                                       *)
(* ===================================================================== *)

Module StdString.

Definition t := list ascii.

(** String literals of the source. *)
Definition lit (s : string) : t := list_ascii_of_string s.

Definition nl : ascii := "010"%char.
Definition dollar : ascii := "$"%char.
Definition space : ascii := " "%char.

(** [std::string::npos], the largest [size_t]. *)
Definition size_t_modulus : Z := 2 ^ 64.
Definition npos : Z := size_t_modulus - 1.

Definition size (s : t) : Z := Z.of_nat (List.length s).

Definition empty (s : t) : bool :=
  match s with [] => true | _ => false end.

Definition eqb (a b : t) : bool :=
  if list_eq_dec ascii_dec a b then true else false.

(** [s.find(c, pos)] for a one-character needle; [None] stands for
    [npos]. *)
Fixpoint find (c : ascii) (pos : nat) (s : t) : option nat :=
  match pos, s with
  | _, [] => None
  | O, x :: s' =>
      if Ascii.eqb x c then Some O
      else option_map S (find c O s')
  | S p, _ :: s' => option_map S (find c p s')
  end.

(** The [size_t] a [find] hands back. *)
Definition find_result (r : option nat) : Z :=
  match r with Some k => Z.of_nat k | None => npos end.

(** [s.at(i)], which checks the index. *)
Definition at_ (s : t) (i : nat) : result ascii :=
  match nth_error s i with
  | Some c => Ret c
  | None => Throw (out_of_range "basic_string::at")
  end.

(** [s.erase(pos, count)]: removes [min(count, size() - pos)] characters
    and throws when [pos > size()]. *)
Definition erase (s : t) (pos : nat) (count : Z) : result t :=
  if (List.length s <? pos)%nat then Throw (out_of_range "basic_string::erase")
  else
    let removed := Z.to_nat (Z.min count (size s - Z.of_nat pos)) in
    Ret (firstn pos s ++ skipn (pos + removed) s).

(** [s.insert(pos, str)] *)
Definition insert (s : t) (pos : nat) (str : t) : result t :=
  if (List.length s <? pos)%nat then Throw (out_of_range "basic_string::insert")
  else Ret (firstn pos s ++ str ++ skipn pos s).

Definition is_digit (c : ascii) : bool :=
  let n := nat_of_ascii c in ((48 <=? n) && (n <=? 57))%nat.

Definition digit_value (c : ascii) : Z := Z.of_nat (nat_of_ascii c) - 48.

(** [isspace] in the "C" locale. *)
Definition is_space (c : ascii) : bool :=
  let n := nat_of_ascii c in ((n =? 32) || ((9 <=? n) && (n <=? 13)))%nat.

Fixpoint skip_spaces (s : t) : t :=
  match s with
  | c :: s' => if is_space c then skip_spaces s' else s
  | [] => []
  end.

(** The value of the longest prefix of decimal digits, and how many
    digits it has. *)
Fixpoint digits (acc : Z) (count : nat) (s : t) : Z * nat :=
  match s with
  | c :: s' =>
      if is_digit c then digits (10 * acc + digit_value c) (S count) s'
      else (acc, count)
  | [] => (acc, count)
  end.

Definition INT_MAX : Z := 2147483647.
Definition INT_MIN : Z := -2147483648.

(** [std::stoi(str)] in base 10: white space, an optional sign, digits.
    No digit at all is [std::invalid_argument]; a value that does not fit
    an [int] is [std::out_of_range]. *)
Definition stoi (str : t) : result Z :=
  let body := skip_spaces str in
  let '(negative, rest) :=
    match body with
    | "-"%char :: r => (true, r)
    | "+"%char :: r => (false, r)
    | _ => (false, body)
    end in
  let '(v, count) := digits 0 0 rest in
  match count with
  | O => Throw (invalid_argument "stoi")
  | _ =>
      let v' := if negative then - v else v in
      if (INT_MIN <=? v') && (v' <=? INT_MAX) then Ret v'
      else Throw (out_of_range "stoi")
  end.

(** [uint32_t(x)] of an [int]. *)
Definition to_uint32 (x : Z) : Z := x mod 2 ^ 32.

End StdString.

(* ===================================================================== *)
(** * ScriptClient (src/src/script_client.cpp)                            *)
(* ===================================================================== *)

Module ScriptClient.
Import StdString.

Inductive ConnectionState : Type := DISCONNECTED | CONNECTED.

Definition ConnectionState_eqb (a b : ConnectionState) : bool :=
  match a, b with
  | DISCONNECTED, DISCONNECTED | CONNECTED, CONNECTED => true
  | _, _ => false
  end.

(** The TCP socket as its peer sees it: the bytes written so far, and
    whether the link is broken (a write on a broken link throws). *)
Record Socket : Type := {
  sent : StdString.t;
  broken : bool
}.

(** The data members of [ScriptClient].  [socket_] is a smart pointer:
    [None] is the null pointer. *)
Record t : Type := {
  hostname_ : StdString.t;
  major_control_version_ : Z;
  minor_control_version_ : Z;
  port_ : Z;
  verbose_ : bool;
  conn_state_ : ConnectionState;
  script_file_name_ : StdString.t;
  socket_ : option Socket
}.

Definition set_socket (c : t) (s : option Socket) : t :=
  {| hostname_ := hostname_ c;
     major_control_version_ := major_control_version_ c;
     minor_control_version_ := minor_control_version_ c;
     port_ := port_ c;
     verbose_ := verbose_ c;
     conn_state_ := conn_state_ c;
     script_file_name_ := script_file_name_ c;
     socket_ := s |}.

Definition set_conn_state (c : t) (st : ConnectionState) : t :=
  {| hostname_ := hostname_ c;
     major_control_version_ := major_control_version_ c;
     minor_control_version_ := minor_control_version_ c;
     port_ := port_ c;
     verbose_ := verbose_ c;
     conn_state_ := st;
     script_file_name_ := script_file_name_ c;
     socket_ := socket_ c |}.


(** [ScriptClient::ScriptClient] *)
Definition new (hostname : StdString.t) (major_control_version minor_control_version : Z)
    (port : Z) (verbose : bool) : t :=
  {| hostname_ := hostname;
     major_control_version_ := major_control_version;
     minor_control_version_ := minor_control_version;
     port_ := port;
     verbose_ := verbose;
     conn_state_ := DISCONNECTED;
     script_file_name_ := [];
     socket_ := None |}.

(** [boost::asio::write] on the socket [socket_] points to: writes all
    of [data] or throws.  Dereferencing a null [socket_] is undefined. *)
Definition write (data : StdString.t) : M t unit :=
  fun c =>
    match socket_ c with
    | None => (Undefined, c)
    | Some sock =>
        if broken sock then (Throw (system_error "write"), c)
        else (Ret tt, set_socket c (Some {| sent := sent sock ++ data; broken := broken sock |}))
    end.

(** [ScriptClient::connect].  [reachable] says whether the controller
    accepts the connection; a refused connection throws out of
    [boost::asio::connect], after the socket was created. *)
Definition connect (reachable : bool) : M t unit :=
  modify (fun c => set_socket c (Some {| sent := []; broken := negb reachable |})) ;;
  (if reachable then ret tt else throw (system_error "connect")) ;;
  modify (fun c => set_conn_state c CONNECTED).

(** [ScriptClient::isConnected] *)
Definition isConnected : M t bool :=
  gets (fun c => ConnectionState_eqb (conn_state_ c) CONNECTED).

(** [ScriptClient::disconnect] *)
Definition disconnect : M t unit :=
  modify (fun c => set_socket c None) ;;
  modify (fun c => set_conn_state c DISCONNECTED).

(** [ScriptClient::sendScriptCommand] *)
Definition sendScriptCommand (cmd_str : StdString.t) : M t bool :=
  connected <- isConnected ;;
  if connected && negb (empty cmd_str) then
    write cmd_str ;;
    ret true
  else
    ret false.


(** How the marker loop of [sendScript] ends: by a [return] inside the
    loop, or by falling out of it with the rewritten text. *)
Inductive pass_end : Type :=
| Returned (b : bool)
| Substituted (ur_script : StdString.t).

Section Script.

(** The built-in control script [UR_SCRIPT] comes from a generated header
    (ur_rtde/rtde_control_script.h); the files a custom script can be read
    from are the environment's. *)
Variable UR_SCRIPT : StdString.t.
Variable files : StdString.t -> option StdString.t.

(** [loadScript(file_name, str)]: the flag it returns and the new value
    of [str]. *)
Definition loadScript (file_name : StdString.t) (str : StdString.t) : bool * StdString.t :=
  match files file_name with
  | Some content => (true, content)
  | None => (false, str)
  end.

(** Lines 113-129 of [sendScript]: the text the pass starts from. *)
Definition initial_script (c : t) : StdString.t :=
  let ur_script : StdString.t := [] in
  let ur_script :=
    if negb (empty (script_file_name_ c)) then
      let '(ok, loaded) := loadScript (script_file_name_ c) ur_script in
      if negb ok then [] else loaded
    else ur_script in
  if empty ur_script then UR_SCRIPT else ur_script.

(** The body of the [while] loop of [sendScript] for the marker found at
    index [n]. *)
Definition marker_step (major_control_version minor_control_version : Z)
    (ur_script : StdString.t) (n : nat) : M t pass_end :=
  major_c <- lift (at_ ur_script (n + 2)) ;;
  minor_c <- lift (at_ ur_script (n + 3)) ;;
  let major_str : StdString.t := [major_c] in
  let minor_str : StdString.t := [minor_c] in
  if negb (empty major_str) && negb (empty minor_str)
     && negb (eqb major_str (lit " ")) && negb (eqb minor_str (lit " "))
  then
    major_int <- lift (stoi major_str) ;;
    let major_version_needed := to_uint32 major_int in
    minor_int <- lift (stoi minor_str) ;;
    let minor_version_needed := to_uint32 minor_int in
    if (major_control_version >? major_version_needed)
       || ((major_control_version =? major_version_needed)
           && (minor_control_version >=? minor_version_needed))
    then
      (* Keep the line *)
      erased <- lift (erase ur_script n 4) ;;
      blanked <- lift (insert erased n (lit "    ")) ;;
      ret (Substituted blanked)
    else
      (* Erase the line *)
      let count :=
        (find_result (find nl n ur_script) - Z.of_nat n + 1) mod size_t_modulus in
      erased <- lift (erase ur_script n count) ;;
      ret (Substituted erased)
  else
    ret (Returned false).

(** The [while (n != npos)] loop; [n] is the result of the last
    [find("$")]. *)
Fixpoint marker_loop (fuel : nat) (major_control_version minor_control_version : Z)
    (ur_script : StdString.t) (n : option nat) : M t pass_end :=
  match n with
  | None => ret (Substituted ur_script)
  | Some i =>
      match fuel with
      | O => unfinished
      | S fuel' =>
          r <- marker_step major_control_version minor_control_version ur_script i ;;
          match r with
          | Returned b => ret (Returned b)
          | Substituted ur_script' =>
              marker_loop fuel' major_control_version minor_control_version
                ur_script' (find dollar 0 ur_script')
          end
      end
  end.

(** [ScriptClient::sendScript()] *)
Definition sendScript (fuel : nat) : M t bool :=
  c <- get ;;
  let ur_script := initial_script c in
  r <- marker_loop fuel (major_control_version_ c) (minor_control_version_ c)
         ur_script (find dollar 0 ur_script) ;;
  match r with
  | Returned b => ret b
  | Substituted ur_script =>
      connected <- isConnected ;;
      if connected && negb (empty ur_script) then
        write ur_script ;;
        ret true
      else
        ret false
  end.

End Script.

End ScriptClient.

(* ===================================================================== *)
(** * The RTDE session                                                    *)
(* ===================================================================== *)

Module RTDE.

(** Modelled from the spec: [RTDE::RobotCommand::Type] (declared in
    ur_rtde/rtde.h), as far as the I/O facade uses it. *)
Inductive CommandType : Type :=
| NO_CMD
| SET_STD_DIGITAL_OUT
| SET_TOOL_DIGITAL_OUT
| SET_SPEED_SLIDER
| SET_STD_ANALOG_OUT.

(** Modelled from the spec: [RTDE::RobotCommand] (declared in
    ur_rtde/rtde.h), a tagged value with a recipe id, a command code and
    payload slots.  A default-constructed command has none of its slots
    assigned; [None] is a slot the caller left alone. *)
Record RobotCommand : Type := {
  type_ : option CommandType;
  recipe_id_ : option Z;
  std_digital_out_mask_ : option Z;
  std_digital_out_ : option Z;
  std_tool_out_mask_ : option Z;
  std_tool_out_ : option Z
}.

Definition RobotCommand_new : RobotCommand :=
  {| type_ := None; recipe_id_ := None;
     std_digital_out_mask_ := None; std_digital_out_ := None;
     std_tool_out_mask_ := None; std_tool_out_ := None |}.

Definition set_type (c : RobotCommand) (v : CommandType) : RobotCommand :=
  {| type_ := Some v; recipe_id_ := recipe_id_ c;
     std_digital_out_mask_ := std_digital_out_mask_ c; std_digital_out_ := std_digital_out_ c;
     std_tool_out_mask_ := std_tool_out_mask_ c; std_tool_out_ := std_tool_out_ c |}.

Definition set_recipe_id (c : RobotCommand) (v : Z) : RobotCommand :=
  {| type_ := type_ c; recipe_id_ := Some v;
     std_digital_out_mask_ := std_digital_out_mask_ c; std_digital_out_ := std_digital_out_ c;
     std_tool_out_mask_ := std_tool_out_mask_ c; std_tool_out_ := std_tool_out_ c |}.

Definition set_std_digital_out_mask (c : RobotCommand) (v : Z) : RobotCommand :=
  {| type_ := type_ c; recipe_id_ := recipe_id_ c;
     std_digital_out_mask_ := Some v; std_digital_out_ := std_digital_out_ c;
     std_tool_out_mask_ := std_tool_out_mask_ c; std_tool_out_ := std_tool_out_ c |}.

Definition set_std_digital_out (c : RobotCommand) (v : Z) : RobotCommand :=
  {| type_ := type_ c; recipe_id_ := recipe_id_ c;
     std_digital_out_mask_ := std_digital_out_mask_ c; std_digital_out_ := Some v;
     std_tool_out_mask_ := std_tool_out_mask_ c; std_tool_out_ := std_tool_out_ c |}.

Definition set_std_tool_out_mask (c : RobotCommand) (v : Z) : RobotCommand :=
  {| type_ := type_ c; recipe_id_ := recipe_id_ c;
     std_digital_out_mask_ := std_digital_out_mask_ c; std_digital_out_ := std_digital_out_ c;
     std_tool_out_mask_ := Some v; std_tool_out_ := std_tool_out_ c |}.

Definition set_std_tool_out (c : RobotCommand) (v : Z) : RobotCommand :=
  {| type_ := type_ c; recipe_id_ := recipe_id_ c;
     std_digital_out_mask_ := std_digital_out_mask_ c; std_digital_out_ := std_digital_out_ c;
     std_tool_out_mask_ := std_tool_out_mask_ c; std_tool_out_ := Some v |}.

(** The requests a session makes of the controller. *)
Inductive Call : Type :=
| Connect
| NegotiateProtocolVersion
| GetControllerVersion
| SendOutputSetup (names : list string) (frequency : Z)
| SendInputSetup (names : list string)
| SendStart
| Send (cmd : RobotCommand)
| ReceiveData
| Disconnect.

(** What the network does to one request: it goes through, or it fails
    with a transport error; [dropped] says whether the session already
    sees itself disconnected when the error is raised. *)
Inductive Outcome : Type :=
| Pass
| Fail (dropped : bool).

(** The controller and the link to it, which the host does not control:
    the version the controller reports and the fate of the k-th request
    made of it. *)
Record Peer : Type := {
  controller_version : Z * Z * Z * Z;
  faults : nat -> Outcome
}.

(** Modelled from the spec: the class [RTDE] (ur_rtde/rtde.h and its
    implementation), of which only the callers are in the source tree.
    Spec section 4.3: [connect] opens the socket and afterwards
    [is_connected] holds; transport errors surface as exceptions;
    [disconnect] closes the session.  [log] records every request in
    order, with whether it went through. *)
Record t : Type := {
  hostname : string;
  peer : Peer;
  connected : bool;
  clock : nat;
  log : list (Call * bool)
}.

Definition new (hostname : string) (p : Peer) : t :=
  {| hostname := hostname; peer := p; connected := false; clock := O; log := [] |}.

(** Modelled from the spec: the session after one more request [c]. *)
Definition logged (r : t) (c : Call) (ok : bool) (still_connected : bool) : t :=
  {| hostname := hostname r; peer := peer r; connected := still_connected;
     clock := S (clock r); log := log r ++ [(c, ok)] |}.

(** Modelled from the spec: one request on the socket of the session.
    A transport error surfaces as an exception. *)
Definition request (c : Call) : M t unit :=
  fun r =>
    match faults (peer r) (clock r) with
    | Pass => (Ret tt, logged r c true (connected r))
    | Fail dropped =>
        (Throw (system_error "RTDE"), logged r c false (connected r && negb dropped))
    end.

Definition set_connected (b : bool) : M t unit :=
  modify (fun r =>
    {| hostname := hostname r; peer := peer r; connected := b;
       clock := clock r; log := log r |}).

(** Modelled from the spec: [RTDE::connect]; once it has returned,
    [isConnected] holds. *)
Definition connect : M t unit :=
  request Connect ;;
  set_connected true.

(** Modelled from the spec: the session once [RTDE::disconnect] has
    closed it. *)
Definition disconnected (r : t) : t :=
  {| hostname := hostname r; peer := peer r; connected := false;
     clock := clock r; log := log r ++ [(Disconnect, true)] |}.

Definition disconnect : M t unit := modify disconnected.

(** Modelled from the spec: [RTDE::isConnected]. *)
Definition isConnected : M t bool := gets connected.

(** Modelled from the spec: [RTDE::negotiateProtocolVersion]. *)
Definition negotiateProtocolVersion : M t unit := request NegotiateProtocolVersion.

(** Modelled from the spec: [RTDE::getControllerVersion], the (major,
    minor, bugfix, build) tuple the controller reports. *)
Definition getControllerVersion : M t (Z * Z * Z * Z) :=
  request GetControllerVersion ;;
  gets (fun r => controller_version (peer r)).

(** Modelled from the spec: [RTDE::sendOutputSetup(names, frequency)]. *)
Definition sendOutputSetup (names : list string) (frequency : Z) : M t unit :=
  request (SendOutputSetup names frequency).

(** Modelled from the spec: [RTDE::sendInputSetup(names)]. *)
Definition sendInputSetup (names : list string) : M t unit :=
  request (SendInputSetup names).

(** Modelled from the spec: [RTDE::sendStart]. *)
Definition sendStart : M t unit := request SendStart.

(** Modelled from the spec: [RTDE::send(cmd)], which writes one input
    frame. *)
Definition send (cmd : RobotCommand) : M t unit := request (Send cmd).

(** Modelled from the spec: [RTDE::receiveData], which reads one output
    frame. *)
Definition receiveData : M t unit := request ReceiveData.

(** Readings of the log. *)
Definition input_recipes (l : list (Call * bool)) : list (list string) :=
  flat_map (fun e => match e with (SendInputSetup names, _) => [names] | _ => [] end) l.

Definition output_frequencies (l : list (Call * bool)) : list Z :=
  flat_map (fun e => match e with (SendOutputSetup _ f, _) => [f] | _ => [] end) l.

Definition sends (l : list (Call * bool)) : list (RobotCommand * bool) :=
  flat_map (fun e => match e with (Send cmd, ok) => [(cmd, ok)] | _ => [] end) l.

Definition receives (l : list (Call * bool)) : list bool :=
  flat_map (fun e => match e with (ReceiveData, ok) => [ok] | _ => [] end) l.

(** The k-th request made of the controller goes through. *)
Definition passes (p : Peer) (k : nat) : bool :=
  match faults p k with Pass => true | Fail _ => false end.

(** A setup sequence begun with the k-th request gets as far as its
    output setup: connect, negotiation and the version query go
    through. *)
Definition setup_reached (p : Peer) (k : nat) : bool :=
  passes p k && passes p (S k) && passes p (S (S k)).

End RTDE.

(** [std::get<MAJOR_VERSION>] with [MAJOR_VERSION] = 0, and the series
    boundary, both from the interface headers. *)
Definition MAJOR_VERSION (v : Z * Z * Z * Z) : Z :=
  let '(major, _, _, _) := v in major.
Definition CB3_MAJOR_VERSION : Z := 3.

(** The streaming frequency by controller series, as the specification
    gives it: 125 Hz if the major version is at most 3 (CB-series), 500 Hz
    otherwise (e-Series). *)
Definition series_frequency (p : RTDE.Peer) : Z :=
  if MAJOR_VERSION (RTDE.controller_version p) <=? 3 then 125 else 500.

(** Modelled from the spec: [RobotState] (ur_rtde/robot_state.h), the
    snapshot the receive path decodes frames into.  Only the number of
    frames decoded so far is kept. *)
Record RobotState : Type := { frames_decoded : nat }.

Definition RobotState_new : RobotState := {| frames_decoded := O |}.

(* ===================================================================== *)
(** * RTDEIOInterface (rtde_io_interface.cpp, src/unnamed/part_000)       *)
(* ===================================================================== *)

Module RTDEIOInterface.

(** The data members, and the two streams the code prints to.  The smart
    pointers [rtde_] and [robot_state_] are null when [None]. *)
Record t : Type := {
  hostname_ : string;
  port_ : Z;
  rtde_ : option RTDE.t;
  robot_state_ : option RobotState;
  cout : list string;
  cerr : list string
}.

Definition set_rtde (s : t) (r : option RTDE.t) : t :=
  {| hostname_ := hostname_ s; port_ := port_ s; rtde_ := r;
     robot_state_ := robot_state_ s; cout := cout s; cerr := cerr s |}.

Definition set_robot_state (s : t) (st : option RobotState) : t :=
  {| hostname_ := hostname_ s; port_ := port_ s; rtde_ := rtde_ s;
     robot_state_ := st; cout := cout s; cerr := cerr s |}.

Definition print_cout (line : string) : M t unit :=
  modify (fun s =>
    {| hostname_ := hostname_ s; port_ := port_ s; rtde_ := rtde_ s;
       robot_state_ := robot_state_ s; cout := cout s ++ [line]; cerr := cerr s |}).

Definition print_cerr (line : string) : M t unit :=
  modify (fun s =>
    {| hostname_ := hostname_ s; port_ := port_ s; rtde_ := rtde_ s;
       robot_state_ := robot_state_ s; cout := cout s; cerr := cerr s ++ [line] |}).

(** [rtde_->op(...)]; calling through a null [rtde_] is undefined. *)
Definition on_rtde {A} (op : M RTDE.t A) : M t A :=
  fun s =>
    match rtde_ s with
    | None => (Undefined, s)
    | Some r => let '(res, r') := op r in (res, set_rtde s (Some r'))
    end.

Definition rtde_not_null : M t bool :=
  gets (fun s => match rtde_ s with Some _ => true | None => false end).

(** The requests the session of [s] has made, and whether it is
    connected. *)
Definition session_log (s : t) : list (RTDE.Call * bool) :=
  match rtde_ s with Some r => RTDE.log r | None => [] end.

Definition session_connected (s : t) : bool :=
  match rtde_ s with Some r => RTDE.connected r | None => false end.

(** The statements of [RTDEIOInterface::RTDEIOInterface] after the member
    initialisers. *)
Definition constructor_body (p : RTDE.Peer) : M t unit :=
  hostname <- gets hostname_ ;;
  modify (fun s => set_rtde s (Some (RTDE.new hostname p))) ;;
  on_rtde RTDE.connect ;;
  on_rtde RTDE.negotiateProtocolVersion ;;
  controller_version <- on_rtde RTDE.getControllerVersion ;;
  let major_version := MAJOR_VERSION controller_version in
  let frequency := 125 in
  (* If e-Series Robot set frequency to 500Hz *)
  let frequency := if major_version >? CB3_MAJOR_VERSION then 500 else frequency in
  (* Setup output *)
  let state_names := ["robot_status_bits"; "output_int_register_0"]%string in
  on_rtde (RTDE.sendOutputSetup state_names frequency) ;;
  (* Recipe 1 *)
  let no_cmd_input := ["input_int_register_20"]%string in
  on_rtde (RTDE.sendInputSetup no_cmd_input) ;;
  (* Recipe 2 *)
  let set_std_digital_out_input :=
    ["input_int_register_20"; "standard_digital_output_mask";
     "standard_digital_output"]%string in
  on_rtde (RTDE.sendInputSetup set_std_digital_out_input) ;;
  (* Recipe 3 *)
  let set_tool_digital_out_input :=
    ["input_int_register_20"; "tool_digital_output_mask";
     "tool_digital_output"]%string in
  on_rtde (RTDE.sendInputSetup set_tool_digital_out_input) ;;
  (* Recipe 4 *)
  let set_speed_slider :=
    ["input_int_register_20"; "speed_slider_mask"; "speed_slider_fraction"]%string in
  on_rtde (RTDE.sendInputSetup set_speed_slider) ;;
  (* Recipe 5 *)
  let set_std_analog_output :=
    ["input_int_register_2"; "standard_analog_output_mask";
     "standard_analog_output_type"; "standard_analog_output_0";
     "standard_analog_output_1"]%string in
  on_rtde (RTDE.sendInputSetup set_std_analog_output) ;;
  (* Init Robot state *)
  modify (fun s => set_robot_state s (Some RobotState_new)) ;;
  (* Start RTDE data synchronization *)
  on_rtde RTDE.sendStart.

(** [RTDEIOInterface::RTDEIOInterface(hostname, port)] against the
    controller [p]: how the constructor ends, and the object as the
    constructor left it. *)
Definition new (p : RTDE.Peer) (hostname : string) (port : Z) : result unit * t :=
  constructor_body p
    {| hostname_ := hostname; port_ := port; rtde_ := None;
       robot_state_ := None; cout := []; cerr := [] |}.

(** [RTDEIOInterface::reconnect] *)
Definition reconnect : M t bool :=
  on_rtde RTDE.connect ;;
  on_rtde RTDE.negotiateProtocolVersion ;;
  controller_version <- on_rtde RTDE.getControllerVersion ;;
  let major_version := MAJOR_VERSION controller_version in
  let frequency := 125 in
  (* If e-Series Robot set frequency to 500Hz *)
  let frequency := if major_version >? CB3_MAJOR_VERSION then 500 else frequency in
  (* Setup output *)
  let state_names := ["robot_status_bits"; "output_int_register_0"]%string in
  on_rtde (RTDE.sendOutputSetup state_names frequency) ;;
  (* Recipe 1 *)
  let no_cmd_input := ["input_int_register_20"]%string in
  on_rtde (RTDE.sendInputSetup no_cmd_input) ;;
  (* Recipe 2 *)
  let set_std_digital_out_input :=
    ["input_int_register_20"; "standard_digital_output_mask";
     "standard_digital_output"]%string in
  on_rtde (RTDE.sendInputSetup set_std_digital_out_input) ;;
  (* Recipe 3 *)
  let set_tool_digital_out_input :=
    ["input_int_register_20"; "tool_digital_output_mask";
     "tool_digital_output"]%string in
  on_rtde (RTDE.sendInputSetup set_tool_digital_out_input) ;;
  (* Recipe 4 *)
  let set_speed_slider :=
    ["input_int_register_20"; "speed_slider_mask"; "speed_slider_fraction"]%string in
  on_rtde (RTDE.sendInputSetup set_speed_slider) ;;
  (* Recipe 5 *)
  let set_std_analog_output :=
    ["input_int_register_20"; "standard_analog_output_mask";
     "standard_analog_output_type"; "standard_analog_output_0";
     "standard_analog_output_1"]%string in
  on_rtde (RTDE.sendInputSetup set_std_analog_output) ;;
  (* Init Robot state *)
  modify (fun s => set_robot_state s (Some RobotState_new)) ;;
  (* Start RTDE data synchronization *)
  on_rtde RTDE.sendStart ;;
  (* Wait for connection to be fully established before returning *)
  ret true.

(** The requests of one [reconnect] all of which go through, against a
    controller [p]. *)
Definition reconnect_requests (p : RTDE.Peer) : list (RTDE.Call * bool) :=
  [(RTDE.Connect, true);
   (RTDE.NegotiateProtocolVersion, true);
   (RTDE.GetControllerVersion, true);
   (RTDE.SendOutputSetup ["robot_status_bits"; "output_int_register_0"]%string
      (series_frequency p), true);
   (RTDE.SendInputSetup ["input_int_register_20"]%string, true);
   (RTDE.SendInputSetup
      ["input_int_register_20"; "standard_digital_output_mask";
       "standard_digital_output"]%string, true);
   (RTDE.SendInputSetup
      ["input_int_register_20"; "tool_digital_output_mask";
       "tool_digital_output"]%string, true);
   (RTDE.SendInputSetup
      ["input_int_register_20"; "speed_slider_mask"; "speed_slider_fraction"]%string,
    true);
   (RTDE.SendInputSetup
      ["input_int_register_20"; "standard_analog_output_mask";
       "standard_analog_output_type"; "standard_analog_output_0";
       "standard_analog_output_1"]%string, true);
   (RTDE.SendStart, true)].

(** The field a recipe opens with: the integer register its command
    code goes to. *)
Definition command_slot (recipe : list string) : option string := hd_error recipe.

(** [std::isnan], [std::isgreaterequal] and [std::islessequal] on
    IEEE-754 doubles; the two comparisons are false when an operand is a
    NaN. *)
Definition isnan (x : spec_float) : bool :=
  match x with S754_nan => true | _ => false end.
Definition isgreaterequal (x y : spec_float) : bool := SFleb y x.
Definition islessequal (x y : spec_float) : bool := SFleb x y.

(** [x <= y] as IEEE-754 orders two doubles; it holds of no NaN. *)
Definition double_le (x y : spec_float) : Prop :=
  SFcompare x y = Some Lt \/ SFcompare x y = Some Eq.

Section Validation.

(** How [operator<<] prints a double into the error message. *)
Variable show_double : spec_float -> string.

(** [RTDEIOInterface::verifyValueIsWithin] *)
Definition verifyValueIsWithin (value min max : spec_float) : M t unit :=
  if isnan min || isnan max then
    throw (invalid_argument "Make sure both min and max are not NaN's")
  else if isnan value then
    throw (invalid_argument "The value is considered NaN")
  else if negb (isgreaterequal value min && islessequal value max) then
    throw (range_error
             ("The value is not within [" ++ show_double min ++ ";"
              ++ show_double max ++ "]")%string)
  else
    ret tt.

End Validation.

(** [std::pow(2.0, output_id)] for an unsigned 8-bit [output_id]: the
    power of two, which a double holds exactly. *)
Definition pow2 (output_id : Z) : Z := 2 ^ output_id.

(** [static_cast<uint8_t>(x)] of a double with an integral value: the
    value when it fits, undefined behaviour when it does not. *)
Definition static_cast_uint8 (x : Z) : M t Z :=
  if (0 <=? x) && (x <=? 255) then ret x else undefined.

(** [RTDEIOInterface::sendCommand].  One unit of fuel per call of the
    function, which calls itself after a reconnect. *)
Fixpoint sendCommand (fuel : nat) (cmd : RTDE.RobotCommand) : M t bool :=
  match fuel with
  | O => unfinished
  | S fuel' =>
      returned <-
        try_catch
          ((* Send command to the controller *)
           on_rtde (RTDE.send cmd) ;;
           ret (Some true))
          (fun e =>
             print_cout "RTDEIOInterface: Lost connection to robot..." ;;
             print_cerr (what e) ;;
             not_null <- rtde_not_null ;;
             (if not_null then
                is_connected <- on_rtde RTDE.isConnected ;;
                if is_connected then on_rtde RTDE.disconnect else ret tt
              else ret tt) ;;
             ret None) ;;
      match returned with
      | Some b => ret b
      | None =>
          is_connected <- on_rtde RTDE.isConnected ;;
          (if negb is_connected then
             print_cout "RTDEIOInterface: Robot is disconnected, reconnecting..." ;;
             reconnect ;;
             sendCommand fuel' cmd ;;
             ret tt
           else ret tt) ;;
          (* control reaches the closing brace of a function that returns
             bool without a return statement *)
          undefined
      end
  end.


(** The command that sets one standard digital output: on recipe 2, with
    the mask 2^id, and as value that same bit for level true and 0 for
    level false. *)
Definition std_digital_out_command (output_id : Z) (signal_level : bool)
  : RTDE.RobotCommand :=
  {| RTDE.type_ := Some RTDE.SET_STD_DIGITAL_OUT;
     RTDE.recipe_id_ := Some 2;
     RTDE.std_digital_out_mask_ := Some (2 ^ output_id);
     RTDE.std_digital_out_ := Some (if signal_level then 2 ^ output_id else 0);
     RTDE.std_tool_out_mask_ := None;
     RTDE.std_tool_out_ := None |}.

(** [RTDEIOInterface::setStandardDigitalOut] *)
Definition setStandardDigitalOut (fuel : nat) (output_id : Z) (signal_level : bool) : M t bool :=
  let robot_cmd := RTDE.RobotCommand_new in
  let robot_cmd := RTDE.set_type robot_cmd RTDE.SET_STD_DIGITAL_OUT in
  let robot_cmd := RTDE.set_recipe_id robot_cmd 2 in
  robot_cmd <-
    (if signal_level then
       mask <- static_cast_uint8 (pow2 output_id) ;;
       let robot_cmd := RTDE.set_std_digital_out_mask robot_cmd mask in
       out <- static_cast_uint8 (pow2 output_id) ;;
       ret (RTDE.set_std_digital_out robot_cmd out)
     else
       mask <- static_cast_uint8 (pow2 output_id) ;;
       let robot_cmd := RTDE.set_std_digital_out_mask robot_cmd mask in
       ret (RTDE.set_std_digital_out robot_cmd 0)) ;;
  sendCommand fuel robot_cmd.

(** [RTDEIOInterface::setToolDigitalOut] *)
Definition setToolDigitalOut (fuel : nat) (output_id : Z) (signal_level : bool) : M t bool :=
  let robot_cmd := RTDE.RobotCommand_new in
  let robot_cmd := RTDE.set_type robot_cmd RTDE.SET_TOOL_DIGITAL_OUT in
  let robot_cmd := RTDE.set_recipe_id robot_cmd 3 in
  robot_cmd <-
    (if signal_level then
       mask <- static_cast_uint8 (pow2 output_id) ;;
       let robot_cmd := RTDE.set_std_tool_out_mask robot_cmd mask in
       out <- static_cast_uint8 (pow2 output_id) ;;
       ret (RTDE.set_std_tool_out robot_cmd out)
     else
       mask <- static_cast_uint8 (pow2 output_id) ;;
       let robot_cmd := RTDE.set_std_tool_out_mask robot_cmd mask in
       ret (RTDE.set_std_tool_out robot_cmd 0)) ;;
  sendCommand fuel robot_cmd.

End RTDEIOInterface.

(* ===================================================================== *)
(** * RTDEReceiveInterface (src/src/rtde_receive_interface.cpp)           *)
(* ===================================================================== *)

Module RTDEReceiveInterface.

(** The data members and the error stream.  [th_] is the handle of the
    worker thread, null when [None]; [stop_thread] is the flag the worker
    polls. *)
Record t : Type := {
  variables_ : list string;
  hostname_ : string;
  port_ : Z;
  verbose_ : bool;
  rtde_ : option RTDE.t;
  robot_state_ : option RobotState;
  stop_thread : bool;
  th_ : option unit;
  cerr : list string
}.

Definition set_variables (s : t) (v : list string) : t :=
  {| variables_ := v; hostname_ := hostname_ s; port_ := port_ s;
     verbose_ := verbose_ s; rtde_ := rtde_ s; robot_state_ := robot_state_ s;
     stop_thread := stop_thread s; th_ := th_ s; cerr := cerr s |}.

Definition set_rtde (s : t) (r : option RTDE.t) : t :=
  {| variables_ := variables_ s; hostname_ := hostname_ s; port_ := port_ s;
     verbose_ := verbose_ s; rtde_ := r; robot_state_ := robot_state_ s;
     stop_thread := stop_thread s; th_ := th_ s; cerr := cerr s |}.

Definition set_robot_state (s : t) (st : option RobotState) : t :=
  {| variables_ := variables_ s; hostname_ := hostname_ s; port_ := port_ s;
     verbose_ := verbose_ s; rtde_ := rtde_ s; robot_state_ := st;
     stop_thread := stop_thread s; th_ := th_ s; cerr := cerr s |}.

Definition set_stop_thread (s : t) (b : bool) : t :=
  {| variables_ := variables_ s; hostname_ := hostname_ s; port_ := port_ s;
     verbose_ := verbose_ s; rtde_ := rtde_ s; robot_state_ := robot_state_ s;
     stop_thread := b; th_ := th_ s; cerr := cerr s |}.

Definition set_th (s : t) (h : option unit) : t :=
  {| variables_ := variables_ s; hostname_ := hostname_ s; port_ := port_ s;
     verbose_ := verbose_ s; rtde_ := rtde_ s; robot_state_ := robot_state_ s;
     stop_thread := stop_thread s; th_ := h; cerr := cerr s |}.

Definition print_cerr (line : string) : M t unit :=
  modify (fun s =>
    {| variables_ := variables_ s; hostname_ := hostname_ s; port_ := port_ s;
       verbose_ := verbose_ s; rtde_ := rtde_ s; robot_state_ := robot_state_ s;
       stop_thread := stop_thread s; th_ := th_ s; cerr := cerr s ++ [line] |}).

(** [rtde_->op(...)]; calling through a null [rtde_] is undefined. *)
Definition on_rtde {A} (op : M RTDE.t A) : M t A :=
  fun s =>
    match rtde_ s with
    | None => (Undefined, s)
    | Some r => let '(res, r') := op r in (res, set_rtde s (Some r'))
    end.

Definition rtde_not_null : M t bool :=
  gets (fun s => match rtde_ s with Some _ => true | None => false end).

(** The requests the session of [s] has made, and whether it is
    connected. *)
Definition session_log (s : t) : list (RTDE.Call * bool) :=
  match rtde_ s with Some r => RTDE.log r | None => [] end.

Definition session_connected (s : t) : bool :=
  match rtde_ s with Some r => RTDE.connected r | None => false end.

(** [rtde_->receiveData(robot_state_)]: a frame that arrives is decoded
    into the snapshot [robot_state_] points to. *)
Definition receiveData : M t unit :=
  on_rtde RTDE.receiveData ;;
  snapshot <- gets robot_state_ ;;
  match snapshot with
  | None => undefined
  | Some st =>
      modify (fun s => set_robot_state s (Some {| frames_decoded := S (frames_decoded st) |}))
  end.

(** The names [setupRecipes] subscribes to when the caller gave none. *)
Definition all_variables : list string :=
  ["timestamp"; "target_q"; "target_qd"; "target_qdd"; "target_current";
   "target_moment"; "actual_q"; "actual_qd"; "actual_current";
   "joint_control_output"; "actual_TCP_pose"; "actual_TCP_speed";
   "actual_TCP_force"; "target_TCP_pose"; "target_TCP_speed";
   "actual_digital_input_bits"; "joint_temperatures"; "actual_execution_time";
   "robot_mode"; "joint_mode"; "safety_mode"; "actual_tool_accelerometer";
   "speed_scaling"; "target_speed_fraction"; "actual_momentum";
   "actual_main_voltage"; "actual_robot_voltage"; "actual_robot_current";
   "actual_joint_voltage"; "actual_digital_output_bits"; "runtime_state";
   "standard_analog_input0"; "standard_analog_input1";
   "standard_analog_output0"; "standard_analog_output1"; "robot_status_bits";
   "output_int_register_0"; "output_int_register_1"; "output_int_register_2";
   "output_int_register_3"; "output_int_register_4"; "output_int_register_5";
   "output_int_register_6"; "output_int_register_7";
   "output_double_register_0"; "output_double_register_1";
   "output_double_register_2"; "output_double_register_3";
   "output_double_register_4"; "output_double_register_5";
   "output_double_register_6"; "output_double_register_7"]%string.

(** [RTDEReceiveInterface::setupRecipes] *)
Definition setupRecipes (frequency : Z) : M t bool :=
  variables <- gets variables_ ;;
  (match variables with
   | [] =>
       (* Assume all variables *)
       modify (fun s => set_variables s all_variables)
   | _ => ret tt
   end) ;;
  (* Setup output *)
  variables <- gets variables_ ;;
  on_rtde (RTDE.sendOutputSetup variables frequency) ;;
  ret true.

(** [RTDEReceiveInterface::receiveCallback], the body of the worker
    thread.  One unit of fuel per evaluation of the loop condition. *)
Fixpoint receiveCallback (fuel : nat) : M t unit :=
  match fuel with
  | O => unfinished
  | S fuel' =>
      stop <- gets stop_thread ;;
      if negb stop then
        (* Receive and update the robot state *)
        try_catch
          receiveData
          (fun e =>
             print_cerr (what e) ;;
             is_connected <- on_rtde RTDE.isConnected ;;
             (if is_connected then on_rtde RTDE.disconnect else ret tt) ;;
             modify (fun s => set_stop_thread s true)) ;;
        receiveCallback fuel'
      else
        ret tt
  end.

(** The object as the [catch] block of [receiveCallback] leaves it after
    a receive on the session [r] has failed: the message printed, the
    session closed if it was still up, the stop flag set. *)
Definition after_error (s : t) (r : RTDE.t) (dropped : bool) : t :=
  let failed := RTDE.logged r RTDE.ReceiveData false (RTDE.connected r && negb dropped) in
  {| variables_ := variables_ s; hostname_ := hostname_ s; port_ := port_ s;
     verbose_ := verbose_ s;
     rtde_ := Some (if RTDE.connected failed then RTDE.disconnected failed else failed);
     robot_state_ := robot_state_ s;
     stop_thread := true; th_ := th_ s;
     cerr := cerr s ++ [what (system_error "RTDE")] |}.

(** The object after one more frame has been received and decoded. *)
Definition after_frame (s : t) (r : RTDE.t) (st : RobotState) : t :=
  {| variables_ := variables_ s; hostname_ := hostname_ s; port_ := port_ s;
     verbose_ := verbose_ s;
     rtde_ := Some (RTDE.logged r RTDE.ReceiveData true (RTDE.connected r));
     robot_state_ := Some {| frames_decoded := S (frames_decoded st) |};
     stop_thread := stop_thread s; th_ := th_ s; cerr := cerr s |}.

(** What a run of the loop may add to the log after the frames it
    received: nothing, or one failed receive and the disconnect that
    answers it, and these only with the stop flag set and the session
    closed. *)
Definition closing (s' : t) (tail : list (RTDE.Call * bool)) : Prop :=
  tail = []
  \/ ((tail = [(RTDE.ReceiveData, false)]
       \/ tail = [(RTDE.ReceiveData, false); (RTDE.Disconnect, true)])
      /\ stop_thread s' = true /\ session_connected s' = false).

(** [th_ = std::make_shared<boost::thread>(...receiveCallback...)]
    followed by the wait the caller makes: the worker gets through
    [slices] evaluations of its loop condition before the caller goes on,
    and keeps running afterwards unless it has returned. *)
Definition start_worker (slices : nat) : M t unit :=
  modify (fun s => set_th s (Some tt)) ;;
  fun s =>
    match receiveCallback slices s with
    | (Undefined, s') => (Undefined, s')
    | (_, s') => (Ret tt, s')
    end.

(** One turn of the loop of [receiveCallback] past its condition: the
    receive and the [catch] block that answers a failure. *)
Definition receive_turn : M t unit :=
  try_catch
    receiveData
    (fun e =>
       print_cerr (what e) ;;
       is_connected <- on_rtde RTDE.isConnected ;;
       (if is_connected then on_rtde RTDE.disconnect else ret tt) ;;
       modify (fun s => set_stop_thread s true)).

(** [th_->interrupt(); th_->join()] once [stop_thread] is set.  When the
    flag is set the worker is at its loop condition (or has returned
    already), or it is inside [receiveData]; [in_flight] says which.  The
    read is no interruption point: a receive in flight comes to its end,
    with the frame decoded or the error handled, and only then does the
    worker test the flag and return. *)
Definition join_worker (in_flight : bool) : M t unit :=
  handle <- gets th_ ;;
  match handle with
  | None => undefined
  | Some _ =>
      (if in_flight then receive_turn else ret tt) ;;
      receiveCallback 1
  end.

(** The statements of [RTDEReceiveInterface::RTDEReceiveInterface] after
    the member initialisers. *)
Definition constructor_body (p : RTDE.Peer) (slices : nat) : M t unit :=
  hostname <- gets hostname_ ;;
  modify (fun s => set_rtde s (Some (RTDE.new hostname p))) ;;
  on_rtde RTDE.connect ;;
  on_rtde RTDE.negotiateProtocolVersion ;;
  controller_version <- on_rtde RTDE.getControllerVersion ;;
  let major_version := MAJOR_VERSION controller_version in
  let frequency := 125 in
  (* If e-Series Robot set frequency to 500Hz *)
  let frequency := if major_version >? CB3_MAJOR_VERSION then 500 else frequency in
  (* Setup recipes *)
  setupRecipes frequency ;;
  (* Start RTDE data synchronization *)
  on_rtde RTDE.sendStart ;;
  (* Init Robot state *)
  modify (fun s => set_robot_state s (Some RobotState_new)) ;;
  (* Start executing receiveCallback *)
  start_worker slices.

(** [RTDEReceiveInterface::RTDEReceiveInterface(hostname, variables, port,
    verbose)] against the controller [p].  The stop flag starts out
    false. *)
Definition new (p : RTDE.Peer) (slices : nat) (hostname : string)
    (variables : list string) (port : Z) (verbose : bool) : result unit * t :=
  constructor_body p slices
    {| variables_ := variables; hostname_ := hostname; port_ := port;
       verbose_ := verbose; rtde_ := None; robot_state_ := None;
       stop_thread := false; th_ := None; cerr := [] |}.

(** [RTDEReceiveInterface::disconnect]; [in_flight] says whether the
    worker is inside a receive when the flag is set. *)
Definition disconnect (in_flight : bool) : M t unit :=
  (* Stop the receive callback function *)
  modify (fun s => set_stop_thread s true) ;;
  join_worker in_flight ;;
  not_null <- rtde_not_null ;;
  (if not_null then
     is_connected <- on_rtde RTDE.isConnected ;;
     if is_connected then on_rtde RTDE.disconnect else ret tt
   else ret tt).

(** [RTDEReceiveInterface::isConnected] *)
Definition isConnected : M t bool := on_rtde RTDE.isConnected.

(** [RTDEReceiveInterface::reconnect] *)
Definition reconnect (slices : nat) : M t bool :=
  not_null <- rtde_not_null ;;
  (if not_null then
     on_rtde RTDE.connect ;;
     on_rtde RTDE.negotiateProtocolVersion ;;
     controller_version <- on_rtde RTDE.getControllerVersion ;;
     let major_version := MAJOR_VERSION controller_version in
     let frequency := 125 in
     (* If e-Series Robot set frequency to 500Hz *)
     let frequency := if major_version >? CB3_MAJOR_VERSION then 500 else frequency in
     (* Setup recipes *)
     setupRecipes frequency ;;
     (* Start RTDE data synchronization *)
     on_rtde RTDE.sendStart ;;
     modify (fun s => set_stop_thread s false) ;;
     (* Start executing receiveCallback *)
     start_worker slices
   else ret tt) ;;
  isConnected.

End RTDEReceiveInterface.

(* ===================================================================== *)
(** * Script texts, line by line                                          *)
(* ===================================================================== *)

Module ScriptText.
Import StdString.

(** [c] does not occur in [s]. *)
Definition lacks (c : ascii) (s : t) : bool :=
  forallb (fun x => negb (Ascii.eqb x c)) s.

(** A newline-terminated line of a script that carries at most one
    marker.  A marker is the dollar sign, one more character [tag], and
    the two version characters [major] and [minor]; [before] is what the
    line holds in front of the marker and [body] what follows it. *)
Inductive line : Type :=
| Plain (body : t)
| Marked (before : t) (tag major minor : ascii) (body : t).

Definition well_formed (l : line) : bool :=
  match l with
  | Plain body => lacks dollar body && lacks nl body
  | Marked before tag major minor body =>
      lacks dollar before && lacks nl before
      && negb (Ascii.eqb tag nl)
      && is_digit major && is_digit minor
      && lacks dollar body && lacks nl body
  end.

Definition render (l : line) : t :=
  match l with
  | Plain body => body ++ [nl]
  | Marked before tag major minor body =>
      before ++ [dollar; tag; major; minor] ++ body ++ [nl]
  end.

Definition render_all (ls : list line) : t := flat_map render ls.

Definition markers (ls : list line) : nat :=
  List.length (filter (fun l => match l with Marked _ _ _ _ _ => true | Plain _ => false end) ls).

(** The live version (major, minor) is at least the version (M, N) a
    marker asks for: major > M, or major = M and minor >= N. *)
Definition version_at_least (live_major live_minor : Z) (M N : ascii) : bool :=
  (digit_value M <? live_major)
  || ((digit_value M =? live_major) && (digit_value N <=? live_minor)).

(** What is to be left of a line: a plain line as it is; a marked line
    that fits with blanks in place of its marker; of a marked line that
    does not fit, only what stood in front of the marker. *)
Definition retained (live_major live_minor : Z) (l : line) : t :=
  match l with
  | Plain body => body ++ [nl]
  | Marked before tag major minor body =>
      if version_at_least live_major live_minor major minor
      then before ++ lit "    " ++ body ++ [nl]
      else before
  end.

Definition retained_all (live_major live_minor : Z) (ls : list line) : t :=
  flat_map (retained live_major live_minor) ls.

(** The lines of a text, each with its newline. *)
Fixpoint split_lines (current : t) (s : t) : list t :=
  match s with
  | [] => match current with [] => [] | _ => [current] end
  | c :: s' =>
      if Ascii.eqb c nl then (current ++ [c]) :: split_lines [] s'
      else split_lines (current ++ [c]) s'
  end.

(** The substitution as the specification words it: a line with a marker
    whose version characters are digits stays (its marker blanked) when
    the live version is at least the marker's, and goes as a whole,
    newline included, when it is not. *)
Definition whole_line_rule (live_major live_minor : Z) (l : t) : t :=
  match find dollar 0 l with
  | None => l
  | Some n =>
      match nth_error l (n + 2), nth_error l (n + 3) with
      | Some M, Some N =>
          if is_digit M && is_digit N then
            if version_at_least live_major live_minor M N
            then firstn n l ++ lit "    " ++ skipn (n + 4) l
            else []
          else l
      | _, _ => l
      end
  end.

Definition whole_line_text (live_major live_minor : Z) (s : t) : t :=
  flat_map (whole_line_rule live_major live_minor) (split_lines [] s).

End ScriptText.

(* ===================================================================== *)
(** * The rest of the three classes                                       *)
(* ===================================================================== *)

(** [std::bitset<N>]: the value of its bits. *)
Module StdBitset.

(** [std::bitset<N>(val)] keeps the low [N] bits of [val]. *)
Definition of_value (N : Z) (val : Z) : Z := val mod 2 ^ N.

(** [bits.test(pos)], which throws when [pos] is not below [N]. *)
Definition test (N : Z) (bits : Z) (pos : Z) : result bool :=
  if pos <? N then Ret (Z.testbit bits pos)
  else Throw (out_of_range "bitset::test").

End StdBitset.

Module ScriptClientFile.
Import StdString ScriptClient.

Section Files.

Variable files : StdString.t -> option StdString.t.

(** [ScriptClient::sendScript(const std::string &file_name)] *)
Definition sendScript (file_name : StdString.t) : M ScriptClient.t bool :=
  let str : StdString.t := [] in
  let '(ok, str) := loadScript files file_name str in
  if negb ok then
    ret false
  else
    connected <- isConnected ;;
    if connected && negb (empty str) then
      write str ;;
      ret true
    else
      ret false.

End Files.

End ScriptClientFile.

Module ScriptMarkers.
Import StdString.

(** How often the dollar sign occurs in a text. *)
Definition dollars (s : StdString.t) : nat :=
  List.length (filter (fun x => Ascii.eqb x dollar) s).

(** Every dollar sign of the text has a newline somewhere after it. *)
Fixpoint closed_lines (s : StdString.t) : bool :=
  match s with
  | [] => true
  | c :: s' =>
      (if Ascii.eqb c dollar then existsb (fun x => Ascii.eqb x nl) s' else true)
      && closed_lines s'
  end.

End ScriptMarkers.

Module RTDEIOInterfaceRest.
Import RTDEIOInterface.

(** [RTDEIOInterface::RobotStatus::ROBOT_STATUS_PROGRAM_RUNNING] and
    [sizeof(uint32_t)]. *)
Definition ROBOT_STATUS_PROGRAM_RUNNING : Z := 1.
Definition sizeof_uint32_t : Z := 4.

(** [RTDEIOInterface::~RTDEIOInterface] *)
Definition destructor : M t unit :=
  not_null <- rtde_not_null ;;
  if not_null then
    is_connected <- on_rtde RTDE.isConnected ;;
    if is_connected then on_rtde RTDE.disconnect else ret tt
  else ret tt.

(** [rtde_->receiveData(robot_state_)]: a frame that arrives is decoded
    into the snapshot [robot_state_] points to. *)
Definition receiveData : M t unit :=
  on_rtde RTDE.receiveData ;;
  snapshot <- gets robot_state_ ;;
  match snapshot with
  | None => undefined
  | Some st =>
      modify (fun s => set_robot_state s (Some {| frames_decoded := S (frames_decoded st) |}))
  end.

Section Status.

(** [RobotState::getRobot_status] (ur_rtde/robot_state.h): the status
    word a snapshot holds. *)
Variable getRobot_status : RobotState -> Z.

(** [RTDEIOInterface::isProgramRunning] *)
Definition isProgramRunning : M t bool :=
  snapshot <- gets robot_state_ ;;
  match snapshot with
  | Some _ =>
      (* Receive RobotState *)
      receiveData ;;
      snapshot <- gets robot_state_ ;;
      match snapshot with
      | None => undefined
      | Some st =>
          let status_bits := StdBitset.of_value sizeof_uint32_t (getRobot_status st) in
          lift (StdBitset.test sizeof_uint32_t status_bits ROBOT_STATUS_PROGRAM_RUNNING)
      end
  | None =>
      throw (logic_error "Please initialize the RobotState, before using it!")
  end.

End Status.

(** The command [setToolDigitalOut] builds: on recipe 3, with the mask
    2^id, and as value that same bit for level true and 0 for level
    false. *)
Definition tool_digital_out_command (output_id : Z) (signal_level : bool)
  : RTDE.RobotCommand :=
  {| RTDE.type_ := Some RTDE.SET_TOOL_DIGITAL_OUT;
     RTDE.recipe_id_ := Some 3;
     RTDE.std_digital_out_mask_ := None;
     RTDE.std_digital_out_ := None;
     RTDE.std_tool_out_mask_ := Some (2 ^ output_id);
     RTDE.std_tool_out_ := Some (if signal_level then 2 ^ output_id else 0) |}.

End RTDEIOInterfaceRest.

Module RTDEReceiveInterfaceRest.
Import RTDEReceiveInterface.

(** [RTDEReceiveInterface::~RTDEReceiveInterface] *)
Definition destructor (in_flight : bool) : M t unit := disconnect in_flight.

(** [std::numeric_limits<uint64_t>::digits] *)
Definition uint64_digits : Z := 64.

Section Snapshot.

(** [RobotState::getActual_digital_output_bits]
    (ur_rtde/robot_state.h): the output bits a snapshot holds. *)
Variable getActual_digital_output_bits : RobotState -> Z.

(** [RTDEReceiveInterface::getActualDigitalOutputBits] *)
Definition getActualDigitalOutputBits : M t Z :=
  snapshot <- gets robot_state_ ;;
  match snapshot with
  | None => undefined
  | Some st => ret (getActual_digital_output_bits st)
  end.

(** [RTDEReceiveInterface::getDigitalOutState] *)
Definition getDigitalOutState (output_id : Z) : M t bool :=
  snapshot <- gets robot_state_ ;;
  match snapshot with
  | None => undefined
  | Some st =>
      let output_bits := getActual_digital_output_bits st in
      let output_bitset := StdBitset.of_value uint64_digits output_bits in
      lift (StdBitset.test uint64_digits output_bitset output_id)
  end.

End Snapshot.

(** An object all of whose pointers are set, as the constructor leaves
    it. *)
Definition built (s : t) : Prop :=
  rtde_ s <> None /\ robot_state_ s <> None /\ th_ s <> None.

End RTDEReceiveInterfaceRest.

(* ===================================================================== *)
(** * Sample controllers, sessions and scripts                            *)
(* ===================================================================== *)

Module Samples.
Import RTDE StdString ScriptText.

(** A connected script client of a controller of the given version. *)
Definition session (major minor : Z) : ScriptClient.t :=
  {| ScriptClient.hostname_ := lit "192.168.0.10";
     ScriptClient.major_control_version_ := major;
     ScriptClient.minor_control_version_ := minor;
     ScriptClient.port_ := 30002;
     ScriptClient.verbose_ := false;
     ScriptClient.conn_state_ := ScriptClient.CONNECTED;
     ScriptClient.script_file_name_ := [];
     ScriptClient.socket_ := Some {| ScriptClient.sent := []; ScriptClient.broken := false |} |}.

(** No custom script file can be read. *)
Definition no_files : StdString.t -> option StdString.t := fun _ => None.

Definition sample_lines : list line :=
  [Plain (lit "def rtde_control():");
   Marked [] "V"%char "5"%char "1"%char (lit "enable_external_ft_sensor(False)");
   Marked [] "V"%char "3"%char "0"%char (lit "textmsg(1)")].

(** An e-Series controller on a sound link. *)
Definition e_series : Peer :=
  {| controller_version := (5, 10, 0, 0); faults := fun _ => Pass |}.

(** A CB-series controller on a sound link. *)
Definition cb_series : Peer :=
  {| controller_version := (3, 14, 0, 0); faults := fun _ => Pass |}.

(** An e-Series controller on a link that loses the k-th request. *)
Definition lossy (k : nat) (dropped : bool) : Peer :=
  {| controller_version := (5, 10, 0, 0);
     faults := fun i => if Nat.eqb i k then Fail dropped else Pass |}.

Definition io_session (p : Peer) : RTDEIOInterface.t :=
  snd (RTDEIOInterface.new p "192.168.0.10" 30004).

(** The session the constructor of the I/O facade leaves behind when
    every request went through. *)
Definition io_link (p : Peer) : RTDE.t :=
  {| hostname := "192.168.0.10"; peer := p; connected := true; clock := 10;
     log := [(Connect, true);
             (NegotiateProtocolVersion, true);
             (GetControllerVersion, true);
             (SendOutputSetup ["robot_status_bits"; "output_int_register_0"]%string
                (series_frequency p), true);
             (SendInputSetup ["input_int_register_20"]%string, true);
             (SendInputSetup
                ["input_int_register_20"; "standard_digital_output_mask";
                 "standard_digital_output"]%string, true);
             (SendInputSetup
                ["input_int_register_20"; "tool_digital_output_mask";
                 "tool_digital_output"]%string, true);
             (SendInputSetup
                ["input_int_register_20"; "speed_slider_mask";
                 "speed_slider_fraction"]%string, true);
             (SendInputSetup
                ["input_int_register_2"; "standard_analog_output_mask";
                 "standard_analog_output_type"; "standard_analog_output_0";
                 "standard_analog_output_1"]%string, true);
             (SendStart, true)] |}.

Definition rx_session (p : Peer) : RTDEReceiveInterface.t :=
  snd (RTDEReceiveInterface.new p 0 "192.168.0.10" [] 30004 false).

(** The session the constructor of the receive interface leaves behind
    when every request went through and the worker has not run yet. *)
Definition rx_link (p : Peer) : RTDE.t :=
  {| hostname := "192.168.0.10"; peer := p; connected := true; clock := 5;
     log := [(Connect, true);
             (NegotiateProtocolVersion, true);
             (GetControllerVersion, true);
             (SendOutputSetup RTDEReceiveInterface.all_variables (series_frequency p), true);
             (SendStart, true)] |}.

(** The doubles 0, 0.5 and 1. *)
Definition double_zero : spec_float := S754_zero false.
Definition double_half : spec_float := S754_finite false 4503599627370496 (-53).
Definition double_one : spec_float := S754_finite false 4503599627370496 (-52).

Definition no_digits : spec_float -> string := fun _ => "?"%string.

Definition digital_out_3 : RobotCommand :=
  {| type_ := Some SET_STD_DIGITAL_OUT; recipe_id_ := Some 2;
     std_digital_out_mask_ := Some 8; std_digital_out_ := Some 8;
     std_tool_out_mask_ := None; std_tool_out_ := None |}.

End Samples.

(* ===================================================================== *)
(** * Invariants of computations, and more samples                        *)
(* ===================================================================== *)

Module Invariants.

(** The computation [m] keeps the property [P] of the object, however it
    ends. *)
Definition preserves {St A} (P : St -> Prop) (m : M St A) : Prop :=
  forall s, P s -> P (snd (m s)).

(** On an object with the property [P], [m] does not run into undefined
    behaviour. *)
Definition defined_on {St A} (P : St -> Prop) (m : M St A) : Prop :=
  forall s, P s -> fst (m s) <> Undefined.

(** An I/O facade both of whose pointers are set, as its constructor
    leaves it. *)
Definition io_built (s : RTDEIOInterface.t) : Prop :=
  RTDEIOInterface.rtde_ s <> None /\ RTDEIOInterface.robot_state_ s <> None.

End Invariants.

Module MoreSamples.
Import RTDE.

(** An e-Series controller on a link that lets a setup sequence through
    and then loses every command sent after it. *)
Definition losing_every_send : Peer :=
  {| controller_version := (5, 10, 0, 0);
     faults := fun k =>
       if ((10 <=? k) && ((k - 10) mod 11 =? 0))%nat then Fail false else Pass |}.

(** An e-Series controller on a link that lets the constructor through
    and then goes down for good. *)
Definition going_down (k : nat) : Peer :=
  {| controller_version := (5, 10, 0, 0);
     faults := fun i => if (k <=? i)%nat then Fail true else Pass |}.

(** A status word and an output word read off a snapshot: the program
    runs and the power is on; outputs 0 and 3 are high. *)
Definition status_running : RobotState -> Z := fun _ => 3.
Definition outputs_0_and_3 : RobotState -> Z := fun _ => 9.

End MoreSamples.

Module ReceiveStates.
Import RTDEReceiveInterface.

(** The object after the worker has received and decoded [n] more frames
    on the session [r], the snapshot having been [st]. *)
Definition after_frames (n : nat) (s : t) (r : RTDE.t) (st : RobotState) : t :=
  {| variables_ := variables_ s; hostname_ := hostname_ s; port_ := port_ s;
     verbose_ := verbose_ s;
     rtde_ := Some {| RTDE.hostname := RTDE.hostname r; RTDE.peer := RTDE.peer r;
                      RTDE.connected := RTDE.connected r;
                      RTDE.clock := (n + RTDE.clock r)%nat;
                      RTDE.log := RTDE.log r ++ repeat (RTDE.ReceiveData, true) n |};
     robot_state_ := Some {| frames_decoded := (n + frames_decoded st)%nat |};
     stop_thread := stop_thread s; th_ := th_ s; cerr := cerr s |}.

(** The names a receive interface subscribes to, given the names its
    caller asked for. *)
Definition subscription (variables : list string) : list string :=
  match variables with
  | [] => all_variables
  | _ => variables
  end.

(** The requests of a setup sequence of the receive interface all of
    which go through. *)
Definition setup_requests (p : RTDE.Peer) (variables : list string)
  : list (RTDE.Call * bool) :=
  [(RTDE.Connect, true);
   (RTDE.NegotiateProtocolVersion, true);
   (RTDE.GetControllerVersion, true);
   (RTDE.SendOutputSetup (subscription variables) (series_frequency p), true);
   (RTDE.SendStart, true)].

End ReceiveStates.

(* ===================================================================== *)
(** * Facts about strings                                                 *)
(* ===================================================================== *)

Module StdStringFacts.
Import StdString ScriptText.

Lemma find_absent c s : lacks c s = true -> find c 0 s = None.
Proof.
  induction s as [|x s IH]; simpl; [reflexivity|].
  intros H. apply andb_prop in H. destruct H as [Hx Hs].
  apply negb_true_iff in Hx. rewrite Hx, (IH Hs). reflexivity.
Qed.

Lemma find_first c a s : lacks c a = true -> find c 0 (a ++ c :: s) = Some (List.length a).
Proof.
  induction a as [|x a IH]; simpl.
  - intros _. now rewrite Ascii.eqb_refl.
  - intros H. apply andb_prop in H. destruct H as [Hx Ha].
    apply negb_true_iff in Hx. rewrite Hx, (IH Ha). reflexivity.
Qed.

Lemma find_from c a s :
  find c (List.length a) (a ++ s) = option_map (Nat.add (List.length a)) (find c 0 s).
Proof.
  induction a as [|x a IH]; simpl.
  - destruct (find c 0 s); reflexivity.
  - destruct s as [|y s'].
    + rewrite app_nil_r in *. rewrite IH. simpl. 
      destruct a; reflexivity.
    + rewrite IH. destruct (find c 0 (y :: s')); reflexivity.
Qed.

Lemma lacks_app c a b : lacks c (a ++ b) = lacks c a && lacks c b.
Proof. unfold lacks. apply forallb_app. Qed.

Lemma at_app (a s : t) k : at_ (a ++ s) (List.length a + k) = at_ s k.
Proof.
  unfold at_. rewrite nth_error_app2 by lia.
  replace (List.length a + k - List.length a)%nat with k by lia. reflexivity.
Qed.

Lemma erase_middle (a x s : t) count :
  count = size x -> erase (a ++ x ++ s) (List.length a) count = Ret (a ++ s).
Proof.
  intros ->. unfold erase, size.
  replace (List.length (a ++ x ++ s) <? List.length a)%nat with false.
  2:{ symmetry. apply Nat.ltb_ge. rewrite length_app. lia. }
  rewrite !length_app.
  replace (Z.to_nat (Z.min (Z.of_nat (List.length x))
             (Z.of_nat (List.length a + (List.length x + List.length s)) - Z.of_nat (List.length a))))
    with (List.length x) by lia.
  rewrite firstn_app, Nat.sub_diag, firstn_all. simpl. rewrite app_nil_r.
  rewrite skipn_app. rewrite skipn_all2 by lia. simpl.
  replace (List.length a + List.length x - List.length a)%nat with (List.length x) by lia.
  rewrite skipn_app, skipn_all, Nat.sub_diag. reflexivity.
Qed.

Lemma insert_at (a x s : t) : insert (a ++ s) (List.length a) x = Ret (a ++ x ++ s).
Proof.
  unfold insert.
  replace (List.length (a ++ s) <? List.length a)%nat with false.
  2:{ symmetry. apply Nat.ltb_ge. rewrite length_app. lia. }
  rewrite firstn_app, Nat.sub_diag, firstn_all. simpl. rewrite app_nil_r.
  rewrite skipn_app, skipn_all, Nat.sub_diag. reflexivity.
Qed.

Lemma stoi_digit c : is_digit c = true -> stoi [c] = Ret (digit_value c).
Proof.
  destruct c as [[] [] [] [] [] [] [] []]; intros H; try discriminate H; reflexivity.
Qed.

Lemma stoi_not_digit c : is_digit c = false -> stoi [c] = Throw (invalid_argument "stoi").
Proof.
  destruct c as [[] [] [] [] [] [] [] []]; intros H; try discriminate H; reflexivity.
Qed.

Lemma digit_value_range c : is_digit c = true -> 0 <= digit_value c <= 9.
Proof.
  destruct c as [[] [] [] [] [] [] [] []]; intros H; try discriminate H; vm_compute; split; discriminate.
Qed.

Lemma digit_not_space c : is_digit c = true -> eqb [c] (lit " ") = false.
Proof.
  destruct c as [[] [] [] [] [] [] [] []]; intros H; try discriminate H; reflexivity.
Qed.

Lemma digit_not_control c : is_digit c = true -> Ascii.eqb c nl = false /\ Ascii.eqb c dollar = false.
Proof.
  destruct c as [[] [] [] [] [] [] [] []]; intros H; try discriminate H; split; reflexivity.
Qed.

End StdStringFacts.

Module ScriptClientFacts.
Import StdString ScriptText ScriptClient StdStringFacts.

Lemma needed_version c : is_digit c = true -> to_uint32 (digit_value c) = digit_value c.
Proof.
  intros H. unfold to_uint32. apply Z.mod_small.
  pose proof (digit_value_range c H). lia.
Qed.

Lemma version_test live_major live_minor M N :
  (live_major >? digit_value M)
  || ((live_major =? digit_value M) && (live_minor >=? digit_value N))
  = version_at_least live_major live_minor M N.
Proof.
  unfold version_at_least.
  rewrite Z.gtb_ltb, Z.geb_leb, (Z.eqb_sym live_major). reflexivity.
Qed.

Lemma version_at_least_iff live_major live_minor M N :
  version_at_least live_major live_minor M N = true <->
  live_major > digit_value M \/ (live_major = digit_value M /\ live_minor >= digit_value N).
Proof.
  unfold version_at_least. rewrite orb_true_iff, andb_true_iff.
  rewrite Z.ltb_lt, Z.eqb_eq, Z.leb_le. lia.
Qed.

(** One turn of the loop on a marker that sits after [pre]. *)
Lemma marker_step_line live_major live_minor (pre : StdString.t) tag M N body rest (c : ScriptClient.t) :
  is_digit M = true -> is_digit N = true -> Ascii.eqb tag nl = false ->
  lacks nl body = true ->
  size (pre ++ [dollar; tag; M; N] ++ body ++ [nl] ++ rest) < size_t_modulus ->
  marker_step live_major live_minor
    (pre ++ [dollar; tag; M; N] ++ body ++ [nl] ++ rest) (List.length pre) c
  = (Ret (Substituted
            (if version_at_least live_major live_minor M N
             then pre ++ lit "    " ++ body ++ [nl] ++ rest
             else pre ++ rest)), c).
Proof.
  intros HM HN Htag Hbody Hsize.
  unfold marker_step, bind, lift.
  rewrite !at_app. cbn [at_ nth_error app].
  rewrite (digit_not_space M HM), (digit_not_space N HN). cbn [empty negb andb].
  rewrite (stoi_digit M HM), (stoi_digit N HN).
  rewrite (needed_version M HM), (needed_version N HN).
  rewrite version_test.
  destruct (version_at_least live_major live_minor M N).
  - rewrite (erase_middle pre [dollar; tag; M; N] (body ++ [nl] ++ rest)) by reflexivity.
    rewrite insert_at. reflexivity.
  - assert (Hfind : find nl (List.length pre)
                      (pre ++ [dollar; tag; M; N] ++ body ++ [nl] ++ rest)
                    = Some (List.length pre + (4 + List.length body))%nat).
    { rewrite find_from.
      change ([dollar; tag; M; N] ++ body ++ [nl] ++ rest)
        with (([dollar; tag; M; N] ++ body) ++ nl :: rest) at 1.
      replace ([dollar; tag; M; N] ++ body ++ [nl] ++ rest)
        with (([dollar; tag; M; N] ++ body) ++ nl :: rest)
        by (now rewrite <- app_assoc).
      rewrite find_first.
      - rewrite length_app. reflexivity.
      - rewrite lacks_app, Hbody. cbn.
        destruct (digit_not_control M HM) as [-> _].
        destruct (digit_not_control N HN) as [-> _].
        rewrite Htag. reflexivity. }
    cbn [app] in Hfind, Hsize |- *. rewrite Hfind. cbn [find_result].
    replace (pre ++ dollar :: tag :: M :: N :: body ++ nl :: rest)
      with (pre ++ ([dollar; tag; M; N] ++ body ++ [nl]) ++ rest) in *
      by (cbn; now rewrite <- app_assoc).
    rewrite erase_middle; [reflexivity|].
    unfold size in *. rewrite ?length_app in *. cbn [List.length] in *.
    rewrite ?length_app in *. cbn [List.length] in *.
    rewrite Z.mod_small; lia.
Qed.

Lemma well_formed_marked before tag M N body :
  well_formed (Marked before tag M N body) = true ->
  lacks dollar before = true /\ lacks nl before = true /\ Ascii.eqb tag nl = false
  /\ is_digit M = true /\ is_digit N = true
  /\ lacks dollar body = true /\ lacks nl body = true.
Proof.
  cbn. rewrite !andb_true_iff, negb_true_iff. tauto.
Qed.

Lemma retained_lacks_dollar live_major live_minor l :
  well_formed l = true -> lacks dollar (retained live_major live_minor l) = true.
Proof.
  destruct l as [body|before tag M N body].
  - cbn [well_formed retained]. rewrite andb_true_iff. intros [Hd _].
    rewrite lacks_app, Hd. reflexivity.
  - intros H. apply well_formed_marked in H.
    destruct H as (Hb & _ & _ & _ & _ & Hbody & _). cbn [retained].
    destruct (version_at_least live_major live_minor M N); [|exact Hb].
    rewrite !lacks_app, Hb, Hbody. reflexivity.
Qed.

Lemma size_retained_le live_major live_minor l :
  size (retained live_major live_minor l) <= size (render l).
Proof.
  destruct l as [body|before tag M N body]; cbn [retained render]; [lia|].
  destruct (version_at_least live_major live_minor M N);
    unfold size; rewrite ?length_app; cbn [List.length lit list_ascii_of_string];
    rewrite ?length_app; cbn [List.length]; lia.
Qed.

(** The loop, on a text made of well-formed lines after a part [done]
    that holds no marker. *)
Lemma marker_loop_lines live_major live_minor (ls : list line) :
  forall (fuel : nat) (done tail : StdString.t) (c : ScriptClient.t),
    forallb well_formed ls = true ->
    lacks dollar done = true -> lacks dollar tail = true ->
    size (done ++ render_all ls ++ tail) < size_t_modulus ->
    (markers ls <= fuel)%nat ->
    marker_loop fuel live_major live_minor
      (done ++ render_all ls ++ tail)
      (find dollar 0 (done ++ render_all ls ++ tail)) c
    = (Ret (Substituted (done ++ retained_all live_major live_minor ls ++ tail)), c).
Proof.
  induction ls as [|l ls IH]; intros fuel done tail c Hwf Hdone Htail Hsize Hfuel.
  - cbn [render_all retained_all flat_map app].
    rewrite find_absent by (now rewrite lacks_app, Hdone, Htail).
    destruct fuel; reflexivity.
  - cbn [forallb] in Hwf. apply andb_prop in Hwf. destruct Hwf as [Hl Hls].
    change (render_all (l :: ls)) with (render l ++ render_all ls) in *.
    change (retained_all live_major live_minor (l :: ls))
      with (retained live_major live_minor l ++ retained_all live_major live_minor ls).
    destruct l as [body|before tag M N body].
    + cbn [render retained] in *.
      replace (done ++ ((body ++ [nl]) ++ render_all ls) ++ tail)
        with ((done ++ body ++ [nl]) ++ render_all ls ++ tail) in *
        by (now rewrite <- !app_assoc).
      replace (done ++ ((body ++ [nl]) ++ retained_all live_major live_minor ls) ++ tail)
        with ((done ++ body ++ [nl]) ++ retained_all live_major live_minor ls ++ tail)
        by (now rewrite <- !app_assoc).
      apply IH; auto.
      cbn [well_formed] in Hl. apply andb_prop in Hl. destruct Hl as [Hd _].
      rewrite !lacks_app, Hdone, Hd. reflexivity.
    + pose proof (well_formed_marked _ _ _ _ _ Hl)
        as (Hb & Hbn & Htag & HM & HN & Hbody & Hbodyn).
      assert (Hm : (markers ls <= pred fuel)%nat /\ (0 < fuel)%nat).
      { unfold markers in *. cbn [filter List.length] in Hfuel. lia. }
      destruct Hm as [Hm Hpos].
      destruct fuel as [|fuel]; [lia|]. cbn [pred] in Hm.
      cbn [render retained] in *.
      set (rest := render_all ls ++ tail) in *.
      replace (done ++ ((before ++ [dollar; tag; M; N] ++ body ++ [nl]) ++ render_all ls) ++ tail)
        with ((done ++ before) ++ [dollar; tag; M; N] ++ body ++ [nl] ++ rest) in *
        by (subst rest; now rewrite <- !app_assoc).
      assert (Hpre : lacks dollar (done ++ before) = true)
        by (now rewrite lacks_app, Hdone, Hb).
      change ([dollar; tag; M; N] ++ body ++ [nl] ++ rest)
        with (dollar :: [tag; M; N] ++ body ++ [nl] ++ rest) at 2.
      rewrite (find_first dollar (done ++ before) _ Hpre).
      cbn [marker_loop]. unfold bind at 1.
      rewrite marker_step_line by assumption.
      destruct (version_at_least live_major live_minor M N).
      * replace ((done ++ before) ++ lit "    " ++ body ++ [nl] ++ rest)
          with ((done ++ before ++ lit "    " ++ body ++ [nl]) ++ render_all ls ++ tail)
          by (subst rest; now rewrite <- !app_assoc).
        rewrite IH; auto.
        -- now rewrite <- !app_assoc.
        -- rewrite !lacks_app, Hdone, Hb, Hbody. reflexivity.
        -- revert Hsize. unfold size. subst rest.
           rewrite ?length_app. cbn [List.length lit list_ascii_of_string].
           rewrite ?length_app. cbn [List.length]. lia.
      * subst rest. rewrite IH; auto.
        -- now rewrite <- !app_assoc.
        -- revert Hsize. unfold size.
           rewrite ?length_app. cbn [List.length].
           rewrite ?length_app. cbn [List.length]. lia.
Qed.

End ScriptClientFacts.

Module ScriptClientProofs.
Import StdString ScriptText ScriptClient StdStringFacts ScriptClientFacts Samples.

Lemma isConnected_connected (c : ScriptClient.t) :
  conn_state_ c = CONNECTED -> isConnected c = (Ret true, c).
Proof. intros H. unfold isConnected, gets. now rewrite H. Qed.

Lemma write_healthy (c : ScriptClient.t) sock data :
  socket_ c = Some sock -> broken sock = false ->
  write data c
  = (Ret tt, set_socket c (Some {| sent := sent sock ++ data; broken := false |})).
Proof. intros Hs Hb. unfold write. now rewrite Hs, Hb. Qed.

Lemma sendScriptCommand_healthy (c : ScriptClient.t) (cmd_str : StdString.t) sock :
  conn_state_ c = CONNECTED -> empty cmd_str = false ->
  socket_ c = Some sock -> broken sock = false ->
  sendScriptCommand cmd_str c
  = (Ret true, set_socket c (Some {| sent := sent sock ++ cmd_str; broken := false |})).
Proof.
  intros Hc He Hs Hb.
  unfold sendScriptCommand, bind. rewrite (isConnected_connected c Hc), He.
  cbn [andb negb]. rewrite (write_healthy c sock cmd_str Hs Hb). reflexivity.
Qed.

Lemma sendScriptCommand_dead (c : ScriptClient.t) (cmd_str : StdString.t) sock :
  conn_state_ c = CONNECTED -> empty cmd_str = false ->
  socket_ c = Some sock -> broken sock = true ->
  sendScriptCommand cmd_str c = (Throw (system_error "write"), c).
Proof.
  intros Hc He Hs Hb.
  unfold sendScriptCommand, bind. rewrite (isConnected_connected c Hc), He.
  cbn [andb negb]. unfold write. now rewrite Hs, Hb.
Qed.

(** C10 (amended).  [sendScriptCommand] writes nothing and returns false
    when the client is not connected or the command is empty; otherwise,
    on a socket that takes the write, it writes exactly the command and
    returns true, and on a socket that does not, the error of the write
    leaves [sendScriptCommand] as an exception, with nothing written and
    no value returned. *)
Theorem sendScriptCommand_writes_command_or_refuses (c : ScriptClient.t) (cmd_str : StdString.t) :
  (conn_state_ c = DISCONNECTED \/ cmd_str = [] ->
   sendScriptCommand cmd_str c = (Ret false, c))
  /\ (forall sock,
        conn_state_ c = CONNECTED -> empty cmd_str = false ->
        socket_ c = Some sock -> broken sock = false ->
        sendScriptCommand cmd_str c
        = (Ret true,
           set_socket c (Some {| sent := sent sock ++ cmd_str; broken := false |})))
  /\ (forall sock,
        conn_state_ c = CONNECTED -> empty cmd_str = false ->
        socket_ c = Some sock -> broken sock = true ->
        sendScriptCommand cmd_str c = (Throw (system_error "write"), c)).
Proof.
  split; [|split].
  - intros [H | H]; unfold sendScriptCommand, bind, isConnected, gets.
    + rewrite H. reflexivity.
    + subst cmd_str. cbn. now rewrite andb_false_r.
  - intros sock. apply sendScriptCommand_healthy.
  - intros sock. apply sendScriptCommand_dead.
Qed.

Lemma sendScriptCommand_writes_command_or_refuses_witness :
  sendScriptCommand (lit "stop program") (ScriptClient.new (lit "192.168.0.10") 5 10 30002 false)
  = (Ret false, ScriptClient.new (lit "192.168.0.10") 5 10 30002 false)
  /\ sendScriptCommand (lit "stop program") (session 5 10)
     = (Ret true,
        set_socket (session 5 10) (Some {| sent := lit "stop program"; broken := false |}))
  /\ sendScriptCommand (lit "stop program") (snd (connect false (session 5 10)))
     = (Throw (system_error "write"), snd (connect false (session 5 10))).
Proof.
  split; [|split].
  - apply (proj1 (sendScriptCommand_writes_command_or_refuses
                    (ScriptClient.new (lit "192.168.0.10") 5 10 30002 false)
                    (lit "stop program"))).
    left. reflexivity.
  - apply (proj1 (proj2 (sendScriptCommand_writes_command_or_refuses (session 5 10)
                           (lit "stop program"))) {| sent := []; broken := false |});
      reflexivity.
  - apply (proj2 (proj2 (sendScriptCommand_writes_command_or_refuses
                           (snd (connect false (session 5 10))) (lit "stop program")))
             {| sent := []; broken := true |});
      reflexivity.
Defined.

(** C10, as the specification words it, fails on a client that shows as
    connected on a dead socket -- the state a refused [connect()] leaves
    a connected client in: the command is not empty, and
    [sendScriptCommand] neither returns false nor writes the command and
    returns true; the write throws. *)
Lemma sendScriptCommand_dead_socket_counterexample :
  let c := snd (connect false (session 5 10)) in
  let run := sendScriptCommand (lit "stop program") c in
  isConnected c = (Ret true, c)
  /\ empty (lit "stop program") = false
  /\ run = (Throw (system_error "write"), c)
  /\ fst run <> Ret false
  /\ fst run <> Ret true.
Proof.
  cbv zeta. split; [reflexivity|]. split; [reflexivity|]. split; [reflexivity|].
  split; intros H; vm_compute in H; discriminate H.
Qed.

(** The marker pass followed by the upload is the upload of the retained
    text. *)
Lemma sendScript_as_command UR_SCRIPT files (c : ScriptClient.t)
    (ls : list line) (tail : StdString.t) (fuel : nat) :
  initial_script UR_SCRIPT files c = render_all ls ++ tail ->
  forallb well_formed ls = true ->
  lacks dollar tail = true ->
  size (render_all ls ++ tail) < size_t_modulus ->
  (markers ls <= fuel)%nat ->
  sendScript UR_SCRIPT files fuel c
  = sendScriptCommand
      (retained_all (major_control_version_ c) (minor_control_version_ c) ls ++ tail) c.
Proof.
  intros Htext Hwf Htail Hsize Hfuel.
  unfold sendScript, bind at 1. unfold get at 1. rewrite Htext.
  unfold bind at 1.
  pose proof (marker_loop_lines (major_control_version_ c) (minor_control_version_ c)
                ls fuel [] tail c Hwf eq_refl Htail Hsize Hfuel) as Hloop.
  cbn [app] in Hloop. rewrite Hloop. reflexivity.
Qed.

(** C3 (amended).  On a text of newline-terminated lines that carry at
    most one marker each -- the dollar sign, one more character, then the
    digits M and N -- [sendScript] sends the text in which a marked line
    stays, four blanks in place of its marker, exactly when the live
    version is at least (M, N), and in which otherwise everything from the
    marker up to and including the newline of its line is gone: the whole
    line when the marker starts the line. *)
Theorem sendScript_retains_fitting_lines UR_SCRIPT files (c : ScriptClient.t)
    (ls : list line) (tail : StdString.t) (sock : Socket) (fuel : nat) :
  initial_script UR_SCRIPT files c = render_all ls ++ tail ->
  forallb well_formed ls = true ->
  lacks dollar tail = true ->
  size (render_all ls ++ tail) < size_t_modulus ->
  (markers ls <= fuel)%nat ->
  conn_state_ c = CONNECTED -> socket_ c = Some sock -> broken sock = false ->
  empty (retained_all (major_control_version_ c) (minor_control_version_ c) ls ++ tail) = false ->
  sendScript UR_SCRIPT files fuel c
  = (Ret true,
     set_socket c
       (Some {| sent := sent sock
                        ++ retained_all (major_control_version_ c) (minor_control_version_ c) ls
                        ++ tail;
                broken := false |}))
  /\ (forall before tag M N body,
        In (Marked before tag M N body) ls ->
        let live_major := major_control_version_ c in
        let live_minor := minor_control_version_ c in
        (live_major > digit_value M
         \/ (live_major = digit_value M /\ live_minor >= digit_value N) ->
         retained live_major live_minor (Marked before tag M N body)
         = before ++ lit "    " ++ body ++ [nl])
        /\ (~ (live_major > digit_value M
               \/ (live_major = digit_value M /\ live_minor >= digit_value N)) ->
            retained live_major live_minor (Marked before tag M N body) = before)).
Proof.
  intros Htext Hwf Htail Hsize Hfuel Hc Hs Hb He. split.
  - rewrite (sendScript_as_command UR_SCRIPT files c ls tail fuel Htext Hwf Htail Hsize Hfuel).
    now apply sendScriptCommand_healthy.
  - intros before tag M N body _. cbv zeta. cbn [retained].
    pose proof (version_at_least_iff (major_control_version_ c)
                  (minor_control_version_ c) M N) as Hiff.
    destruct (version_at_least (major_control_version_ c) (minor_control_version_ c) M N).
    + split; [reflexivity|]. intros Hno. exfalso. apply Hno, Hiff. reflexivity.
    + split; [|reflexivity]. intros Hyes. apply Hiff in Hyes. discriminate Hyes.
Qed.

Lemma sendScript_retains_fitting_lines_witness :
  sendScript (render_all sample_lines ++ lit "end") no_files 2 (session 3 10)
  = (Ret true,
     set_socket (session 3 10)
       (Some {| sent := lit "def rtde_control():" ++ [nl]
                        ++ lit "    textmsg(1)" ++ [nl] ++ lit "end";
                broken := false |})).
Proof.
  apply (proj1 (sendScript_retains_fitting_lines (render_all sample_lines ++ lit "end")
                  no_files (session 3 10) sample_lines (lit "end")
                  {| sent := []; broken := false |} 2
                  eq_refl eq_refl eq_refl eq_refl (le_n 2) eq_refl eq_refl eq_refl eq_refl)).
Defined.

(** C3, as the specification words it, fails on a marker in mid-line:
    the code leaves what stands in front of the marker and joins it to
    the next line, where the whole-line rule leaves nothing of the line. *)
Lemma sendScript_whole_line_counterexample :
  let text := lit "x$5555 y" ++ [nl] ++ lit "z" in
  whole_line_text 3 0 text = lit "z"
  /\ sendScript text no_files 1 (session 3 0)
     = (Ret true,
        set_socket (session 3 0) (Some {| sent := lit "xz"; broken := false |}))
  /\ lit "xz" <> whole_line_text 3 0 text.
Proof.
  cbv zeta. split; [reflexivity|]. split; [reflexivity|].
  intros H. discriminate H.
Qed.

(** A first line that is marked, does not fit the live version and has
    no newline after it is never got rid of: the count handed to [erase]
    wraps round to 0, the text stays as it is, and the loop does not
    end. *)
Lemma sendScript_unfit_first_line_without_newline UR_SCRIPT files (c : ScriptClient.t)
    (tag M N : ascii) (body : StdString.t) (fuel : nat) :
  initial_script UR_SCRIPT files c = dollar :: tag :: M :: N :: body ->
  is_digit M = true -> is_digit N = true ->
  lacks nl (tag :: body) = true ->
  version_at_least (major_control_version_ c) (minor_control_version_ c) M N = false ->
  fst (sendScript UR_SCRIPT files fuel c) = Unfinished.
Proof.
  intros Htext HM HN Hnl Hunfit.
  unfold sendScript, bind at 1. unfold get at 1. rewrite Htext.
  set (text := dollar :: tag :: M :: N :: body).
  assert (Hfind : find dollar 0 text = Some O) by reflexivity.
  rewrite Hfind.
  assert (Hstep : marker_step (major_control_version_ c) (minor_control_version_ c) text 0 c
                  = (Ret (Substituted text), c)).
  { unfold marker_step, bind, lift. cbn [at_ nth_error text Nat.add].
    rewrite (digit_not_space M HM), (digit_not_space N HN). cbn [empty negb andb].
    rewrite (stoi_digit M HM), (stoi_digit N HN).
    rewrite (needed_version M HM), (needed_version N HN).
    rewrite version_test, Hunfit.
    assert (Hnone : find nl 0 text = None).
    { apply find_absent. subst text. cbn [lacks forallb] in *.
      destruct (digit_not_control M HM) as [-> _].
      destruct (digit_not_control N HN) as [-> _].
      apply andb_prop in Hnl. destruct Hnl as [-> Hb]. cbn. exact Hb. }
    rewrite Hnone. reflexivity. }
  assert (Hloop : forall k, marker_loop k (major_control_version_ c)
                              (minor_control_version_ c) text (Some O) c
                            = (Unfinished, c)).
  { induction k as [|k IHk]; [reflexivity|].
    cbn [marker_loop]. unfold bind at 1. rewrite Hstep, Hfind. exact IHk. }
  unfold bind. rewrite Hloop. reflexivity.
Qed.

Lemma eqb_single (a b : ascii) : eqb [a] [b] = Ascii.eqb a b.
Proof.
  unfold eqb. destruct (list_eq_dec ascii_dec [a] [b]) as [E|E].
  - injection E as ->. now rewrite Ascii.eqb_refl.
  - destruct (Ascii.eqb_spec a b) as [->|]; [now exfalso; apply E|reflexivity].
Qed.

(** A marker whose major or minor character is a blank ends the upload:
    [sendScript] returns false and has written nothing. *)
Lemma sendScript_blank_marker UR_SCRIPT files (c : ScriptClient.t) (n fuel : nat) (a b : ascii) :
  find dollar 0 (initial_script UR_SCRIPT files c) = Some n ->
  nth_error (initial_script UR_SCRIPT files c) (n + 2) = Some a ->
  nth_error (initial_script UR_SCRIPT files c) (n + 3) = Some b ->
  Ascii.eqb a space || Ascii.eqb b space = true ->
  sendScript UR_SCRIPT files (S fuel) c = (Ret false, c).
Proof.
  intros Hn Ha Hb Hblank.
  unfold sendScript, bind at 1. unfold get at 1. rewrite Hn.
  cbn [marker_loop]. unfold bind at 1. unfold marker_step, bind, lift, at_.
  rewrite Ha, Hb. change (lit " ") with [space]. rewrite !eqb_single.
  cbn [empty negb andb].
  destruct (Ascii.eqb a space), (Ascii.eqb b space); try discriminate Hblank; reflexivity.
Qed.

(** C7.  A marker whose version characters are not blanks and not both
    digits does not make [sendScript] return false: [std::stoi] throws
    [std::invalid_argument], which leaves [sendScript]; nothing has been
    written. *)
Theorem sendScript_unparseable_marker_throws UR_SCRIPT files (c : ScriptClient.t)
    (n fuel : nat) (a b : ascii) :
  find dollar 0 (initial_script UR_SCRIPT files c) = Some n ->
  nth_error (initial_script UR_SCRIPT files c) (n + 2) = Some a ->
  nth_error (initial_script UR_SCRIPT files c) (n + 3) = Some b ->
  Ascii.eqb a space = false -> Ascii.eqb b space = false ->
  is_digit a && is_digit b = false ->
  sendScript UR_SCRIPT files (S fuel) c = (Throw (invalid_argument "stoi"), c).
Proof.
  intros Hn Ha Hb Hsa Hsb Hd.
  unfold sendScript, bind at 1. unfold get at 1. rewrite Hn.
  cbn [marker_loop]. unfold bind at 1. unfold marker_step, bind, lift, at_.
  rewrite Ha, Hb. change (lit " ") with [space]. rewrite !eqb_single, Hsa, Hsb.
  cbn [empty negb andb].
  destruct (is_digit a) eqn:Da.
  - cbn [andb] in Hd. rewrite (stoi_digit a Da), (stoi_not_digit b Hd). reflexivity.
  - rewrite (stoi_not_digit a Da). reflexivity.
Qed.

Lemma sendScript_unparseable_marker_throws_witness :
  sendScript (lit "$xxxx" ++ [nl]) no_files 1 (session 5 10)
  = (Throw (invalid_argument "stoi"), session 5 10).
Proof.
  apply (sendScript_unparseable_marker_throws (lit "$xxxx" ++ [nl]) no_files
           (session 5 10) 0 0 "x"%char "x"%char); reflexivity.
Defined.

End ScriptClientProofs.

Module RTDEFacts.
Import RTDE.

Lemma output_frequencies_app l1 l2 :
  output_frequencies (l1 ++ l2) = output_frequencies l1 ++ output_frequencies l2.
Proof. apply flat_map_app. Qed.

Lemma input_recipes_app l1 l2 :
  input_recipes (l1 ++ l2) = input_recipes l1 ++ input_recipes l2.
Proof. apply flat_map_app. Qed.

Lemma sends_app l1 l2 : sends (l1 ++ l2) = sends l1 ++ sends l2.
Proof. apply flat_map_app. Qed.

Lemma receives_app l1 l2 : receives (l1 ++ l2) = receives l1 ++ receives l2.
Proof. apply flat_map_app. Qed.

End RTDEFacts.

Module IOFacts.
Import RTDE RTDEIOInterface RTDEFacts.

Lemma frequency_choice (p : Peer) :
  (if MAJOR_VERSION (controller_version p) >? CB3_MAJOR_VERSION then 500 else 125)
  = series_frequency p.
Proof.
  unfold series_frequency, CB3_MAJOR_VERSION.
  rewrite Z.gtb_ltb, Z.ltb_antisym.
  destruct (MAJOR_VERSION (controller_version p) <=? 3); reflexivity.
Qed.

Ltac destruct_faults :=
  match goal with
  | |- context [faults ?p ?k] => destruct (faults p k)
  end.

Ltac unfold_rtde :=
  unfold on_rtde, RTDE.connect, negotiateProtocolVersion, getControllerVersion,
    sendOutputSetup, sendInputSetup, sendStart, send, receiveData, RTDE.disconnect,
    RTDE.isConnected, request, set_connected, bind, modify, gets, ret, passes in *.

Ltac simpl_run :=
  lazy beta iota zeta delta
    [set_rtde set_robot_state rtde_ robot_state_ hostname_ port_ cout cerr
     logged disconnected hostname peer connected clock log andb negb].

Ltac use_passes H :=
  repeat match goal with
         | |- context [faults ?p ?k] => rewrite (H k) by lia
         end.

(** Every reading of the log taken of the states a run ends in. *)
Ltac read_log :=
  unfold session_log, session_connected;
  cbn [rtde_ set_rtde set_robot_state log logged disconnected connected snd fst];
  rewrite ?output_frequencies_app, ?input_recipes_app, ?sends_app, ?receives_app;
  cbn [output_frequencies input_recipes sends receives flat_map app];
  rewrite ?app_nil_r.

(** A reconnect all of whose requests go through. *)
Lemma reconnect_passes (s : RTDEIOInterface.t) (r : RTDE.t) :
  rtde_ s = Some r ->
  (forall k, (clock r <= k < 10 + clock r)%nat -> faults (peer r) k = Pass) ->
  reconnect s
  = (Ret true,
     set_robot_state
       (set_rtde s
          (Some {| hostname := hostname r; peer := peer r; connected := true;
                   clock := (10 + clock r)%nat;
                   log := log r ++ reconnect_requests (peer r) |}))
       (Some RobotState_new)).
Proof.
  intros Hr Hpass.
  destruct s as [h po rt rs co ce]. destruct r as [rh p conn c lg].
  cbn in Hr, Hpass. subst rt.
  unfold reconnect. unfold_rtde.
  repeat (progress (simpl_run; use_passes Hpass)).
  rewrite frequency_choice.
  unfold reconnect_requests. rewrite <- !app_assoc. reflexivity.
Qed.

End IOFacts.

Module IOProofs.
Import RTDE RTDEIOInterface RTDEFacts IOFacts Samples.

Ltac open_io s r Hr :=
  destruct s as [h po rt rs co ce]; destruct r as [rh p conn c lg];
  cbn in Hr; subst rt.

(** The constructor all of whose requests go through. *)
Lemma new_passes (p : Peer) (hostname : string) (port : Z) :
  (forall k, faults p k = Pass) ->
  new p hostname port
  = (Ret tt,
     {| hostname_ := hostname; port_ := port;
        rtde_ := Some {| RTDE.hostname := hostname; peer := p; connected := true;
                         clock := 10;
                         log := [(Connect, true);
                                 (NegotiateProtocolVersion, true);
                                 (GetControllerVersion, true);
                                 (SendOutputSetup
                                    ["robot_status_bits"; "output_int_register_0"]%string
                                    (series_frequency p), true);
                                 (SendInputSetup ["input_int_register_20"]%string, true);
                                 (SendInputSetup
                                    ["input_int_register_20"; "standard_digital_output_mask";
                                     "standard_digital_output"]%string, true);
                                 (SendInputSetup
                                    ["input_int_register_20"; "tool_digital_output_mask";
                                     "tool_digital_output"]%string, true);
                                 (SendInputSetup
                                    ["input_int_register_20"; "speed_slider_mask";
                                     "speed_slider_fraction"]%string, true);
                                 (SendInputSetup
                                    ["input_int_register_2"; "standard_analog_output_mask";
                                     "standard_analog_output_type"; "standard_analog_output_0";
                                     "standard_analog_output_1"]%string, true);
                                 (SendStart, true)] |};
        robot_state_ := Some RobotState_new; cout := []; cerr := [] |}).
Proof.
  intros Hpass. unfold new, constructor_body, RTDE.new. unfold_rtde.
  repeat (progress (simpl_run; rewrite ?Hpass)).
  rewrite frequency_choice. reflexivity.
Qed.

(** C1.  The constructor does not keep the command slot on input register
    20: its fifth recipe opens with input_int_register_2. *)
Theorem constructor_fifth_recipe_command_slot (p : Peer) (hostname : string) (port : Z) :
  (forall k, faults p k = Pass) ->
  map command_slot (input_recipes (session_log (snd (new p hostname port))))
  = [Some "input_int_register_20"; Some "input_int_register_20";
     Some "input_int_register_20"; Some "input_int_register_20";
     Some "input_int_register_2"]%string.
Proof.
  intros Hpass. rewrite (new_passes p hostname port Hpass). reflexivity.
Qed.

Lemma constructor_fifth_recipe_command_slot_witness :
  map command_slot (input_recipes (session_log (io_session e_series)))
  = [Some "input_int_register_20"; Some "input_int_register_20";
     Some "input_int_register_20"; Some "input_int_register_20";
     Some "input_int_register_2"]%string.
Proof.
  apply (constructor_fifth_recipe_command_slot e_series "192.168.0.10" 30004).
  intros k. reflexivity.
Defined.

(** The sibling path: every recipe [reconnect] declares opens with
    input_int_register_20. *)
Lemma reconnect_recipes_command_slot (s : RTDEIOInterface.t) (r : RTDE.t) :
  rtde_ s = Some r ->
  (forall k, (clock r <= k)%nat -> faults (peer r) k = Pass) ->
  map command_slot (input_recipes (session_log (snd (reconnect s))))
  = map command_slot (input_recipes (log r))
    ++ [Some "input_int_register_20"; Some "input_int_register_20";
        Some "input_int_register_20"; Some "input_int_register_20";
        Some "input_int_register_20"]%string.
Proof.
  intros Hr Hpass.
  rewrite (reconnect_passes s r Hr (fun k Hk => Hpass k (proj1 Hk))).
  read_log. rewrite map_app. reflexivity.
Qed.

End IOProofs.

Module IOCommandFacts.
Import RTDE RTDEIOInterface RTDEFacts IOFacts.

Ltac unfold_io :=
  unfold print_cout, print_cerr, rtde_not_null, static_cast_uint8,
    on_rtde, RTDE.connect, negotiateProtocolVersion, getControllerVersion,
    sendOutputSetup, sendInputSetup, sendStart, send, receiveData, RTDE.disconnect,
    RTDE.isConnected, request, set_connected, try_catch, bind, modify, gets, ret,
    undefined, passes in *.

Ltac simpl_io :=
  lazy beta iota zeta delta
    [set_rtde set_robot_state rtde_ robot_state_ hostname_ port_ cout cerr
     logged disconnected hostname peer connected clock log andb negb what].

(** A command the link takes: it is sent once and [sendCommand] returns
    true. *)
Lemma sendCommand_sent (fuel : nat) (cmd : RobotCommand) (s : RTDEIOInterface.t) (r : RTDE.t) :
  rtde_ s = Some r -> faults (peer r) (clock r) = Pass ->
  sendCommand (S fuel) cmd s
  = (Ret true, set_rtde s (Some (logged r (Send cmd) true (connected r)))).
Proof.
  intros Hr Hpass. destruct s as [h po rt rs co ce]. destruct r as [rh p conn c lg].
  cbn in Hr, Hpass. subst rt. cbn [sendCommand].
  unfold_io. simpl_io. rewrite Hpass. reflexivity.
Qed.


Ltac destruct_matches :=
  repeat match goal with
         | |- context [match ?x with _ => _ end] => destruct x
         end.

(** [sendCommand] returns a value only from inside its [try] block: the
    send went through, once, and the value is true. *)
Lemma sendCommand_returned (fuel : nat) (cmd : RobotCommand)
    (s : RTDEIOInterface.t) (b : bool) (s' : RTDEIOInterface.t) :
  sendCommand fuel cmd s = (Ret b, s') ->
  exists r,
    rtde_ s = Some r /\ faults (peer r) (clock r) = Pass /\ b = true
    /\ s' = set_rtde s (Some (logged r (Send cmd) true (connected r))).
Proof.
  destruct fuel as [|fuel]; [discriminate|].
  destruct s as [h po rt rs co ce]. destruct rt as [r|].
  2:{ cbn [sendCommand]. unfold_io. simpl_io. discriminate. }
  destruct r as [rh p conn c lg].
  destruct (faults p c) as [|dropped] eqn:Hf.
  - erewrite sendCommand_sent; [|reflexivity|exact Hf].
    intros H. inversion H. eexists. repeat split. exact Hf.
  - cbn [sendCommand]. unfold_io. simpl_io. rewrite Hf. simpl_io.
    destruct conn, dropped; simpl_io; destruct_matches; discriminate.
Qed.
(** On a link that loses every send and lets every reconnect through,
    [sendCommand] goes on calling itself: no amount of fuel lets it
    end. *)
Lemma sendCommand_retries_without_bound (cmd : RobotCommand) (fuel : nat) :
  forall (s : RTDEIOInterface.t) (r : RTDE.t),
    rtde_ s = Some r ->
    (forall j, faults (peer r) (clock r + j)
               = if (j mod 11 =? 0)%nat then Fail false else Pass) ->
    fst (sendCommand fuel cmd s) = Unfinished.
Proof.
  induction fuel as [|fuel IH]; intros s r Hr Hlink; [reflexivity|].
  destruct s as [h po rt rs co ce]. destruct r as [rh p conn c lg].
  cbn [rtde_ peer clock] in Hr, Hlink. subst rt.
  assert (Hfail : faults p c = Fail false).
  { specialize (Hlink O). now rewrite Nat.add_0_r in Hlink. }
  assert (Hpass : forall k, (S c <= k < 10 + S c)%nat -> faults p k = Pass).
  { intros k Hk. replace k with (c + (k - c))%nat by lia. rewrite Hlink.
    assert (Hj : (1 <= k - c <= 10)%nat) by lia. revert Hj.
    generalize (k - c)%nat. intros j Hj.
    rewrite Nat.mod_small by lia. destruct j; [lia|reflexivity]. }
  cbn [sendCommand]. unfold_io. simpl_io. rewrite Hfail. simpl_io.
  destruct conn; simpl_io.
  all: erewrite reconnect_passes; [ | reflexivity | exact Hpass ].
  all: match goal with
       | |- context [sendCommand ?f ?cm ?st] =>
           specialize (IH st _ eq_refl);
           destruct (sendCommand f cm st) as [res st']
       end.
  all: cbn [fst] in IH; rewrite IH; [reflexivity|].
  all: cbn [peer clock]; intros j;
    replace (10 + S c + j)%nat with (c + (j + 1 * 11))%nat by lia;
    rewrite Hlink, Nat.Div0.mod_add; reflexivity.
Qed.

End IOCommandFacts.

Module IOCommandProofs.
Import RTDE RTDEIOInterface RTDEFacts IOFacts IOCommandFacts Samples.




Lemma pow2_fits (output_id : Z) :
  0 <= output_id <= 7 -> (0 <=? pow2 output_id) && (pow2 output_id <=? 255) = true.
Proof.
  intros H. unfold pow2.
  assert (C : output_id = 0 \/ output_id = 1 \/ output_id = 2 \/ output_id = 3
              \/ output_id = 4 \/ output_id = 5 \/ output_id = 6 \/ output_id = 7) by lia.
  repeat (destruct C as [-> | C]; [reflexivity|]). subst. reflexivity.
Qed.

(** C4.  For an output id from 0 to 7 and either level,
    [setStandardDigitalOut] sends one command, on recipe 2, whose mask is
    2^id -- the bit of that output and no other -- and whose value is
    2^id for level true and 0 for level false: on a link that takes the
    send it returns true with that one command sent, and on any link it
    returns a value only with that one command sent. *)
Theorem setStandardDigitalOut_sends_mask_and_value
    (s : RTDEIOInterface.t) (output_id : Z) (signal_level : bool) :
  0 <= output_id <= 7 ->
  (forall (fuel : nat) (r : RTDE.t),
     rtde_ s = Some r -> faults (peer r) (clock r) = Pass ->
     setStandardDigitalOut (S fuel) output_id signal_level s
     = (Ret true,
        set_rtde s
          (Some (logged r (Send (std_digital_out_command output_id signal_level))
                   true (connected r)))))
  /\ (forall (fuel : nat) (b : bool) (s' : RTDEIOInterface.t),
        setStandardDigitalOut fuel output_id signal_level s = (Ret b, s') ->
        b = true
        /\ sends (session_log s')
           = sends (session_log s)
             ++ [(std_digital_out_command output_id signal_level, true)])
  /\ (forall j, Z.testbit (2 ^ output_id) j = (output_id =? j)).
Proof.
  intros Hid. pose proof (pow2_fits output_id Hid) as Hfit.
  assert (Hrun : forall fuel,
             setStandardDigitalOut fuel output_id signal_level s
             = sendCommand fuel (std_digital_out_command output_id signal_level) s).
  { intros fuel. unfold setStandardDigitalOut.
    destruct signal_level; unfold bind, static_cast_uint8, ret; rewrite Hfit;
      reflexivity. }
  split; [|split].
  - intros fuel r Hr Hpass. rewrite Hrun. exact (sendCommand_sent _ _ s r Hr Hpass).
  - intros fuel b s' H. rewrite Hrun in H.
    destruct (sendCommand_returned _ _ _ _ _ H) as (r & Hr & _ & -> & ->).
    split; [reflexivity|].
    unfold session_log. rewrite Hr. cbn [set_rtde rtde_ logged log].
    now rewrite sends_app.
  - intros j. apply Z.pow2_bits_eqb. lia.
Qed.

Lemma setStandardDigitalOut_sends_mask_and_value_witness :
  setStandardDigitalOut 1 3 true (io_session e_series)
  = (Ret true,
     set_rtde (io_session e_series)
       (Some (logged (io_link e_series) (Send (std_digital_out_command 3 true))
                true (connected (io_link e_series))))).
Proof.
  refine (proj1 (setStandardDigitalOut_sends_mask_and_value (io_session e_series)
                   3 true _) 0%nat (io_link e_series) _ _).
  - lia.
  - vm_compute. reflexivity.
  - reflexivity.
Defined.

Lemma double_le_leb (x y : spec_float) : double_le x y <-> SFleb x y = true.
Proof.
  unfold double_le, SFleb.
  destruct (SFcompare x y) as [[]|]; split; intros H;
    try reflexivity; try discriminate; auto;
    destruct H as [H|H]; discriminate.
Qed.

(** C5.  With bounds that are not NaN, [verifyValueIsWithin] returns
    normally exactly when the value is not NaN and min <= value <= max; a
    NaN value raises [std::invalid_argument], a value outside the bounds
    raises [std::range_error]; a rejection leaves the object as it was
    and nothing sequenced after the check runs, so no frame is sent. *)
Theorem verifyValueIsWithin_accepts_exactly_the_range
    (show_double : spec_float -> string) (value min max : spec_float)
    (s : RTDEIOInterface.t) :
  isnan min = false -> isnan max = false ->
  (verifyValueIsWithin show_double value min max s = (Ret tt, s)
   <-> isnan value = false /\ double_le min value /\ double_le value max)
  /\ (isnan value = true ->
      verifyValueIsWithin show_double value min max s
      = (Throw (invalid_argument "The value is considered NaN"), s))
  /\ (isnan value = false -> ~ (double_le min value /\ double_le value max) ->
      exists msg,
        verifyValueIsWithin show_double value min max s = (Throw (range_error msg), s))
  /\ (forall (A : Type) (k : unit -> M RTDEIOInterface.t A),
        verifyValueIsWithin show_double value min max s <> (Ret tt, s) ->
        snd (bind (verifyValueIsWithin show_double value min max) k s) = s).
Proof.
  intros Hmin Hmax. unfold verifyValueIsWithin, bind, isgreaterequal, islessequal.
  rewrite Hmin, Hmax. cbn [orb]. rewrite !double_le_leb.
  destruct (isnan value); cbn [negb];
    destruct (SFleb min value), (SFleb value max); cbn [andb negb];
    unfold throw, ret; repeat split; intros;
      try discriminate; try tauto; try (intuition discriminate); eauto.
Qed.

Lemma verifyValueIsWithin_accepts_exactly_the_range_witness :
  verifyValueIsWithin no_digits double_half double_zero double_one (io_session e_series)
  = (Ret tt, io_session e_series)
  /\ verifyValueIsWithin no_digits S754_nan double_zero double_one (io_session e_series)
     = (Throw (invalid_argument "The value is considered NaN"), io_session e_series).
Proof.
  split.
  - apply (proj1 (verifyValueIsWithin_accepts_exactly_the_range no_digits
                    double_half double_zero double_one (io_session e_series)
                    eq_refl eq_refl)).
    repeat split; left; reflexivity.
  - apply (proj1 (proj2 (verifyValueIsWithin_accepts_exactly_the_range no_digits
                           S754_nan double_zero double_one (io_session e_series)
                           eq_refl eq_refl))).
    reflexivity.
Defined.

End IOCommandProofs.

Module ReceiveFacts.
Import RTDE RTDEReceiveInterface RTDEFacts.

Ltac unfold_rx :=
  unfold RTDEReceiveInterface.receiveData,
    RTDEReceiveInterface.print_cerr, RTDEReceiveInterface.rtde_not_null,
    RTDEReceiveInterface.isConnected, setupRecipes,
    RTDEReceiveInterface.on_rtde,
    RTDE.connect, negotiateProtocolVersion, getControllerVersion,
    sendOutputSetup, sendInputSetup, sendStart, send, RTDE.receiveData, RTDE.disconnect,
    RTDE.isConnected, request, set_connected, try_catch, bind, modify, gets, ret,
    undefined, passes in *.

Ltac simpl_rx :=
  lazy beta iota zeta delta
    [RTDEReceiveInterface.set_rtde RTDEReceiveInterface.set_robot_state
     set_stop_thread set_th set_variables
     RTDEReceiveInterface.rtde_ RTDEReceiveInterface.robot_state_
     RTDEReceiveInterface.hostname_ RTDEReceiveInterface.port_ variables_ verbose_
     stop_thread th_ RTDEReceiveInterface.cerr after_error after_frame
     logged disconnected hostname peer connected clock log andb negb what
     frames_decoded].

Lemma receiveCallback_stopped (fuel : nat) (s : RTDEReceiveInterface.t) :
  stop_thread s = true -> receiveCallback (S fuel) s = (Ret tt, s).
Proof.
  intros H. cbn [receiveCallback]. unfold bind, gets. rewrite H. reflexivity.
Qed.

Lemma receiveCallback_stopped_state (fuel : nat) (s : RTDEReceiveInterface.t) :
  stop_thread s = true -> snd (receiveCallback fuel s) = s.
Proof.
  intros H. destruct fuel; [reflexivity|].
  now rewrite receiveCallback_stopped.
Qed.

Lemma receiveCallback_null (fuel : nat) (s : RTDEReceiveInterface.t) :
  stop_thread s = false -> rtde_ s = None ->
  receiveCallback (S fuel) s = (Undefined, s).
Proof.
  intros Hstop Hr. cbn [receiveCallback].
  destruct s as [va h po ve rt rs stp th ce].
  cbn in Hstop, Hr. subst rt stp.
  unfold_rx. simpl_rx. reflexivity.
Qed.

Lemma receiveCallback_frame (fuel : nat) (s : RTDEReceiveInterface.t) (r : RTDE.t) (st : RobotState) :
  stop_thread s = false -> rtde_ s = Some r -> robot_state_ s = Some st ->
  faults (peer r) (clock r) = Pass ->
  receiveCallback (S fuel) s = receiveCallback fuel (after_frame s r st).
Proof.
  intros Hstop Hr Hst Hpass. cbn [receiveCallback].
  destruct s as [va h po ve rt rs stp th ce]. destruct r as [rh p conn c lg].
  cbn in Hstop, Hr, Hst, Hpass. subst rt rs stp.
  unfold_rx. simpl_rx. rewrite Hpass. reflexivity.
Qed.

Lemma receiveCallback_no_snapshot (fuel : nat) (s : RTDEReceiveInterface.t) (r : RTDE.t) :
  stop_thread s = false -> rtde_ s = Some r -> robot_state_ s = None ->
  faults (peer r) (clock r) = Pass ->
  receiveCallback (S fuel) s
  = (Undefined, set_rtde s (Some (logged r ReceiveData true (connected r)))).
Proof.
  intros Hstop Hr Hst Hpass. cbn [receiveCallback].
  destruct s as [va h po ve rt rs stp th ce]. destruct r as [rh p conn c lg].
  cbn in Hstop, Hr, Hst, Hpass. subst rt rs stp.
  unfold_rx. simpl_rx. rewrite Hpass. reflexivity.
Qed.

Lemma receiveCallback_error (fuel : nat) (s : RTDEReceiveInterface.t) (r : RTDE.t) (dropped : bool) :
  stop_thread s = false -> rtde_ s = Some r ->
  faults (peer r) (clock r) = Fail dropped ->
  receiveCallback (S fuel) s = receiveCallback fuel (after_error s r dropped).
Proof.
  intros Hstop Hr Hfail. cbn [receiveCallback].
  destruct s as [va h po ve rt rs stp th ce]. destruct r as [rh p conn c lg].
  cbn in Hstop, Hr, Hfail. subst rt stp.
  unfold_rx. simpl_rx. rewrite Hfail. simpl_rx.
  destruct conn, dropped; reflexivity.
Qed.

(** The body of the loop is [receive_turn]. *)
Lemma receiveCallback_turn (fuel : nat) :
  receiveCallback (S fuel)
  = (stop <- gets stop_thread ;;
     if negb stop then receive_turn ;; receiveCallback fuel else ret tt).
Proof. reflexivity. Qed.

End ReceiveFacts.

Module ReceiveProofs.
Import RTDE RTDEReceiveInterface RTDEFacts ReceiveFacts.

Lemma after_error_log (s : RTDEReceiveInterface.t) (r : RTDE.t) (dropped : bool) :
  exists tail,
    session_log (after_error s r dropped) = log r ++ tail
    /\ (tail = [(ReceiveData, false)] \/ tail = [(ReceiveData, false); (Disconnect, true)])
    /\ session_connected (after_error s r dropped) = false.
Proof.
  unfold after_error, session_log, session_connected. cbn [rtde_ logged connected].
  destruct (connected r && negb dropped) eqn:E.
  - exists [(ReceiveData, false); (Disconnect, true)].
    cbn. rewrite <- app_assoc. auto.
  - exists [(ReceiveData, false)]. cbn. auto.
Qed.

Lemma receiveCallback_trace (fuel : nat) :
  forall s : RTDEReceiveInterface.t,
  exists (n : nat) (tail : list (Call * bool)),
    session_log (snd (receiveCallback fuel s))
    = session_log s ++ repeat (ReceiveData, true) n ++ tail
    /\ (stop_thread s = true -> n = O /\ tail = [])
    /\ closing (snd (receiveCallback fuel s)) tail.
Proof.
  induction fuel as [|fuel IH]; intros s.
  - exists O, []. cbn. rewrite app_nil_r. unfold closing. auto.
  - destruct (stop_thread s) eqn:Hstop.
    + rewrite (receiveCallback_stopped fuel s Hstop).
      exists O, []. cbn. rewrite app_nil_r. unfold closing. auto.
    + destruct (rtde_ s) as [r|] eqn:Hr.
      2:{ rewrite (receiveCallback_null fuel s Hstop Hr).
          exists O, []. cbn. rewrite app_nil_r. unfold closing.
          repeat split; auto; discriminate. }
      destruct (faults (peer r) (clock r)) as [|dropped] eqn:Hf.
      * destruct (robot_state_ s) as [st|] eqn:Hst.
        -- rewrite (receiveCallback_frame fuel s r st Hstop Hr Hst Hf).
           destruct (IH (after_frame s r st)) as (n & tail & Hlog & _ & Hclose).
           exists (S n), tail. rewrite Hlog. unfold session_log at 1 2.
           rewrite Hr. cbn [after_frame rtde_ logged log repeat].
           rewrite <- !app_assoc. repeat split; auto; discriminate.
        -- rewrite (receiveCallback_no_snapshot fuel s r Hstop Hr Hst Hf).
           exists 1%nat, []. unfold session_log. rewrite Hr.
           cbn. unfold closing. repeat split; auto; discriminate.
      * rewrite (receiveCallback_error fuel s r dropped Hstop Hr Hf).
        rewrite (receiveCallback_stopped_state fuel (after_error s r dropped) eq_refl).
        destruct (after_error_log s r dropped) as (tail & Hlog & Htail & Hconn).
        exists O, tail. rewrite Hlog. unfold session_log at 1. rewrite Hr.
        cbn [repeat app]. unfold closing. repeat split; auto; discriminate.
Qed.



End ReceiveProofs.

Module SetupProofs.
Import RTDE RTDEFacts.
Module IO := RTDEIOInterface.
Module Rx := RTDEReceiveInterface.
Import IOFacts ReceiveFacts.

Lemma series_frequency_cases (p : Peer) :
  (series_frequency p = 125 <-> MAJOR_VERSION (controller_version p) <= 3)
  /\ (series_frequency p = 500 <-> 3 < MAJOR_VERSION (controller_version p)).
Proof.
  unfold series_frequency.
  destruct (Z.leb_spec (MAJOR_VERSION (controller_version p)) 3); split; split;
    intros; try lia; try discriminate.
Qed.

Lemma output_frequencies_frames n :
  output_frequencies (repeat (ReceiveData, true) n) = [].
Proof. induction n; [reflexivity|exact IHn]. Qed.

Lemma receiveCallback_frequencies (fuel : nat) (s : Rx.t) :
  output_frequencies (Rx.session_log (snd (Rx.receiveCallback fuel s)))
  = output_frequencies (Rx.session_log s).
Proof.
  destruct (ReceiveProofs.receiveCallback_trace fuel s) as (n & tail & Hlog & _ & Hclose).
  rewrite Hlog, !output_frequencies_app, output_frequencies_frames.
  destruct Hclose as [-> | [[-> | ->] _]]; cbn; now rewrite app_nil_r.
Qed.

Lemma start_worker_frequencies (slices : nat) (s : Rx.t) :
  output_frequencies (Rx.session_log (snd (Rx.start_worker slices s)))
  = output_frequencies (Rx.session_log s).
Proof.
  unfold Rx.start_worker, bind, modify.
  pose proof (receiveCallback_frequencies slices (Rx.set_th s (Some tt))) as H.
  destruct (Rx.receiveCallback slices (Rx.set_th s (Some tt))) as [[| | |] s'];
    cbn [snd] in *; rewrite H; reflexivity.
Qed.

Ltac finish_log :=
  cbn [snd]; rewrite ?start_worker_frequencies;
  rewrite ?frequency_choice;
  unfold IO.session_log, Rx.session_log;
  cbn [IO.rtde_ Rx.rtde_ log snd];
  rewrite ?output_frequencies_app; cbn [output_frequencies flat_map app];
  rewrite ?app_nil_r; try reflexivity.

Lemma io_new_frequencies (p : Peer) (hostname : string) (port : Z) :
  output_frequencies (IO.session_log (snd (IO.new p hostname port)))
  = if setup_reached p 0 then [series_frequency p] else [].
Proof.
  unfold IO.new, IO.constructor_body, RTDE.new, setup_reached. unfold_rtde.
  repeat (progress (simpl_run; try destruct_faults)); finish_log.
Qed.

Lemma io_reconnect_frequencies (s : IO.t) (r : RTDE.t) :
  IO.rtde_ s = Some r ->
  output_frequencies (IO.session_log (snd (IO.reconnect s)))
  = output_frequencies (log r)
    ++ (if setup_reached (peer r) (clock r) then [series_frequency (peer r)] else []).
Proof.
  intros Hr. destruct s as [h po rt rs co ce]. destruct r as [rh p conn c lg].
  cbn in Hr. subst rt.
  unfold IO.reconnect, setup_reached. unfold_rtde.
  repeat (progress (simpl_run; try destruct_faults)); finish_log.
Qed.

Lemma rx_new_frequencies (p : Peer) (slices : nat) (hostname : string)
    (variables : list string) (port : Z) (verbose : bool) :
  output_frequencies (Rx.session_log (snd (Rx.new p slices hostname variables port verbose)))
  = if setup_reached p 0 then [series_frequency p] else [].
Proof.
  unfold Rx.new, Rx.constructor_body, RTDE.new, setup_reached.
  destruct variables as [|v vs]; unfold_rx;
    repeat (progress (simpl_rx; try destruct_faults)); finish_log.
Qed.

Lemma rx_isConnected_log (s : Rx.t) :
  Rx.session_log (snd (Rx.isConnected s)) = Rx.session_log s.
Proof.
  unfold Rx.isConnected, Rx.on_rtde, RTDE.isConnected, gets, Rx.session_log.
  destruct (Rx.rtde_ s) eqn:E; cbn [snd]; [reflexivity|now rewrite E].
Qed.

Lemma rx_then_isConnected_log {A} (m : M Rx.t A) (s : Rx.t) :
  Rx.session_log (snd (bind m (fun _ => Rx.isConnected) s)) = Rx.session_log (snd (m s)).
Proof.
  unfold bind. destruct (m s) as [[a| | |] s1]; cbn [snd]; try reflexivity.
  apply rx_isConnected_log.
Qed.

Lemma rx_reconnect_frequencies (slices : nat) (s : Rx.t) (r : RTDE.t) :
  Rx.rtde_ s = Some r ->
  output_frequencies (Rx.session_log (snd (Rx.reconnect slices s)))
  = output_frequencies (log r)
    ++ (if setup_reached (peer r) (clock r) then [series_frequency (peer r)] else []).
Proof.
  intros Hr. unfold Rx.reconnect.
  unfold bind at 1. unfold Rx.rtde_not_null at 1. unfold gets at 1. rewrite Hr.
  rewrite rx_then_isConnected_log.
  destruct s as [va h po ve rt rs stp th ce]. destruct r as [rh p conn c lg].
  cbn in Hr. subst rt. unfold setup_reached.
  destruct va as [|v vs]; unfold_rx;
    repeat (progress (simpl_rx; try destruct_faults)); finish_log.
Qed.

(** C6.  In the constructor and in [reconnect] of both interfaces, the
    frequency handed to [sendOutputSetup] is 125 exactly when the
    controller reports a major version of at most 3, and 500 otherwise,
    whatever version tuple the controller reports; the output setup is
    requested once, whenever the sequence gets that far. *)
Theorem output_frequency_follows_series :
  (forall p : Peer,
     (series_frequency p = 125 <-> MAJOR_VERSION (controller_version p) <= 3)
     /\ (series_frequency p = 500 <-> 3 < MAJOR_VERSION (controller_version p)))
  /\ (forall (p : Peer) (hostname : string) (port : Z),
        output_frequencies (IO.session_log (snd (IO.new p hostname port)))
        = if setup_reached p 0 then [series_frequency p] else [])
  /\ (forall (s : IO.t) (r : RTDE.t),
        IO.rtde_ s = Some r ->
        output_frequencies (IO.session_log (snd (IO.reconnect s)))
        = output_frequencies (log r)
          ++ (if setup_reached (peer r) (clock r) then [series_frequency (peer r)] else []))
  /\ (forall (p : Peer) (slices : nat) (hostname : string) (variables : list string)
             (port : Z) (verbose : bool),
        output_frequencies
          (Rx.session_log (snd (Rx.new p slices hostname variables port verbose)))
        = if setup_reached p 0 then [series_frequency p] else [])
  /\ (forall (slices : nat) (s : Rx.t) (r : RTDE.t),
        Rx.rtde_ s = Some r ->
        output_frequencies (Rx.session_log (snd (Rx.reconnect slices s)))
        = output_frequencies (log r)
          ++ (if setup_reached (peer r) (clock r) then [series_frequency (peer r)] else [])).
Proof.
  split; [exact series_frequency_cases|].
  split; [exact io_new_frequencies|].
  split; [exact io_reconnect_frequencies|].
  split; [exact rx_new_frequencies|exact rx_reconnect_frequencies].
Qed.

Lemma output_frequency_follows_series_witness :
  output_frequencies (IO.session_log (snd (IO.reconnect (Samples.io_session Samples.cb_series))))
  = output_frequencies (log (Samples.io_link Samples.cb_series))
    ++ (if setup_reached (peer (Samples.io_link Samples.cb_series))
             (clock (Samples.io_link Samples.cb_series))
        then [series_frequency (peer (Samples.io_link Samples.cb_series))] else [])
  /\ output_frequencies
       (Rx.session_log (snd (Rx.reconnect 3 (Samples.rx_session Samples.e_series))))
     = output_frequencies (log (Samples.rx_link Samples.e_series))
       ++ (if setup_reached (peer (Samples.rx_link Samples.e_series))
                (clock (Samples.rx_link Samples.e_series))
           then [series_frequency (peer (Samples.rx_link Samples.e_series))] else []).
Proof.
  split.
  - apply (proj1 (proj2 (proj2 output_frequency_follows_series))
             (Samples.io_session Samples.cb_series) (Samples.io_link Samples.cb_series)).
    vm_compute. reflexivity.
  - apply (proj2 (proj2 (proj2 (proj2 output_frequency_follows_series))) 3%nat
             (Samples.rx_session Samples.e_series) (Samples.rx_link Samples.e_series)).
    vm_compute. reflexivity.
Defined.

Lemma ends_true {St A} (m : M St A) (k : A -> M St bool) :
  (forall a s b s', k a s = (Ret b, s') -> b = true) ->
  forall s b s', bind m k s = (Ret b, s') -> b = true.
Proof.
  intros Hk s b s'. unfold bind.
  destruct (m s) as [[a| | |] s1]; try discriminate. apply Hk.
Qed.

Lemma io_reconnect_true (s : IO.t) (b : bool) (s' : IO.t) :
  IO.reconnect s = (Ret b, s') -> b = true.
Proof.
  revert s b s'. unfold IO.reconnect.
  repeat (cbv zeta; apply ends_true; intros ?).
  intros s b s' H. now inversion H.
Qed.

Lemma rx_reconnect_status (slices : nat) (s : Rx.t) (b : bool) (s' : Rx.t) :
  Rx.reconnect slices s = (Ret b, s') -> b = Rx.session_connected s'.
Proof.
  unfold Rx.reconnect. unfold bind at 1.
  destruct (Rx.rtde_not_null s) as [[nn| | |] s0]; try discriminate.
  unfold bind at 1.
  match goal with
  | |- context [match ?m s0 with _ => _ end] => destruct (m s0) as [[a| | |] s1]
  end; try discriminate.
  unfold Rx.isConnected, Rx.on_rtde, RTDE.isConnected, gets, Rx.session_connected.
  destruct (Rx.rtde_ s1) as [r1|]; [|discriminate].
  intros H. inversion H. reflexivity.
Qed.

End SetupProofs.

Module ReconnectProofs.
Import RTDE RTDEFacts Samples.
Module IO := RTDEIOInterface.
Module Rx := RTDEReceiveInterface.

(** C9.  Whenever [RTDEIOInterface::reconnect] returns, it returns true,
    whatever the state it was called in; what
    [RTDEReceiveInterface::reconnect] returns is the connection status of
    its session at that moment. *)
Theorem reconnect_results :
  (forall (s : IO.t) (b : bool) (s' : IO.t),
     IO.reconnect s = (Ret b, s') -> b = true)
  /\ (forall (slices : nat) (s : Rx.t) (b : bool) (s' : Rx.t),
        Rx.reconnect slices s = (Ret b, s') -> b = Rx.session_connected s').
Proof.
  split; [exact SetupProofs.io_reconnect_true|exact SetupProofs.rx_reconnect_status].
Qed.

Lemma reconnect_results_witness :
  true = true
  /\ false = Rx.session_connected (snd (Rx.reconnect 1%nat (rx_session (lossy 10 false)))).
Proof.
  split.
  - apply (proj1 reconnect_results (io_session e_series) true
             (snd (IO.reconnect (io_session e_series)))).
    vm_compute. reflexivity.
  - apply (proj2 reconnect_results 1%nat (rx_session (lossy 10 false)) false
             (snd (Rx.reconnect 1%nat (rx_session (lossy 10 false))))).
    vm_compute. reflexivity.
Defined.

End ReconnectProofs.


(* ===================================================================== *)
(** * More about the script client                                        *)
(* ===================================================================== *)

Module ScriptUploadProofs.
Import StdString ScriptText ScriptClient ScriptMarkers StdStringFacts ScriptClientFacts Samples.

Lemma find_none_lacks c (s : StdString.t) : find c 0 s = None -> lacks c s = true.
Proof.
  induction s as [|x s IH]; [reflexivity|]. cbn [find lacks forallb].
  destruct (Ascii.eqb x c); [discriminate|].
  destruct (find c 0 s); [discriminate|]. intros _. exact (IH eq_refl).
Qed.

Lemma find_some_split c (s : StdString.t) :
  forall n, find c 0 s = Some n ->
  exists pre rest, s = pre ++ c :: rest /\ List.length pre = n /\ lacks c pre = true.
Proof.
  induction s as [|x s IH]; intros n; [discriminate|]. cbn [find].
  destruct (Ascii.eqb_spec x c) as [->|Hx].
  - intros H. inversion H. exists [], s. auto.
  - destruct (find c 0 s) as [m|]; [|discriminate]. intros H. inversion H.
    destruct (IH m eq_refl) as (pre & rest & -> & Hlen & Hl).
    exists (x :: pre), rest. cbn [app List.length lacks forallb].
    destruct (Ascii.eqb_spec x c); [contradiction|].
    split; [reflexivity|]. split; [now rewrite Hlen|exact Hl].
Qed.

(** A turn of the marker loop touches only the text. *)
Lemma marker_step_state major minor (text : StdString.t) n (c : ScriptClient.t) :
  snd (marker_step major minor text n c) = c.
Proof.
  unfold marker_step, bind, lift, ret.
  repeat match goal with
         | |- context [match ?x with _ => _ end] => destruct x
         | |- context [if ?x then _ else _] => destruct x
         end; reflexivity.
Qed.

Lemma marker_loop_state major minor fuel :
  forall (text : StdString.t) n (c : ScriptClient.t),
    snd (marker_loop fuel major minor text n c) = c.
Proof.
  induction fuel as [|fuel IH]; intros text n c.
  - destruct n; reflexivity.
  - destruct n as [i|]; [|reflexivity]. cbn [marker_loop]. unfold bind.
    pose proof (marker_step_state major minor text i c) as Hs.
    destruct (marker_step major minor text i c) as [[[b|t']| | |] c1];
      cbn [snd] in Hs; subst c1; try reflexivity. apply IH.
Qed.

(** The loop leaves by [return] only with false. *)
Lemma marker_step_returned major minor (text : StdString.t) n (c c' : ScriptClient.t) b :
  marker_step major minor text n c = (Ret (Returned b), c') -> b = false.
Proof.
  unfold marker_step, bind, lift, ret.
  repeat match goal with
         | |- context [match ?x with _ => _ end] => destruct x
         | |- context [if ?x then _ else _] => destruct x
         end; intros H; inversion H; reflexivity.
Qed.

Lemma marker_loop_result major minor fuel :
  forall (text : StdString.t) (c c' : ScriptClient.t) (r : pass_end),
    marker_loop fuel major minor text (find dollar 0 text) c = (Ret r, c') ->
    match r with
    | Returned b => b = false
    | Substituted out => lacks dollar out = true
    end.
Proof.
  induction fuel as [|fuel IH]; intros text c c' r.
  - destruct (find dollar 0 text) eqn:Hf; [discriminate|].
    cbn. intros H. inversion H. now apply find_none_lacks.
  - destruct (find dollar 0 text) as [i|] eqn:Hf.
    + cbn [marker_loop]. unfold bind.
      destruct (marker_step major minor text i c) as [[[b|t']| | |] c1] eqn:Hs;
        try discriminate.
      * intros H. inversion H. subst. eapply marker_step_returned; eauto.
      * apply IH.
    + cbn. intros H. inversion H. now apply find_none_lacks.
Qed.

(** X1.  What [sendScript()] writes to the socket holds no dollar sign:
    whenever it returns true, it has added to the bytes sent one
    non-empty text without a marker; and it never returns true without
    writing. *)
Theorem sendScript_never_sends_a_marker UR_SCRIPT files (fuel : nat)
    (c c' : ScriptClient.t) :
  sendScript UR_SCRIPT files fuel c = (Ret true, c') ->
  exists sock text,
    socket_ c = Some sock
    /\ c' = set_socket c (Some {| sent := sent sock ++ text; broken := false |})
    /\ lacks dollar text = true
    /\ empty text = false.
Proof.
  unfold sendScript, bind at 1. unfold get at 1. unfold bind at 1.
  pose proof (marker_loop_state (major_control_version_ c) (minor_control_version_ c) fuel
                (initial_script UR_SCRIPT files c)
                (find dollar 0 (initial_script UR_SCRIPT files c)) c) as Hstate.
  destruct (marker_loop fuel (major_control_version_ c) (minor_control_version_ c)
              (initial_script UR_SCRIPT files c)
              (find dollar 0 (initial_script UR_SCRIPT files c)) c)
    as [[[b|text]| | |] c1] eqn:Hloop; try discriminate; cbn [snd] in Hstate; subst c1.
  - pose proof (marker_loop_result _ _ _ _ _ _ _ Hloop) as Hb. cbn in Hb. subst b.
    discriminate.
  - pose proof (marker_loop_result _ _ _ _ _ _ _ Hloop) as Hl. cbn in Hl.
    unfold bind, isConnected, gets, write, ret.
    destruct (ConnectionState_eqb (conn_state_ c) CONNECTED); [|discriminate].
    destruct (empty text) eqn:He; [discriminate|]. cbn [andb negb].
    destruct (socket_ c) as [sock|]; [|discriminate].
    destruct (broken sock) eqn:Hbr; [discriminate|].
    intros H. inversion H. exists sock, text. auto.
Qed.

Lemma sendScript_never_sends_a_marker_witness :
  exists sock text,
    socket_ (session 3 10) = Some sock
    /\ snd (sendScript (render_all sample_lines ++ lit "end") no_files 2 (session 3 10))
       = set_socket (session 3 10) (Some {| sent := sent sock ++ text; broken := false |})
    /\ lacks dollar text = true
    /\ empty text = false.
Proof.
  apply (sendScript_never_sends_a_marker (render_all sample_lines ++ lit "end") no_files 2
           (session 3 10)
           (snd (sendScript (render_all sample_lines ++ lit "end") no_files 2 (session 3 10)))).
  vm_compute. reflexivity.
Defined.

Lemma closed_lines_app (pre s : StdString.t) :
  lacks dollar pre = true -> closed_lines (pre ++ s) = closed_lines s.
Proof.
  induction pre as [|x pre IH]; [reflexivity|]. cbn [lacks forallb app closed_lines].
  intros H. apply andb_prop in H. destruct H as [Hx Hp].
  apply negb_true_iff in Hx. rewrite Hx. cbn [andb]. exact (IH Hp).
Qed.

Lemma closed_lines_skipn (k : nat) :
  forall s : StdString.t, closed_lines s = true -> closed_lines (skipn k s) = true.
Proof.
  induction k as [|k IH]; intros s H; [exact H|].
  destruct s as [|x s]; [reflexivity|]. cbn [skipn]. apply IH.
  cbn [closed_lines] in H. apply andb_prop in H. tauto.
Qed.

Lemma dollars_app (a b : StdString.t) : dollars (a ++ b) = (dollars a + dollars b)%nat.
Proof. unfold dollars. now rewrite filter_app, length_app. Qed.

Lemma dollars_lacks (s : StdString.t) : lacks dollar s = true -> dollars s = O.
Proof.
  unfold dollars. induction s as [|x s IH]; [reflexivity|]. cbn [lacks forallb filter].
  intros H. apply andb_prop in H. destruct H as [Hx Hs].
  apply negb_true_iff in Hx. rewrite Hx. exact (IH Hs).
Qed.

Lemma dollars_skipn (k : nat) :
  forall s : StdString.t, (dollars (skipn k s) <= dollars s)%nat.
Proof.
  induction k as [|k IH]; intros s; [cbn [skipn]; lia|].
  destruct s as [|x s]; [cbn [skipn]; lia|]. cbn [skipn]. specialize (IH s).
  unfold dollars in *. cbn [filter]. destruct (Ascii.eqb x dollar); cbn [List.length]; lia.
Qed.

Lemma existsb_split c (s : StdString.t) :
  existsb (fun x => Ascii.eqb x c) s = true ->
  exists a b, s = a ++ c :: b /\ lacks c a = true.
Proof.
  induction s as [|x s IH]; [discriminate|]. cbn [existsb].
  destruct (Ascii.eqb_spec x c) as [->|Hx].
  - intros _. exists [], s. auto.
  - cbn [orb]. intros H. destruct (IH H) as (a & b & -> & Ha).
    exists (x :: a), b. split; [reflexivity|]. cbn [lacks forallb].
    destruct (Ascii.eqb_spec x c); [contradiction|]. exact Ha.
Qed.

Lemma stoi_finished (s : StdString.t) : stoi s <> Unfinished /\ stoi s <> Undefined.
Proof.
  unfold stoi.
  repeat match goal with
         | |- context [match ?x with _ => _ end] => destruct x
         | |- context [if ?x then _ else _] => destruct x
         | |- context [let '(_, _) := ?x in _] => destruct x
         end; split; discriminate.
Qed.

Lemma skipn_past (a b : StdString.t) (x : ascii) :
  skipn (S (List.length a)) (a ++ x :: b) = b.
Proof. induction a as [|y a IH]; [reflexivity|exact IH]. Qed.

Lemma at_behind (pre rest : StdString.t) (x : ascii) (k : nat) :
  at_ (pre ++ x :: rest) (List.length pre + S k)
  = match nth_error rest k with
    | Some c => Ret c
    | None => Throw (out_of_range "basic_string::at")
    end.
Proof.
  unfold at_. rewrite nth_error_app2 by lia.
  replace (List.length pre + S k - List.length pre)%nat with (S k) by lia. reflexivity.
Qed.

(** One turn of the loop on a text whose markers all have a newline
    after them: it ends the pass, or leaves such a text behind with
    fewer dollar signs and no more characters. *)
Lemma marker_step_progress major minor (pre rest : StdString.t) (c : ScriptClient.t) :
  lacks dollar pre = true ->
  closed_lines (pre ++ dollar :: rest) = true ->
  size (pre ++ dollar :: rest) < size_t_modulus ->
  match fst (marker_step major minor (pre ++ dollar :: rest) (List.length pre) c) with
  | Ret (Substituted text') =>
      closed_lines text' = true
      /\ (dollars text' < dollars (pre ++ dollar :: rest))%nat
      /\ size text' <= size (pre ++ dollar :: rest)
  | Ret (Returned _) | Throw _ => True
  | Undefined | Unfinished => False
  end.
Proof.
  intros Hpre Hclosed Hsize.
  rewrite (closed_lines_app pre _ Hpre) in Hclosed.
  cbn [closed_lines] in Hclosed. rewrite Ascii.eqb_refl in Hclosed.
  apply andb_prop in Hclosed. destruct Hclosed as [Hnl Hrest].
  assert (Hd : dollars (pre ++ dollar :: rest) = S (dollars rest)).
  { rewrite dollars_app, (dollars_lacks pre Hpre). reflexivity. }
  unfold marker_step, bind, lift.
  rewrite (at_behind pre rest dollar 1), (at_behind pre rest dollar 2).
  destruct (nth_error rest 1) as [M|] eqn:HM; cbn [fst]; [|exact I].
  destruct (nth_error rest 2) as [N|] eqn:HN; cbn [fst]; [|exact I].
  match goal with |- context [if ?g then _ else _] => destruct g end; cbn [fst]; [|exact I].
  destruct (stoi_finished [M]) as [HM1 HM2].
  destruct (stoi [M]) as [a| | |]; cbn [fst]; try exact I; try contradiction.
  destruct (stoi_finished [N]) as [HN1 HN2].
  destruct (stoi [N]) as [b| | |]; cbn [fst]; try exact I; try contradiction.
  match goal with |- context [if ?g then _ else _] => destruct g end.
  - (* Keep the line *)
    assert (Hlen : (3 <= List.length rest)%nat).
    { assert (H2 : (2 < List.length rest)%nat) by (apply nth_error_Some; congruence).
      lia. }
    assert (Hsplit : dollar :: rest = (dollar :: firstn 3 rest) ++ skipn 3 rest)
      by (cbn [app]; now rewrite firstn_skipn).
    rewrite Hsplit.
    rewrite (erase_middle pre (dollar :: firstn 3 rest) (skipn 3 rest)).
    2:{ unfold size. cbn [List.length]. rewrite firstn_length_le by lia. reflexivity. }
    rewrite insert_at. cbn [fst ret].
    rewrite <- Hsplit. split; [|split].
    + rewrite closed_lines_app by exact Hpre.
      rewrite (closed_lines_app (lit "    ")) by reflexivity.
      now apply closed_lines_skipn.
    + rewrite Hd, !dollars_app, (dollars_lacks pre Hpre).
      rewrite (dollars_lacks (lit "    ")) by reflexivity.
      pose proof (dollars_skipn 3 rest). lia.
    + unfold size. rewrite !length_app. cbn [List.length lit list_ascii_of_string].
      rewrite length_skipn. lia.
  - (* Erase the line *)
    destruct (existsb_split nl rest Hnl) as (la & lb & -> & Ha).
    assert (Hfind : find nl (List.length pre) (pre ++ dollar :: la ++ nl :: lb)
                    = Some (List.length pre + S (List.length la))%nat).
    { rewrite find_from.
      change (dollar :: la ++ nl :: lb) with ((dollar :: la) ++ nl :: lb).
      rewrite find_first; [reflexivity|]. cbn [lacks forallb]. exact Ha. }
    rewrite Hfind. cbn [find_result].
    replace (pre ++ dollar :: la ++ nl :: lb)
      with (pre ++ (dollar :: la ++ [nl]) ++ lb) in *
      by (cbn [app]; now rewrite <- app_assoc).
    rewrite erase_middle.
    2:{ unfold size in *. rewrite !length_app in Hsize. cbn [List.length] in *.
        rewrite !length_app in *. cbn [List.length] in *. rewrite Z.mod_small; lia. }
    cbn [fst ret]. split; [|split].
    + rewrite closed_lines_app by exact Hpre.
      replace lb with (skipn (S (List.length la)) (la ++ nl :: lb)).
      * now apply closed_lines_skipn.
      * apply skipn_past.
    + clear Hd. rewrite !dollars_app, (dollars_lacks pre Hpre).
      change (dollar :: la ++ [nl]) with ([dollar] ++ la ++ [nl]).
      rewrite !dollars_app. change (dollars [dollar]) with 1%nat. lia.
    + unfold size. rewrite !length_app. cbn [List.length]. rewrite !length_app. lia.
Qed.

Lemma marker_loop_terminates major minor (fuel : nat) :
  forall (text : StdString.t) (c : ScriptClient.t),
    closed_lines text = true ->
    size text < size_t_modulus ->
    (dollars text <= fuel)%nat ->
    fst (marker_loop fuel major minor text (find dollar 0 text) c) <> Unfinished
    /\ fst (marker_loop fuel major minor text (find dollar 0 text) c) <> Undefined.
Proof.
  induction fuel as [|fuel IH]; intros text c Hclosed Hsize Hfuel.
  - destruct (find dollar 0 text) as [n|] eqn:Hf; [|split; discriminate].
    destruct (find_some_split _ _ _ Hf) as (pre & rest & -> & _ & Hpre).
    rewrite dollars_app in Hfuel. cbn in Hfuel. lia.
  - destruct (find dollar 0 text) as [n|] eqn:Hf; [|split; discriminate].
    destruct (find_some_split _ _ _ Hf) as (pre & rest & -> & <- & Hpre).
    cbn [marker_loop]. unfold bind.
    pose proof (marker_step_progress major minor pre rest c Hpre Hclosed Hsize) as Hstep.
    pose proof (marker_step_state major minor (pre ++ dollar :: rest) (List.length pre) c)
      as Hstate.
    destruct (marker_step major minor (pre ++ dollar :: rest) (List.length pre) c)
      as [[[b|text']| | |] c1]; cbn [fst snd] in *; try (split; discriminate);
      try contradiction.
    destruct Hstep as (Hc' & Hd' & Hs'). apply IH; [exact Hc'|lia|lia].
Qed.

(** X2.  The marker loop of [sendScript()] ends: on a text in which
    every dollar sign has a newline somewhere after it, one turn per
    dollar sign is enough for [sendScript] to come to its end. *)
Theorem sendScript_terminates UR_SCRIPT files (fuel : nat) (c : ScriptClient.t) :
  closed_lines (initial_script UR_SCRIPT files c) = true ->
  size (initial_script UR_SCRIPT files c) < size_t_modulus ->
  (dollars (initial_script UR_SCRIPT files c) <= fuel)%nat ->
  fst (sendScript UR_SCRIPT files fuel c) <> Unfinished.
Proof.
  intros Hclosed Hsize Hfuel.
  destruct (marker_loop_terminates (major_control_version_ c) (minor_control_version_ c)
              fuel _ c Hclosed Hsize Hfuel) as [Hloop _].
  unfold sendScript, bind at 1. unfold get at 1. unfold bind at 1.
  destruct (marker_loop fuel (major_control_version_ c) (minor_control_version_ c)
              (initial_script UR_SCRIPT files c)
              (find dollar 0 (initial_script UR_SCRIPT files c)) c)
    as [[[b|text]| | |] c1]; cbn [fst] in *; try discriminate; try contradiction.
  unfold bind, isConnected, gets.
  destruct (ConnectionState_eqb (conn_state_ c1) CONNECTED), (empty text);
    cbn [andb negb]; unfold write, ret; try (cbn [fst]; discriminate).
  destruct (socket_ c1) as [sock|]; [destruct (broken sock)|]; cbn [fst]; discriminate.
Qed.

Lemma sendScript_terminates_witness :
  fst (sendScript (render_all sample_lines ++ lit "end") no_files 2 (session 3 10))
  <> Unfinished.
Proof.
  apply (sendScript_terminates (render_all sample_lines ++ lit "end") no_files 2
           (session 3 10)).
  - vm_compute. reflexivity.
  - vm_compute. reflexivity.
  - vm_compute. lia.
Defined.

Lemma erase_to_end (a x : StdString.t) count :
  size x <= count -> erase (a ++ x) (List.length a) count = Ret a.
Proof.
  intros Hcount. unfold erase, size in *.
  replace (List.length (a ++ x) <? List.length a)%nat with false.
  2:{ symmetry. apply Nat.ltb_ge. rewrite length_app. lia. }
  rewrite length_app.
  replace (Z.to_nat (Z.min count
             (Z.of_nat (List.length a + List.length x) - Z.of_nat (List.length a))))
    with (List.length x) by lia.
  rewrite firstn_app, Nat.sub_diag, firstn_all. cbn [firstn]. rewrite app_nil_r.
  rewrite skipn_all2 by (rewrite length_app; lia). now rewrite app_nil_r.
Qed.

(** X3.  A marked line that does not fit the live version and has no
    newline after it -- the last line of a text that does not end in a
    newline: when the marker opens the text, the count handed to [erase]
    wraps round to 0 and the loop never ends; when something stands in
    front of the marker, the count is large, everything from the marker
    on is deleted, and what stood in front is what gets uploaded. *)
Theorem sendScript_unterminated_unfit_line UR_SCRIPT files (c : ScriptClient.t)
    (pre : StdString.t) (tag M N : ascii) (body : StdString.t) (fuel : nat) :
  initial_script UR_SCRIPT files c = pre ++ dollar :: tag :: M :: N :: body ->
  lacks dollar pre = true ->
  is_digit M = true -> is_digit N = true ->
  lacks nl (tag :: body) = true ->
  version_at_least (major_control_version_ c) (minor_control_version_ c) M N = false ->
  size (pre ++ dollar :: tag :: M :: N :: body) < size_t_modulus ->
  (pre = [] -> fst (sendScript UR_SCRIPT files fuel c) = Unfinished)
  /\ (pre <> [] -> sendScript UR_SCRIPT files (S fuel) c = sendScriptCommand pre c).
Proof.
  intros Htext Hpre HM HN Hnl Hunfit Hsize. split.
  - intros ->. cbn [app] in Htext.
    exact (ScriptClientProofs.sendScript_unfit_first_line_without_newline UR_SCRIPT files c tag M N body fuel
             Htext HM HN Hnl Hunfit).
  - intros Hne.
    unfold sendScript, bind at 1. unfold get at 1. rewrite Htext.
    rewrite (find_first dollar pre _ Hpre).
    assert (Hstep : marker_step (major_control_version_ c) (minor_control_version_ c)
                      (pre ++ dollar :: tag :: M :: N :: body) (List.length pre) c
                    = (Ret (Substituted pre), c)).
    { unfold marker_step, bind, lift.
      rewrite (at_behind pre (tag :: M :: N :: body) dollar 1),
              (at_behind pre (tag :: M :: N :: body) dollar 2).
      cbn [nth_error].
      rewrite (digit_not_space M HM), (digit_not_space N HN). cbn [empty negb andb].
      rewrite (stoi_digit M HM), (stoi_digit N HN).
      rewrite (needed_version M HM), (needed_version N HN).
      rewrite version_test, Hunfit. cbn [orb].
      assert (Hnone : find nl (List.length pre) (pre ++ dollar :: tag :: M :: N :: body)
                      = None).
      { rewrite find_from. rewrite find_absent; [reflexivity|].
        cbn [lacks forallb] in *.
        destruct (digit_not_control M HM) as [-> _].
        destruct (digit_not_control N HN) as [-> _].
        apply andb_prop in Hnl. destruct Hnl as [-> Hb]. cbn. exact Hb. }
      rewrite Hnone. cbn [find_result].
      rewrite erase_to_end; [reflexivity|].
      assert (Hlen : (0 < List.length pre)%nat) by (destruct pre; [congruence|cbn; lia]).
      unfold size, npos, size_t_modulus in *. rewrite length_app in Hsize.
      replace (2 ^ 64 - 1 - Z.of_nat (List.length pre) + 1)
        with (2 ^ 64 - Z.of_nat (List.length pre)) by lia.
      rewrite Z.mod_small; lia. }
    unfold bind at 1. cbn [marker_loop]. unfold bind at 1.
    rewrite Hstep, (find_absent dollar pre Hpre).
    destruct fuel; reflexivity.
Qed.

Lemma sendScript_unterminated_unfit_line_witness :
  fst (sendScript (lit "$V55 textmsg(1)") no_files 9 (session 3 0)) = Unfinished
  /\ sendScript (lit "x = 1" ++ [nl] ++ lit "$V55 textmsg(1)") no_files 1 (session 3 0)
     = sendScriptCommand (lit "x = 1" ++ [nl]) (session 3 0).
Proof.
  split.
  - apply (proj1 (sendScript_unterminated_unfit_line (lit "$V55 textmsg(1)") no_files
                    (session 3 0) [] "V"%char "5"%char "5"%char (lit " textmsg(1)") 9
                    eq_refl eq_refl eq_refl eq_refl eq_refl eq_refl eq_refl)).
    reflexivity.
  - apply (proj2 (sendScript_unterminated_unfit_line
                    (lit "x = 1" ++ [nl] ++ lit "$V55 textmsg(1)") no_files
                    (session 3 0) (lit "x = 1" ++ [nl]) "V"%char "5"%char "5"%char
                    (lit " textmsg(1)") 0
                    eq_refl eq_refl eq_refl eq_refl eq_refl eq_refl eq_refl)).
    discriminate.
Defined.





(** X6.  [connect()] sets the connection state only after the connection
    is made: when the controller refuses, the exception leaves [connect]
    with the state as it was and a socket that is not connected in place
    of the old one.  Called on a client that was connected, this leaves
    [isConnected()] true, and the next non-empty command is then written
    to the dead socket and throws instead of being refused with false. *)
Theorem connect_refused_keeps_state (c : ScriptClient.t) :
  connect false c
  = (Throw (system_error "connect"),
     set_socket c (Some {| sent := []; broken := true |}))
  /\ isConnected (snd (connect false c))
     = (Ret (ConnectionState_eqb (conn_state_ c) CONNECTED), snd (connect false c))
  /\ (forall cmd_str : StdString.t,
        conn_state_ c = CONNECTED -> empty cmd_str = false ->
        sendScriptCommand cmd_str (snd (connect false c))
        = (Throw (system_error "write"), snd (connect false c)))
  /\ (forall cmd_str : StdString.t,
        conn_state_ c = DISCONNECTED ->
        sendScriptCommand cmd_str (snd (connect false c))
        = (Ret false, snd (connect false c))).
Proof.
  assert (H : connect false c
              = (Throw (system_error "connect"),
                 set_socket c (Some {| sent := []; broken := true |})))
    by reflexivity.
  split; [exact H|]. rewrite H. cbn [snd]. split; [reflexivity|]. split.
  - intros cmd_str Hc He. unfold sendScriptCommand, bind, isConnected, gets.
    cbn [set_socket conn_state_]. rewrite Hc, He. reflexivity.
  - intros cmd_str Hc. unfold sendScriptCommand, bind, isConnected, gets.
    cbn [set_socket conn_state_]. rewrite Hc. reflexivity.
Qed.

Lemma connect_refused_keeps_state_witness :
  sendScriptCommand (lit "stop program") (snd (connect false (session 5 10)))
  = (Throw (system_error "write"), snd (connect false (session 5 10))).
Proof.
  apply (proj1 (proj2 (proj2 (connect_refused_keeps_state (session 5 10))))
           (lit "stop program")); reflexivity.
Defined.

(** X7.  [disconnect()] and [connect()] undo each other: after
    [disconnect()] every command is refused with false and nothing is
    written, a second [disconnect()] changes nothing, and after a
    [connect()] that the controller accepts the client is connected on a
    new socket, so that a command written next is all this socket has
    carried, whatever the client had sent or been before. *)
Theorem disconnect_connect_round_trip (c : ScriptClient.t) (cmd_str : StdString.t) :
  sendScriptCommand cmd_str (snd (disconnect c)) = (Ret false, snd (disconnect c))
  /\ disconnect (snd (disconnect c)) = (Ret tt, snd (disconnect c))
  /\ connect true (snd (disconnect c))
     = (Ret tt, set_conn_state (set_socket c (Some {| sent := []; broken := false |}))
                  CONNECTED)
  /\ connect true c = connect true (snd (disconnect c))
  /\ (empty cmd_str = false ->
      (connect true ;; sendScriptCommand cmd_str) c
      = (Ret true,
         set_socket (snd (connect true c))
           (Some {| sent := cmd_str; broken := false |}))).
Proof.
  repeat split.
  intros He. unfold bind at 1.
  change (connect true c)
    with (Ret tt, set_conn_state (set_socket c (Some {| sent := []; broken := false |}))
                    CONNECTED).
  cbn [snd].
  rewrite (ScriptClientProofs.sendScriptCommand_healthy
             (set_conn_state (set_socket c (Some {| sent := []; broken := false |}))
                CONNECTED)
             cmd_str {| sent := []; broken := false |} eq_refl He eq_refl eq_refl).
  reflexivity.
Qed.

Lemma disconnect_connect_round_trip_witness :
  (connect true ;; sendScriptCommand (lit "stop program")) (session 5 10)
  = (Ret true,
     set_socket (snd (connect true (session 5 10)))
       (Some {| sent := lit "stop program"; broken := false |})).
Proof.
  apply (proj2 (proj2 (proj2 (proj2
           (disconnect_connect_round_trip (session 5 10) (lit "stop program")))))).
  reflexivity.
Defined.

(** X8.  The first marker of a text that is not a complete marker ends
    the upload before anything is written: a dollar sign with fewer than
    three characters after it makes [at] throw [std::out_of_range], which
    leaves [sendScript()]; a marker whose major or minor character is a
    blank makes [sendScript()] return false. *)
Theorem sendScript_incomplete_marker UR_SCRIPT files (c : ScriptClient.t) (n fuel : nat) :
  find dollar 0 (initial_script UR_SCRIPT files c) = Some n ->
  ((List.length (initial_script UR_SCRIPT files c) <= n + 3)%nat ->
   sendScript UR_SCRIPT files (S fuel) c = (Throw (out_of_range "basic_string::at"), c))
  /\ (forall a b,
        nth_error (initial_script UR_SCRIPT files c) (n + 2) = Some a ->
        nth_error (initial_script UR_SCRIPT files c) (n + 3) = Some b ->
        Ascii.eqb a space || Ascii.eqb b space = true ->
        sendScript UR_SCRIPT files (S fuel) c = (Ret false, c)).
Proof.
  intros Hn. split.
  - intros Hshort.
    unfold sendScript, bind at 1. unfold get at 1. rewrite Hn.
    cbn [marker_loop]. unfold bind at 1. unfold marker_step, bind, lift, at_.
    destruct (nth_error (initial_script UR_SCRIPT files c) (n + 2)) as [a|] eqn:Ha;
      [|reflexivity].
    assert (Hb : nth_error (initial_script UR_SCRIPT files c) (n + 3) = None)
      by (apply nth_error_None; exact Hshort).
    rewrite Hb. reflexivity.
  - intros a b Ha Hb Hblank.
    exact (ScriptClientProofs.sendScript_blank_marker UR_SCRIPT files c n fuel a b
             Hn Ha Hb Hblank).
Qed.

Lemma sendScript_incomplete_marker_witness :
  sendScript (lit "textmsg(1)" ++ [nl] ++ lit "$V5") no_files 1 (session 5 10)
  = (Throw (out_of_range "basic_string::at"), session 5 10)
  /\ sendScript (lit "$V 1 textmsg(1)" ++ [nl]) no_files 1 (session 5 10)
     = (Ret false, session 5 10).
Proof.
  split.
  - apply (proj1 (sendScript_incomplete_marker (lit "textmsg(1)" ++ [nl] ++ lit "$V5")
                    no_files (session 5 10) 11 0 eq_refl)).
    vm_compute. lia.
  - apply (proj2 (sendScript_incomplete_marker (lit "$V 1 textmsg(1)" ++ [nl])
                    no_files (session 5 10) 0 0 eq_refl) " "%char "1"%char);
      reflexivity.
Defined.

End ScriptUploadProofs.

(* ===================================================================== *)
(** * Invariants through the monad                                        *)
(* ===================================================================== *)

Module InvariantFacts.
Import Invariants.

Lemma preserves_bind {St A B} (P : St -> Prop) (m : M St A) (k : A -> M St B) :
  preserves P m -> (forall a, preserves P (k a)) -> preserves P (bind m k).
Proof.
  intros Hm Hk s Hs. unfold bind. specialize (Hm s Hs).
  destruct (m s) as [[a| | |] s1]; cbn [snd] in *; auto. now apply Hk.
Qed.

Lemma preserves_try_catch {St A} (P : St -> Prop) (body : M St A) (handler : exn -> M St A) :
  preserves P body -> (forall e, preserves P (handler e)) -> preserves P (try_catch body handler).
Proof.
  intros Hb Hh s Hs. unfold try_catch. specialize (Hb s Hs).
  destruct (body s) as [[a|e| |] s1]; cbn [snd] in *; auto. now apply Hh.
Qed.

Lemma preserves_ret {St A} (P : St -> Prop) (a : A) : preserves P (@ret St A a).
Proof. intros s Hs. exact Hs. Qed.

Lemma preserves_gets {St A} (P : St -> Prop) (f : St -> A) : preserves P (gets f).
Proof. intros s Hs. exact Hs. Qed.

Lemma preserves_throw {St A} (P : St -> Prop) (e : exn) : preserves P (@throw St A e).
Proof. intros s Hs. exact Hs. Qed.

Lemma preserves_undefined {St A} (P : St -> Prop) : preserves P (@undefined St A).
Proof. intros s Hs. exact Hs. Qed.

Lemma preserves_unfinished {St A} (P : St -> Prop) : preserves P (@unfinished St A).
Proof. intros s Hs. exact Hs. Qed.

Lemma preserves_lift {St A} (P : St -> Prop) (r : result A) : preserves P (@lift St A r).
Proof. intros s Hs. exact Hs. Qed.

Lemma defined_bind {St A B} (P : St -> Prop) (m : M St A) (k : A -> M St B) :
  defined_on P m -> preserves P m -> (forall a, defined_on P (k a)) ->
  defined_on P (bind m k).
Proof.
  intros Hd Hp Hk s Hs. unfold bind. specialize (Hd s Hs). specialize (Hp s Hs).
  destruct (m s) as [[a| | |] s1]; cbn [fst snd] in *; try discriminate; try contradiction.
  now apply Hk.
Qed.

Lemma defined_gets_bind {St A B} (P : St -> Prop) (f : St -> A) (k : A -> M St B) :
  (forall s, P s -> fst (k (f s) s) <> Undefined) -> defined_on P (bind (gets f) k).
Proof. intros Hk s Hs. unfold bind, gets. now apply Hk. Qed.

Lemma defined_try_catch {St A} (P : St -> Prop) (body : M St A) (handler : exn -> M St A) :
  defined_on P body -> preserves P body -> (forall e, defined_on P (handler e)) ->
  defined_on P (try_catch body handler).
Proof.
  intros Hd Hp Hh s Hs. unfold try_catch. specialize (Hd s Hs). specialize (Hp s Hs).
  destruct (body s) as [[a|e| |] s1]; cbn [fst snd] in *; try discriminate;
    try contradiction.
  now apply Hh.
Qed.

Lemma defined_ret {St A} (P : St -> Prop) (a : A) : defined_on P (@ret St A a).
Proof. intros s Hs. discriminate. Qed.

Lemma defined_gets {St A} (P : St -> Prop) (f : St -> A) : defined_on P (gets f).
Proof. intros s Hs. discriminate. Qed.

Lemma defined_modify {St} (P : St -> Prop) (f : St -> St) : defined_on P (modify f).
Proof. intros s Hs. discriminate. Qed.

Lemma defined_unfinished {St A} (P : St -> Prop) : defined_on P (@unfinished St A).
Proof. intros s Hs. discriminate. Qed.

End InvariantFacts.

(* ===================================================================== *)
(** * More about the I/O facade                                           *)
(* ===================================================================== *)

Module IOMoreProofs.
Import RTDE RTDEIOInterface RTDEIOInterfaceRest RTDEFacts IOFacts IOCommandFacts.
Import Samples MoreSamples Invariants InvariantFacts.

Lemma setToolDigitalOut_as_command (fuel : nat) (output_id : Z) (signal_level : bool)
    (s : RTDEIOInterface.t) :
  0 <= output_id <= 7 ->
  setToolDigitalOut fuel output_id signal_level s
  = sendCommand fuel (tool_digital_out_command output_id signal_level) s.
Proof.
  intros Hid. pose proof (IOCommandProofs.pow2_fits output_id Hid) as Hfit.
  unfold setToolDigitalOut.
  destruct signal_level; unfold bind, static_cast_uint8, ret; rewrite Hfit; reflexivity.
Qed.

Lemma setStandardDigitalOut_as_command (fuel : nat) (output_id : Z) (signal_level : bool)
    (s : RTDEIOInterface.t) :
  0 <= output_id <= 7 ->
  setStandardDigitalOut fuel output_id signal_level s
  = sendCommand fuel (std_digital_out_command output_id signal_level) s.
Proof.
  intros Hid. pose proof (IOCommandProofs.pow2_fits output_id Hid) as Hfit.
  unfold setStandardDigitalOut.
  destruct signal_level; unfold bind, static_cast_uint8, ret; rewrite Hfit; reflexivity.
Qed.

(** X9.  For an output id from 0 to 7 and either level,
    [setToolDigitalOut] sends one command, on recipe 3, with the tool
    mask 2^id and the tool value 2^id or 0, and leaves the slots of the
    standard outputs alone; ids from 2 to 7 are sent like 0 and 1, the
    code has no check of the id against the two tool outputs. *)
Theorem setToolDigitalOut_sends_mask_and_value
    (s : RTDEIOInterface.t) (output_id : Z) (signal_level : bool) :
  0 <= output_id <= 7 ->
  (forall (fuel : nat) (r : RTDE.t),
     rtde_ s = Some r -> faults (peer r) (clock r) = Pass ->
     setToolDigitalOut (S fuel) output_id signal_level s
     = (Ret true,
        set_rtde s
          (Some (logged r (Send (tool_digital_out_command output_id signal_level))
                   true (connected r)))))
  /\ (forall (fuel : nat) (b : bool) (s' : RTDEIOInterface.t),
        setToolDigitalOut fuel output_id signal_level s = (Ret b, s') ->
        b = true
        /\ sends (session_log s')
           = sends (session_log s)
             ++ [(tool_digital_out_command output_id signal_level, true)]).
Proof.
  intros Hid. split.
  - intros fuel r Hr Hpass. rewrite setToolDigitalOut_as_command by exact Hid.
    exact (sendCommand_sent _ _ s r Hr Hpass).
  - intros fuel b s' H. rewrite setToolDigitalOut_as_command in H by exact Hid.
    destruct (sendCommand_returned _ _ _ _ _ H) as (r & Hr & _ & -> & ->).
    split; [reflexivity|].
    unfold session_log. rewrite Hr. cbn [set_rtde rtde_ logged log].
    now rewrite sends_app.
Qed.

Lemma setToolDigitalOut_sends_mask_and_value_witness :
  setToolDigitalOut 1 5 false (io_session e_series)
  = (Ret true,
     set_rtde (io_session e_series)
       (Some (logged (io_link e_series) (Send (tool_digital_out_command 5 false))
                true (connected (io_link e_series))))).
Proof.
  refine (proj1 (setToolDigitalOut_sends_mask_and_value (io_session e_series)
                   5 false _) 0%nat (io_link e_series) _ _).
  - lia.
  - vm_compute. reflexivity.
  - reflexivity.
Defined.

Lemma pow2_too_large (output_id : Z) :
  8 <= output_id -> (0 <=? pow2 output_id) && (pow2 output_id <=? 255) = false.
Proof.
  intros H. unfold pow2.
  assert (2 ^ 8 <= 2 ^ output_id) by (apply Z.pow_le_mono_r; lia).
  change (2 ^ 8) with 256 in *.
  apply andb_false_iff. right. apply Z.leb_gt. lia.
Qed.

(** X10.  An output id of 8 or more is not refused: 2^id does not fit the
    8-bit mask, the conversion of the double to [uint8_t] is undefined,
    and this happens before anything is sent, in [setStandardDigitalOut]
    and in [setToolDigitalOut] alike. *)
Theorem digital_out_id_beyond_7_is_undefined (fuel : nat) (output_id : Z)
    (signal_level : bool) (s : RTDEIOInterface.t) :
  8 <= output_id ->
  setStandardDigitalOut fuel output_id signal_level s = (Undefined, s)
  /\ setToolDigitalOut fuel output_id signal_level s = (Undefined, s).
Proof.
  intros Hid. pose proof (pow2_too_large output_id Hid) as Hbig.
  unfold setStandardDigitalOut, setToolDigitalOut.
  destruct signal_level; unfold bind, static_cast_uint8, undefined; rewrite Hbig;
    split; reflexivity.
Qed.

Lemma digital_out_id_beyond_7_is_undefined_witness :
  setStandardDigitalOut 1 8 true (io_session e_series) = (Undefined, io_session e_series)
  /\ setToolDigitalOut 1 8 true (io_session e_series) = (Undefined, io_session e_series).
Proof.
  apply (digital_out_id_beyond_7_is_undefined 1 8 true (io_session e_series)). lia.
Defined.

(** X11.  [sendCommand] never returns false, and once its send has
    failed it returns no value at all: the caller is left with an
    exception, with the missing return value after a retry, or with a
    retry that goes on. *)
Theorem sendCommand_never_reports_failure (fuel : nat) (cmd : RobotCommand)
    (s : RTDEIOInterface.t) :
  fst (sendCommand fuel cmd s) <> Ret false
  /\ (forall (r : RTDE.t) (dropped : bool),
        rtde_ s = Some r -> faults (peer r) (clock r) = Fail dropped ->
        forall b, fst (sendCommand fuel cmd s) <> Ret b).
Proof.
  split.
  - destruct (sendCommand fuel cmd s) as [[b| | |] s'] eqn:H; cbn [fst]; try discriminate.
    destruct (sendCommand_returned _ _ _ _ _ H) as (r & _ & _ & -> & _). discriminate.
  - intros r dropped Hr Hfail b.
    destruct (sendCommand fuel cmd s) as [[b'| | |] s'] eqn:H; cbn [fst]; try discriminate.
    destruct (sendCommand_returned _ _ _ _ _ H) as (r' & Hr' & Hpass & _ & _).
    rewrite Hr in Hr'. inversion Hr'. subst r'. rewrite Hfail in Hpass. discriminate.
Qed.

Lemma sendCommand_never_reports_failure_witness :
  fst (sendCommand 5 digital_out_3 (io_session (lossy 10 false))) <> Ret true
  /\ fst (sendCommand 5 digital_out_3 (io_session (lossy 10 false))) <> Ret false.
Proof.
  split;
    apply (proj2 (sendCommand_never_reports_failure 5 digital_out_3
                    (io_session (lossy 10 false)))
             (io_link (lossy 10 false)) false);
    vm_compute; reflexivity.
Defined.

(** X12.  The retry of [sendCommand] has no bound: on a link that loses
    every send and lets every reconnect through, a digital output is
    never set and the call never comes back, however long it runs. *)
Theorem digital_out_retries_without_bound (fuel : nat) (output_id : Z)
    (signal_level : bool) (s : RTDEIOInterface.t) (r : RTDE.t) :
  0 <= output_id <= 7 ->
  rtde_ s = Some r ->
  (forall j, faults (peer r) (clock r + j)
             = if (j mod 11 =? 0)%nat then Fail false else Pass) ->
  fst (setStandardDigitalOut fuel output_id signal_level s) = Unfinished
  /\ fst (setToolDigitalOut fuel output_id signal_level s) = Unfinished.
Proof.
  intros Hid Hr Hlink.
  rewrite setStandardDigitalOut_as_command, setToolDigitalOut_as_command by exact Hid.
  split; exact (sendCommand_retries_without_bound _ fuel s r Hr Hlink).
Qed.

Lemma losing_every_send_link (j : nat) :
  faults losing_every_send (10 + j) = if (j mod 11 =? 0)%nat then Fail false else Pass.
Proof.
  unfold losing_every_send. cbn [faults].
  replace (10 + j - 10)%nat with j by lia.
  replace (10 <=? 10 + j)%nat with true by (symmetry; apply Nat.leb_le; lia).
  reflexivity.
Qed.

Lemma digital_out_retries_without_bound_witness :
  fst (setStandardDigitalOut 40 3 true (io_session losing_every_send)) = Unfinished
  /\ fst (setToolDigitalOut 40 3 true (io_session losing_every_send)) = Unfinished.
Proof.
  apply (digital_out_retries_without_bound 40 3 true (io_session losing_every_send)
           (io_link losing_every_send)).
  - lia.
  - vm_compute. reflexivity.
  - exact losing_every_send_link.
Defined.

(** X13.  When the send fails and the connect of the reconnect that
    follows fails too, the error of that connect leaves [sendCommand] as
    an exception: the command is not sent again, no setup is sent, and
    the session is left closed. *)
Theorem sendCommand_failed_reconnect_surfaces (fuel : nat) (cmd : RobotCommand)
    (s : RTDEIOInterface.t) (r : RTDE.t) (dropped dropped' : bool) :
  rtde_ s = Some r ->
  faults (peer r) (clock r) = Fail dropped ->
  faults (peer r) (S (clock r)) = Fail dropped' ->
  exists s',
    sendCommand (S fuel) cmd s = (Throw (system_error "RTDE"), s')
    /\ session_connected s' = false
    /\ session_log s'
       = log r ++ [(Send cmd, false)]
         ++ (if connected r && negb dropped then [(Disconnect, true)] else [])
         ++ [(Connect, false)]
    /\ robot_state_ s' = robot_state_ s
    /\ cerr s' = cerr s ++ [what (system_error "RTDE")].
Proof.
  intros Hr Hfail Hfail'. destruct s as [h po rt rs co ce]. destruct r as [rh p conn c lg].
  cbn in Hr, Hfail, Hfail'. subst rt.
  cbn [sendCommand]. unfold reconnect. unfold_io. simpl_io. rewrite Hfail. simpl_io.
  destruct conn, dropped; simpl_io; rewrite Hfail'; simpl_io;
    eexists; (split; [reflexivity|]);
    unfold session_connected, session_log; cbn [rtde_ connected log robot_state_ cerr];
    rewrite <- ?app_assoc; cbn [app]; rewrite ?andb_false_r; repeat split;
    destruct dropped'; reflexivity.
Qed.

Lemma sendCommand_failed_reconnect_surfaces_witness :
  exists s',
    sendCommand 1 digital_out_3 (io_session (going_down 10)) = (Throw (system_error "RTDE"), s')
    /\ session_connected s' = false
    /\ sends (session_log s') = [(digital_out_3, false)].
Proof.
  destruct (sendCommand_failed_reconnect_surfaces 0 digital_out_3
              (io_session (going_down 10)) (io_link (going_down 10)) true true)
    as (s' & Hrun & Hconn & Hlog & _).
  - vm_compute. reflexivity.
  - reflexivity.
  - reflexivity.
  - exists s'. rewrite Hlog. repeat split; assumption.
Defined.

Ltac fail_at Hfail :=
  match goal with
  | |- context [faults ?p ?k] =>
      replace (faults p k) with (Fail false) by (rewrite <- Hfail; f_equal; lia)
  end.

(** X14.  [reconnect] has no clean-up of its own: when the connect goes
    through and a later request of the setup sequence fails on a link
    that stays up, the exception leaves [reconnect] with the session
    still connected, the setup cut short at the request that failed and
    the data synchronisation not started. *)
Theorem reconnect_cut_short_stays_connected (s : RTDEIOInterface.t) (r : RTDE.t) (j : nat) :
  rtde_ s = Some r ->
  (1 <= j <= 9)%nat ->
  (forall k, (clock r <= k < clock r + j)%nat -> faults (peer r) k = Pass) ->
  faults (peer r) (clock r + j) = Fail false ->
  exists s',
    reconnect s = (Throw (system_error "RTDE"), s')
    /\ session_connected s' = true
    /\ session_log s'
       = log r ++ firstn j (reconnect_requests (peer r))
         ++ [(fst (nth j (reconnect_requests (peer r)) (Disconnect, true)), false)].
Proof.
  intros Hr Hj Hpass Hfail.
  destruct s as [h po rt rs co ce]. destruct r as [rh p conn c lg].
  cbn [rtde_ peer clock log] in *. subst rt.
  assert (C : (j = 1 \/ j = 2 \/ j = 3 \/ j = 4 \/ j = 5 \/ j = 6 \/ j = 7 \/ j = 8
               \/ j = 9)%nat) by lia.
  unfold reconnect. unfold_rtde.
  destruct C as [-> | [-> | [-> | [-> | [-> | [-> | [-> | [-> | ->]]]]]]]];
    repeat (progress (simpl_run; use_passes Hpass)); fail_at Hfail; simpl_run;
    rewrite ?frequency_choice;
    (eexists; split; [reflexivity|]);
    unfold session_connected, session_log, reconnect_requests;
    cbn [rtde_ connected log firstn nth fst app];
    rewrite <- ?app_assoc; split; reflexivity.
Qed.

Lemma reconnect_cut_short_stays_connected_witness :
  exists s',
    reconnect (io_session (lossy 11 false)) = (Throw (system_error "RTDE"), s')
    /\ session_connected s' = true
    /\ input_recipes (session_log s') = input_recipes (log (io_link (lossy 11 false))).
Proof.
  destruct (reconnect_cut_short_stays_connected (io_session (lossy 11 false))
              (io_link (lossy 11 false)) 1)
    as (s' & Hrun & Hconn & Hlog).
  - vm_compute. reflexivity.
  - lia.
  - intros k Hk. cbn [peer clock lossy faults io_link] in *.
    destruct (Nat.eqb_spec k 11); [lia|reflexivity].
  - reflexivity.
  - exists s'. rewrite Hlog. repeat split; assumption.
Defined.

(** X15.  [isProgramRunning] on an object without a snapshot throws
    [std::logic_error] and asks nothing of the controller; with a
    snapshot it receives one frame and returns bit 1 of the status word
    of the snapshot, which the four bits its bitset keeps do hold; and
    when the receive fails the transport error leaves it as it came,
    with no reconnect and nothing printed. *)
Theorem isProgramRunning_reads_bit_1 (getRobot_status : RobotState -> Z)
    (s : RTDEIOInterface.t) :
  (robot_state_ s = None ->
   isProgramRunning getRobot_status s
   = (Throw (logic_error "Please initialize the RobotState, before using it!"), s))
  /\ (forall (r : RTDE.t) (st : RobotState),
        rtde_ s = Some r -> robot_state_ s = Some st ->
        faults (peer r) (clock r) = Pass ->
        isProgramRunning getRobot_status s
        = (Ret (Z.testbit (getRobot_status {| frames_decoded := S (frames_decoded st) |}) 1),
           set_robot_state
             (set_rtde s (Some (logged r ReceiveData true (connected r))))
             (Some {| frames_decoded := S (frames_decoded st) |})))
  /\ (forall (r : RTDE.t) (st : RobotState) (dropped : bool),
        rtde_ s = Some r -> robot_state_ s = Some st ->
        faults (peer r) (clock r) = Fail dropped ->
        isProgramRunning getRobot_status s
        = (Throw (system_error "RTDE"),
           set_rtde s (Some (logged r ReceiveData false (connected r && negb dropped))))).
Proof.
  destruct s as [h po rt rs co ce]. cbn [rtde_ robot_state_].
  split; [|split].
  - intros ->. reflexivity.
  - intros [rh p conn c lg] st -> -> Hpass. cbn [peer clock] in Hpass.
    unfold isProgramRunning, RTDEIOInterfaceRest.receiveData. unfold_io. simpl_io.
    rewrite Hpass. simpl_io.
    unfold lift, StdBitset.test, StdBitset.of_value, sizeof_uint32_t,
      ROBOT_STATUS_PROGRAM_RUNNING.
    cbn [Z.ltb Z.compare Pos.compare Pos.compare_cont].
    rewrite Z.mod_pow2_bits_low by lia. reflexivity.
  - intros [rh p conn c lg] st dropped -> -> Hfail. cbn [peer clock] in Hfail.
    unfold isProgramRunning, RTDEIOInterfaceRest.receiveData. unfold_io. simpl_io.
    rewrite Hfail. reflexivity.
Qed.

Lemma isProgramRunning_reads_bit_1_witness :
  isProgramRunning status_running (io_session e_series)
  = (Ret true,
     set_robot_state
       (set_rtde (io_session e_series)
          (Some (logged (io_link e_series) ReceiveData true (connected (io_link e_series)))))
       (Some {| frames_decoded := 1 |})).
Proof.
  apply (proj1 (proj2 (isProgramRunning_reads_bit_1 status_running (io_session e_series)))
           (io_link e_series) RobotState_new).
  - vm_compute. reflexivity.
  - vm_compute. reflexivity.
  - reflexivity.
Defined.

Lemma io_built_on_rtde {A} (op : M RTDE.t A) : preserves io_built (on_rtde op).
Proof.
  intros s [Hr Hs]. unfold on_rtde.
  destruct (rtde_ s) as [r|]; [|contradiction].
  destruct (op r) as [res r']. cbn [snd]. split; [discriminate|exact Hs].
Qed.

Lemma io_built_print_cout line : preserves io_built (print_cout line).
Proof. intros s Hs. exact Hs. Qed.

Lemma io_built_print_cerr line : preserves io_built (print_cerr line).
Proof. intros s Hs. exact Hs. Qed.

Lemma io_built_new_snapshot st :
  preserves io_built (modify (fun s => set_robot_state s (Some st))).
Proof. intros s [Hr _]. split; [exact Hr|discriminate]. Qed.

Ltac keep_built :=
  repeat first
    [ apply preserves_ret | apply preserves_gets | apply preserves_throw
    | apply preserves_undefined | apply preserves_unfinished | apply preserves_lift
    | apply io_built_on_rtde | apply io_built_print_cout | apply io_built_print_cerr
    | apply io_built_new_snapshot
    | apply preserves_try_catch; [|intros ?]
    | apply preserves_bind; [|intros ?]
    | progress cbv zeta
    | match goal with
      | |- preserves _ (if ?b then _ else _) => destruct b
      | |- preserves _ (match ?x with _ => _ end) => destruct x
      end ].

Lemma io_built_reconnect : preserves io_built reconnect.
Proof. unfold reconnect. keep_built. Qed.

Lemma io_built_sendCommand (fuel : nat) (cmd : RobotCommand) :
  preserves io_built (sendCommand fuel cmd).
Proof.
  induction fuel as [|fuel IH]; [apply preserves_unfinished|].
  cbn [sendCommand]. unfold rtde_not_null. keep_built; exact IH.
Qed.

Lemma io_built_new (p : Peer) (hostname : string) (port : Z) :
  fst (new p hostname port) = Ret tt -> io_built (snd (new p hostname port)).
Proof.
  unfold new, constructor_body, RTDE.new. unfold_rtde.
  repeat (progress (simpl_run; try destruct_faults)); cbn [fst snd];
    try discriminate.
  intros _. split; discriminate.
Qed.

(** X16.  Both pointers of the I/O facade stay set: an object whose
    constructor returned has its session and its snapshot, and
    [reconnect], [sendCommand], the two digital-output setters and
    [isProgramRunning] leave them set however they end.  On such an
    object [isProgramRunning] therefore never throws its
    [std::logic_error] and never goes through a null pointer. *)
Theorem io_pointers_stay_set :
  (forall (p : Peer) (hostname : string) (port : Z),
     fst (new p hostname port) = Ret tt -> io_built (snd (new p hostname port)))
  /\ preserves io_built reconnect
  /\ (forall fuel cmd, preserves io_built (sendCommand fuel cmd))
  /\ (forall fuel id level, preserves io_built (setStandardDigitalOut fuel id level))
  /\ (forall fuel id level, preserves io_built (setToolDigitalOut fuel id level))
  /\ (forall g, preserves io_built (isProgramRunning g))
  /\ (forall g s, io_built s ->
        fst (isProgramRunning g s) <> Undefined
        /\ forall w, fst (isProgramRunning g s) <> Throw (logic_error w)).
Proof.
  split; [exact io_built_new|]. split; [exact io_built_reconnect|].
  split; [exact io_built_sendCommand|].
  split.
  { intros fuel id level. unfold setStandardDigitalOut, static_cast_uint8.
    keep_built; apply io_built_sendCommand. }
  split.
  { intros fuel id level. unfold setToolDigitalOut, static_cast_uint8.
    keep_built; apply io_built_sendCommand. }
  split.
  { intros g. unfold isProgramRunning. keep_built. }
  intros g [h po rt rs co ce] [Hr Hs]. cbn [rtde_ robot_state_] in Hr, Hs.
  destruct rt as [[rh p conn c lg]|]; [|contradiction].
  destruct rs as [st|]; [|contradiction].
  unfold isProgramRunning, RTDEIOInterfaceRest.receiveData. unfold_io. simpl_io.
  destruct (faults p c); simpl_io; cbn [fst]; (split; [|intros w]); discriminate.
Qed.

Lemma io_pointers_stay_set_witness :
  io_built (snd (sendCommand 3 digital_out_3 (io_session (lossy 10 false))))
  /\ fst (isProgramRunning status_running
            (snd (sendCommand 3 digital_out_3 (io_session (lossy 10 false)))))
     <> Undefined.
Proof.
  assert (H : io_built (snd (sendCommand 3 digital_out_3 (io_session (lossy 10 false))))).
  { apply (proj1 (proj2 (proj2 io_pointers_stay_set)) 3%nat digital_out_3).
    apply (proj1 io_pointers_stay_set (lossy 10 false) "192.168.0.10"%string 30004).
    vm_compute. reflexivity. }
  split; [exact H|].
  exact (proj1 (proj2 (proj2 (proj2 (proj2 (proj2 (proj2 io_pointers_stay_set)))))
                  status_running _ H)).
Defined.

(** X17.  The destructor closes the session when it is up and does
    nothing when it is not, and it goes through no null pointer: it asks
    at most one thing of the session, a disconnect, and leaves it
    closed. *)
Theorem io_destructor_closes_session (s : RTDEIOInterface.t) :
  exists s',
    destructor s = (Ret tt, s')
    /\ session_connected s' = false
    /\ session_log s'
       = session_log s ++ (if session_connected s then [(Disconnect, true)] else [])
    /\ destructor s' = (Ret tt, s').
Proof.
  destruct s as [h po rt rs co ce]. unfold destructor. unfold_io. simpl_io.
  destruct rt as [[rh p conn c lg]|]; [destruct conn|]; simpl_io;
    eexists; (split; [reflexivity|]);
    unfold session_connected, session_log; cbn [rtde_ connected log];
    rewrite ?app_nil_r; repeat split.
Qed.

End IOMoreProofs.

(* ===================================================================== *)
(** * More about the receive interface                                    *)
(* ===================================================================== *)

Module ReceiveMoreProofs.
Import RTDE RTDEReceiveInterface RTDEReceiveInterfaceRest ReceiveStates RTDEFacts.
Import IOFacts ReceiveFacts Samples MoreSamples Invariants InvariantFacts.

(** X18.  [getDigitalOutState] reads one bit of the output word of the
    snapshot and asks nothing of the controller: for an id below 64 it
    returns that bit, for an id from 64 on -- the id is an 8-bit number
    -- the bitset throws [std::out_of_range]. *)
Theorem getDigitalOutState_reads_the_bit (bits_of : RobotState -> Z)
    (s : RTDEReceiveInterface.t) (st : RobotState) (output_id : Z) :
  robot_state_ s = Some st ->
  (0 <= output_id < 64 ->
   getDigitalOutState bits_of output_id s = (Ret (Z.testbit (bits_of st) output_id), s))
  /\ (64 <= output_id ->
      getDigitalOutState bits_of output_id s = (Throw (out_of_range "bitset::test"), s)).
Proof.
  intros Hst. unfold getDigitalOutState, bind, gets, lift. rewrite Hst.
  unfold StdBitset.test, StdBitset.of_value, uint64_digits. split.
  - intros Hid. replace (output_id <? 64) with true by (symmetry; apply Z.ltb_lt; lia).
    rewrite Z.mod_pow2_bits_low by lia. reflexivity.
  - intros Hid. replace (output_id <? 64) with false by (symmetry; apply Z.ltb_ge; lia).
    reflexivity.
Qed.

Lemma getDigitalOutState_reads_the_bit_witness :
  getDigitalOutState outputs_0_and_3 3 (rx_session e_series)
  = (Ret true, rx_session e_series)
  /\ getDigitalOutState outputs_0_and_3 64 (rx_session e_series)
     = (Throw (out_of_range "bitset::test"), rx_session e_series).
Proof.
  split.
  - apply (proj1 (getDigitalOutState_reads_the_bit outputs_0_and_3 (rx_session e_series)
                    RobotState_new 3 ltac:(vm_compute; reflexivity))).
    lia.
  - apply (proj2 (getDigitalOutState_reads_the_bit outputs_0_and_3 (rx_session e_series)
                    RobotState_new 64 ltac:(vm_compute; reflexivity))).
    lia.
Defined.

Lemma subscription_not_empty (variables : list string) : subscription variables <> [].
Proof. destruct variables; discriminate. Qed.

Lemma subscription_fixed (variables : list string) :
  subscription (subscription variables) = subscription variables.
Proof. destruct variables; reflexivity. Qed.

Lemma setupRecipes_variables (frequency : Z) (s : RTDEReceiveInterface.t) :
  variables_ (snd (setupRecipes frequency s)) = subscription (variables_ s).
Proof.
  destruct s as [va h po ve rt rs stp th ce]. unfold setupRecipes.
  destruct va as [|v vs], rt as [[rh p conn c lg]|]; unfold_rx; simpl_rx;
    try destruct (faults p c); reflexivity.
Qed.

(** X19.  [setupRecipes] subscribes to the names the caller gave, and to
    the full list of 52 names when the caller gave none; that list is
    stored, so the output setup never carries an empty list and a later
    [setupRecipes] -- the one of [reconnect] -- asks for the same names
    again. *)
Theorem setupRecipes_subscription (frequency : Z) (s : RTDEReceiveInterface.t) (r : RTDE.t) :
  rtde_ s = Some r -> faults (peer r) (clock r) = Pass ->
  setupRecipes frequency s
  = (Ret true,
     set_rtde (set_variables s (subscription (variables_ s)))
       (Some (logged r (SendOutputSetup (subscription (variables_ s)) frequency)
                true (connected r))))
  /\ subscription (variables_ s) <> []
  /\ (variables_ s = [] -> List.length (subscription (variables_ s)) = 52%nat)
  /\ (forall frequency',
        variables_ (snd (setupRecipes frequency' (snd (setupRecipes frequency s))))
        = variables_ (snd (setupRecipes frequency s))).
Proof.
  intros Hr Hpass. split; [|split; [|split]].
  - destruct s as [va h po ve rt rs stp th ce]. destruct r as [rh p conn c lg].
    cbn in Hr, Hpass. subst rt. unfold setupRecipes.
    destruct va as [|v vs]; unfold_rx; simpl_rx; rewrite Hpass; reflexivity.
  - apply subscription_not_empty.
  - intros ->. reflexivity.
  - intros frequency'. rewrite !setupRecipes_variables. apply subscription_fixed.
Qed.

Lemma setupRecipes_subscription_witness :
  variables_ (snd (setupRecipes 500 (rx_session e_series))) = all_variables
  /\ List.length (subscription (variables_ (rx_session e_series))) = 52%nat.
Proof.
  destruct (setupRecipes_subscription 500 (rx_session e_series) (rx_link e_series))
    as (Hrun & _ & Hlen & _).
  - vm_compute. reflexivity.
  - reflexivity.
  - split.
    + rewrite Hrun. vm_compute. reflexivity.
    + vm_compute. reflexivity.
Defined.

(** X20.  [disconnect] -- and with it the destructor -- on an object
    the constructor built: it sets the stop flag and joins the worker,
    which ends the receive it is in, if it is in one, and then returns at
    its loop condition; so at most one more receive is made, whose frame
    is decoded or whose error is printed; the session is then closed by
    one disconnect if it is still up, and left closed.  A further
    [disconnect], the worker being gone, asks nothing more of the
    session. *)
Theorem disconnect_closes_once (in_flight : bool) (s : RTDEReceiveInterface.t)
    (r : RTDE.t) (st : RobotState) (handle : unit) :
  rtde_ s = Some r -> robot_state_ s = Some st -> th_ s = Some handle ->
  exists s',
    disconnect in_flight s = (Ret tt, s')
    /\ destructor in_flight s = disconnect in_flight s
    /\ stop_thread s' = true
    /\ session_connected s' = false
    /\ session_log s'
       = log r
         ++ (if in_flight then [(ReceiveData, passes (peer r) (clock r))] else [])
         ++ (if connected r
                && (negb in_flight
                    || match faults (peer r) (clock r) with
                       | Fail true => false
                       | _ => true
                       end)
             then [(Disconnect, true)] else [])
    /\ robot_state_ s'
       = Some (if in_flight && passes (peer r) (clock r)
               then {| frames_decoded := S (frames_decoded st) |} else st)
    /\ cerr s'
       = cerr s ++ (if in_flight && negb (passes (peer r) (clock r))
                    then [what (system_error "RTDE")] else [])
    /\ disconnect false s' = (Ret tt, s').
Proof.
  intros Hr Hst Hth. destruct s as [va h po ve rt rs stp th ce].
  destruct r as [rh p conn c lg]. cbn in Hr, Hst, Hth. subst rt rs th.
  unfold destructor, disconnect, join_worker, receive_turn. cbn [receiveCallback].
  unfold_rx. simpl_rx.
  destruct in_flight; simpl_rx;
    [destruct (faults p c) as [|[|]]; simpl_rx|];
    destruct conn; simpl_rx;
    eexists; (split; [reflexivity|]); unfold session_connected, session_log;
    cbn [rtde_ connected log stop_thread robot_state_ RTDEReceiveInterface.cerr
         andb orb negb app];
    rewrite <- ?app_assoc, ?app_nil_r; cbn [app]; repeat split.
Qed.

Lemma disconnect_closes_once_witness :
  exists s',
    disconnect true (rx_session e_series) = (Ret tt, s')
    /\ session_connected s' = false
    /\ receives (session_log s') = [true]
    /\ robot_state_ s' = Some {| frames_decoded := 1 |}
    /\ disconnect false s' = (Ret tt, s').
Proof.
  destruct (disconnect_closes_once true (rx_session e_series) (rx_link e_series)
              RobotState_new tt)
    as (s' & Hrun & _ & _ & Hconn & Hlog & Hst & _ & Hagain).
  - vm_compute. reflexivity.
  - vm_compute. reflexivity.
  - vm_compute. reflexivity.
  - exists s'. rewrite Hlog, Hst. repeat split; assumption.
Defined.

(** The worker on a sound link: every test of the loop condition is
    followed by a frame. *)
Lemma receiveCallback_frames (n : nat) :
  forall (s : RTDEReceiveInterface.t) (r : RTDE.t) (st : RobotState),
    stop_thread s = false -> rtde_ s = Some r -> robot_state_ s = Some st ->
    (forall k, (clock r <= k < clock r + n)%nat -> faults (peer r) k = Pass) ->
    receiveCallback n s = (Unfinished, after_frames n s r st).
Proof.
  induction n as [|n IH]; intros s r st Hstop Hr Hst Hpass.
  - destruct s as [va h po ve rt rs stp th ce]. destruct r as [rh p conn c lg].
    destruct st as [f]. cbn in Hstop, Hr, Hst. subst rt rs stp.
    unfold after_frames. cbn. now rewrite app_nil_r.
  - rewrite (receiveCallback_frame n s r st Hstop Hr Hst) by (apply Hpass; lia).
    rewrite (IH (after_frame s r st) (logged r ReceiveData true (connected r))
               {| frames_decoded := S (frames_decoded st) |});
      try reflexivity; try exact Hstop.
    + unfold after_frames, after_frame.
      cbn [variables_ hostname_ port_ verbose_ stop_thread th_ cerr logged hostname peer
           connected clock log frames_decoded repeat].
      rewrite <- app_assoc, !Nat.add_succ_r. reflexivity.
    + intros k Hk. cbn [logged peer clock] in *. apply Hpass. lia.
Qed.

(** X21.  On a link that stays sound the worker never returns of its own
    accord: as long as nobody sets the stop flag, each test of the loop
    condition is followed by one more frame received and decoded, and
    nothing is printed. *)
Theorem receiveCallback_keeps_receiving (n : nat) (s : RTDEReceiveInterface.t)
    (r : RTDE.t) (st : RobotState) :
  stop_thread s = false -> rtde_ s = Some r -> robot_state_ s = Some st ->
  (forall k, (clock r <= k)%nat -> faults (peer r) k = Pass) ->
  fst (receiveCallback n s) = Unfinished
  /\ receives (session_log (snd (receiveCallback n s)))
     = receives (session_log s) ++ repeat true n
  /\ robot_state_ (snd (receiveCallback n s))
     = Some {| frames_decoded := (n + frames_decoded st)%nat |}
  /\ stop_thread (snd (receiveCallback n s)) = false
  /\ session_connected (snd (receiveCallback n s)) = session_connected s
  /\ cerr (snd (receiveCallback n s)) = cerr s.
Proof.
  intros Hstop Hr Hst Hpass.
  rewrite (receiveCallback_frames n s r st Hstop Hr Hst (fun k Hk => Hpass k (proj1 Hk))).
  unfold after_frames, session_log, session_connected.
  cbn [fst snd rtde_ log connected robot_state_ stop_thread cerr]. rewrite Hr.
  rewrite receives_app. repeat split; try assumption.
  f_equal. clear. induction n as [|n IH]; [reflexivity|]. cbn. now rewrite <- IH.
Qed.

Lemma receiveCallback_keeps_receiving_witness :
  fst (receiveCallback 7 (rx_session e_series)) = Unfinished
  /\ receives (session_log (snd (receiveCallback 7 (rx_session e_series))))
     = receives (session_log (rx_session e_series)) ++ repeat true 7.
Proof.
  destruct (receiveCallback_keeps_receiving 7 (rx_session e_series) (rx_link e_series)
              RobotState_new) as (H1 & H2 & _).
  - vm_compute. reflexivity.
  - vm_compute. reflexivity.
  - vm_compute. reflexivity.
  - intros k _. reflexivity.
  - split; assumption.
Defined.

Lemma start_worker_frames (slices : nat) (s : RTDEReceiveInterface.t) (r : RTDE.t)
    (st : RobotState) :
  stop_thread s = false -> rtde_ s = Some r -> robot_state_ s = Some st ->
  (forall k, (clock r <= k)%nat -> faults (peer r) k = Pass) ->
  start_worker slices s = (Ret tt, after_frames slices (set_th s (Some tt)) r st).
Proof.
  intros Hstop Hr Hst Hpass. unfold start_worker, bind, modify.
  now rewrite (receiveCallback_frames slices (set_th s (Some tt)) r st Hstop Hr Hst
                 (fun k Hk => Hpass k (proj1 Hk))).
Qed.

(** X22.  [reconnect] on a link that is sound again brings the stream
    back: it goes through the five requests of the setup sequence with
    the names stored at construction, clears the stop flag, starts a
    worker that receives frames again, and returns true.  The snapshot is
    not made anew: the frames decoded before are still counted. *)
Theorem reconnect_resumes_the_stream (slices : nat) (s : RTDEReceiveInterface.t)
    (r : RTDE.t) (st : RobotState) :
  rtde_ s = Some r -> robot_state_ s = Some st ->
  (forall k, (clock r <= k)%nat -> faults (peer r) k = Pass) ->
  exists s',
    reconnect slices s = (Ret true, s')
    /\ stop_thread s' = false
    /\ session_connected s' = true
    /\ session_log s'
       = log r ++ setup_requests (peer r) (variables_ s)
         ++ repeat (ReceiveData, true) slices
    /\ variables_ s' = subscription (variables_ s)
    /\ robot_state_ s' = Some {| frames_decoded := (slices + frames_decoded st)%nat |}.
Proof.
  intros Hr Hst Hpass.
  destruct s as [va h po ve rt rs stp th ce]. destruct r as [rh p conn c lg].
  cbn [rtde_ robot_state_ peer clock log variables_] in *. subst rt rs.
  unfold reconnect.
  destruct va as [|v vs]; unfold_rx;
    repeat (progress (simpl_rx; rewrite ?Hpass by lia));
    (erewrite start_worker_frames;
     [ | reflexivity | reflexivity | reflexivity
       | cbn [peer clock]; intros k Hk; apply Hpass; lia ]);
    unfold after_frames; simpl_rx;
    eexists; (split; [reflexivity|]);
    unfold session_connected, session_log, setup_requests, subscription;
    cbn [rtde_ connected log stop_thread robot_state_ variables_];
    rewrite frequency_choice, <- ?app_assoc; repeat split.
Qed.

Lemma reconnect_resumes_the_stream_witness :
  exists s',
    reconnect 4 (after_error (rx_session (lossy 5 false)) (rx_link (lossy 5 false)) false)
    = (Ret true, s')
    /\ stop_thread s' = false
    /\ session_connected s' = true
    /\ receives (session_log s') = [false; true; true; true; true].
Proof.
  destruct (reconnect_resumes_the_stream 4
              (after_error (rx_session (lossy 5 false)) (rx_link (lossy 5 false)) false)
              (disconnected (logged (rx_link (lossy 5 false)) ReceiveData false true))
              RobotState_new)
    as (s' & Hrun & Hstop & Hconn & Hlog & _).
  - vm_compute. reflexivity.
  - vm_compute. reflexivity.
  - intros k Hk. cbn [peer clock lossy faults rx_link logged disconnected] in *.
    destruct (Nat.eqb_spec k 5); [lia|reflexivity].
  - exists s'. rewrite Hlog. repeat split; assumption.
Defined.

(** X23.  The constructor on a sound link: it stores the subscription,
    makes the five requests of the setup sequence, creates the snapshot
    and starts the worker, which has the session to itself from then on;
    the object it leaves has all three of its pointers set. *)
Theorem constructor_starts_the_stream (p : Peer) (slices : nat) (hostname : string)
    (variables : list string) (port : Z) (verbose : bool) :
  (forall k, faults p k = Pass) ->
  exists s',
    new p slices hostname variables port verbose = (Ret tt, s')
    /\ built s'
    /\ stop_thread s' = false
    /\ session_connected s' = true
    /\ session_log s' = setup_requests p variables ++ repeat (ReceiveData, true) slices
    /\ variables_ s' = subscription variables
    /\ robot_state_ s' = Some {| frames_decoded := slices |}.
Proof.
  intros Hpass. unfold new, constructor_body, RTDE.new.
  destruct variables as [|v vs]; unfold_rx;
    repeat (progress (simpl_rx; rewrite ?Hpass));
    (erewrite start_worker_frames;
     [ | reflexivity | reflexivity | reflexivity
       | cbn [peer]; intros k Hk; apply Hpass ]);
    unfold after_frames; simpl_rx;
    eexists; (split; [reflexivity|]);
    unfold built, session_connected, session_log, setup_requests, subscription,
      RobotState_new;
    cbn [rtde_ connected log stop_thread robot_state_ variables_ th_ set_th frames_decoded];
    rewrite frequency_choice, ?Nat.add_0_r; repeat split; discriminate.
Qed.

Lemma constructor_starts_the_stream_witness :
  exists s',
    new e_series 3 "192.168.0.10" ["actual_q"; "actual_qd"]%string 30004 false = (Ret tt, s')
    /\ built s'
    /\ output_frequencies (session_log s') = [500]
    /\ receives (session_log s') = [true; true; true].
Proof.
  destruct (constructor_starts_the_stream e_series 3 "192.168.0.10"
              ["actual_q"; "actual_qd"]%string 30004 false)
    as (s' & Hrun & Hbuilt & _ & _ & Hlog & _).
  - intros k. reflexivity.
  - exists s'. rewrite Hlog. split; [exact Hrun|]. split; [exact Hbuilt|].
    split; reflexivity.
Defined.

Lemma session_call_defined (c : Call) (r : RTDE.t) : fst (request c r) <> Undefined.
Proof. unfold request. destruct (faults (peer r) (clock r)); discriminate. Qed.

Lemma built_on_rtde {A} (op : M RTDE.t A) :
  preserves built (RTDEReceiveInterface.on_rtde op).
Proof.
  intros s (Hr & Hs & Ht). unfold RTDEReceiveInterface.on_rtde.
  destruct (rtde_ s) as [r|]; [|contradiction].
  destruct (op r) as [res r']. cbn [snd]. repeat split; try assumption. discriminate.
Qed.

Lemma defined_on_rtde {A} (op : M RTDE.t A) :
  (forall r, fst (op r) <> Undefined) ->
  defined_on built (RTDEReceiveInterface.on_rtde op).
Proof.
  intros Hop s (Hr & _). unfold RTDEReceiveInterface.on_rtde.
  destruct (rtde_ s) as [r|]; [|contradiction].
  specialize (Hop r). destruct (op r) as [res r']. exact Hop.
Qed.

Lemma session_op_defined :
  (forall r, fst (RTDE.connect r) <> Undefined)
  /\ (forall r, fst (negotiateProtocolVersion r) <> Undefined)
  /\ (forall r, fst (getControllerVersion r) <> Undefined)
  /\ (forall names f r, fst (sendOutputSetup names f r) <> Undefined)
  /\ (forall r, fst (sendStart r) <> Undefined)
  /\ (forall r, fst (RTDE.receiveData r) <> Undefined)
  /\ (forall r, fst (RTDE.isConnected r) <> Undefined)
  /\ (forall r, fst (RTDE.disconnect r) <> Undefined).
Proof.
  repeat split; intros;
    unfold RTDE.connect, negotiateProtocolVersion, getControllerVersion, sendOutputSetup,
      sendStart, RTDE.receiveData, RTDE.isConnected, RTDE.disconnect, request,
      set_connected, bind, modify, gets;
    try destruct (faults _ _); discriminate.
Qed.

Lemma built_modify (f : RTDEReceiveInterface.t -> RTDEReceiveInterface.t) :
  (forall s, (rtde_ s <> None -> rtde_ (f s) <> None)
             /\ (robot_state_ s <> None -> robot_state_ (f s) <> None)
             /\ (th_ s <> None -> th_ (f s) <> None)) ->
  preserves built (modify f).
Proof.
  intros Hf s (Hr & Hs & Ht). destruct (Hf s) as (H1 & H2 & H3).
  unfold modify. cbn [snd]. repeat split; auto.
Qed.

Ltac keep_rx_built :=
  repeat first
    [ apply preserves_ret | apply preserves_gets | apply preserves_throw
    | apply preserves_undefined | apply preserves_unfinished
    | apply built_on_rtde
    | apply built_modify; intros ?; cbn; (split; [|split]); intros ?;
      solve [assumption | discriminate]
    | apply preserves_try_catch; [|intros ?]
    | apply preserves_bind; [|intros ?]
    | progress cbv zeta
    | match goal with
      | |- preserves _ (if ?b then _ else _) => destruct b
      | |- preserves _ (match ?x with _ => _ end) => destruct x
      end ].

Ltac rx_defined :=
  repeat first
    [ apply defined_ret | apply defined_gets | apply defined_modify
    | apply defined_unfinished
    | apply defined_on_rtde; intros; apply session_op_defined
    | apply defined_try_catch; [| |intros ?]
    | apply defined_bind; [| |intros ?]
    | progress cbv zeta
    | match goal with
      | |- defined_on _ (if ?b then _ else _) => destruct b
      end ].

Lemma built_receiveData : preserves built RTDEReceiveInterface.receiveData.
Proof. unfold RTDEReceiveInterface.receiveData. keep_rx_built. Qed.

Lemma defined_receiveData : defined_on built RTDEReceiveInterface.receiveData.
Proof.
  unfold RTDEReceiveInterface.receiveData.
  apply defined_bind; [rx_defined|apply built_on_rtde|intros _].
  apply defined_gets_bind. intros s (_ & Hs & _).
  destruct (robot_state_ s); [discriminate|contradiction].
Qed.

Lemma built_catch (e : exn) :
  preserves built
    (RTDEReceiveInterface.print_cerr (what e) ;;
     is_connected <- RTDEReceiveInterface.on_rtde RTDE.isConnected ;;
     (if is_connected then RTDEReceiveInterface.on_rtde RTDE.disconnect else ret tt) ;;
     modify (fun s => set_stop_thread s true)).
Proof. unfold RTDEReceiveInterface.print_cerr. keep_rx_built. Qed.

Lemma defined_catch (e : exn) :
  defined_on built
    (RTDEReceiveInterface.print_cerr (what e) ;;
     is_connected <- RTDEReceiveInterface.on_rtde RTDE.isConnected ;;
     (if is_connected then RTDEReceiveInterface.on_rtde RTDE.disconnect else ret tt) ;;
     modify (fun s => set_stop_thread s true)).
Proof. unfold RTDEReceiveInterface.print_cerr. rx_defined; keep_rx_built. Qed.

Lemma built_receiveCallback (fuel : nat) : preserves built (receiveCallback fuel).
Proof.
  induction fuel as [|fuel IH]; [apply preserves_unfinished|].
  cbn [receiveCallback].
  apply preserves_bind; [apply preserves_gets|intros stop].
  destruct (negb stop); [|apply preserves_ret].
  apply preserves_bind; [|intros _; exact IH].
  apply preserves_try_catch; [apply built_receiveData|exact built_catch].
Qed.

Lemma defined_receiveCallback (fuel : nat) : defined_on built (receiveCallback fuel).
Proof.
  induction fuel as [|fuel IH]; [apply defined_unfinished|].
  cbn [receiveCallback].
  apply defined_bind; [apply defined_gets|apply preserves_gets|intros stop].
  destruct (negb stop); [|apply defined_ret].
  apply defined_bind; [ | |intros _; exact IH].
  - apply defined_try_catch;
      [apply defined_receiveData|apply built_receiveData|exact defined_catch].
  - apply preserves_try_catch; [apply built_receiveData|exact built_catch].
Qed.

Lemma built_start_worker (slices : nat) (s : RTDEReceiveInterface.t) :
  rtde_ s <> None -> robot_state_ s <> None ->
  built (snd (start_worker slices s)) /\ fst (start_worker slices s) <> Undefined.
Proof.
  intros Hr Hs. unfold start_worker, bind, modify.
  assert (Hb : built (set_th s (Some tt))).
  { repeat split; cbn; try assumption. discriminate. }
  pose proof (built_receiveCallback slices _ Hb) as Hp.
  pose proof (defined_receiveCallback slices _ Hb) as Hd.
  destruct (receiveCallback slices (set_th s (Some tt))) as [[[]| | |] s1];
    cbn [fst snd] in *; split; try assumption; discriminate.
Qed.

Lemma built_setupRecipes (frequency : Z) : preserves built (setupRecipes frequency).
Proof. unfold setupRecipes. keep_rx_built. Qed.

Lemma defined_setupRecipes (frequency : Z) : defined_on built (setupRecipes frequency).
Proof.
  unfold setupRecipes. rx_defined; keep_rx_built.
  all: destruct a; rx_defined; keep_rx_built.
Qed.

Lemma built_start (slices : nat) : preserves built (start_worker slices).
Proof. intros s (Hr & Hs & _). now apply built_start_worker. Qed.

Lemma defined_start (slices : nat) : defined_on built (start_worker slices).
Proof. intros s (Hr & Hs & _). now apply built_start_worker. Qed.

Lemma built_turn : preserves built receive_turn.
Proof. apply preserves_try_catch; [apply built_receiveData|exact built_catch]. Qed.

Lemma defined_turn : defined_on built receive_turn.
Proof.
  apply defined_try_catch;
    [apply defined_receiveData|apply built_receiveData|exact defined_catch].
Qed.

Lemma built_join (in_flight : bool) : preserves built (join_worker in_flight).
Proof.
  unfold join_worker. apply preserves_bind; [apply preserves_gets|intros [handle|]].
  - apply preserves_bind; [|intros _; apply built_receiveCallback].
    destruct in_flight; [apply built_turn|apply preserves_ret].
  - apply preserves_undefined.
Qed.

Lemma defined_join (in_flight : bool) : defined_on built (join_worker in_flight).
Proof.
  unfold join_worker. apply defined_gets_bind. intros s Hs.
  destruct (th_ s) eqn:Hth.
  - revert s Hs Hth. intros s Hs _. revert s Hs.
    apply defined_bind; [| |intros _; apply defined_receiveCallback];
      (destruct in_flight;
       [first [apply defined_turn|apply built_turn]
       |first [apply defined_ret|apply preserves_ret]]).
  - destruct Hs as (_ & _ & Ht). contradiction.
Qed.

Lemma built_close :
  preserves built
    (not_null <- RTDEReceiveInterface.rtde_not_null ;;
     if not_null then
       is_connected <- RTDEReceiveInterface.on_rtde RTDE.isConnected ;;
       if is_connected then RTDEReceiveInterface.on_rtde RTDE.disconnect else ret tt
     else ret tt).
Proof. unfold RTDEReceiveInterface.rtde_not_null. keep_rx_built. Qed.

Lemma defined_close :
  defined_on built
    (not_null <- RTDEReceiveInterface.rtde_not_null ;;
     if not_null then
       is_connected <- RTDEReceiveInterface.on_rtde RTDE.isConnected ;;
       if is_connected then RTDEReceiveInterface.on_rtde RTDE.disconnect else ret tt
     else ret tt).
Proof. unfold RTDEReceiveInterface.rtde_not_null. rx_defined; keep_rx_built. Qed.

Lemma built_disconnect (in_flight : bool) : preserves built (disconnect in_flight).
Proof.
  unfold disconnect.
  apply preserves_bind; [keep_rx_built|intros _].
  apply preserves_bind; [apply built_join|intros _]. exact built_close.
Qed.

Lemma defined_disconnect (in_flight : bool) : defined_on built (disconnect in_flight).
Proof.
  unfold disconnect.
  apply defined_bind; [apply defined_modify|keep_rx_built|intros _].
  apply defined_bind; [apply defined_join|apply built_join|intros _]. exact defined_close.
Qed.

Lemma built_setup (slices : nat) :
  preserves built
    (RTDEReceiveInterface.on_rtde RTDE.connect ;;
     RTDEReceiveInterface.on_rtde RTDE.negotiateProtocolVersion ;;
     controller_version <- RTDEReceiveInterface.on_rtde RTDE.getControllerVersion ;;
     let major_version := MAJOR_VERSION controller_version in
     let frequency := 125 in
     let frequency := if major_version >? CB3_MAJOR_VERSION then 500 else frequency in
     setupRecipes frequency ;;
     RTDEReceiveInterface.on_rtde RTDE.sendStart ;;
     modify (fun s => set_stop_thread s false) ;;
     start_worker slices).
Proof.
  do 3 (apply preserves_bind; [apply built_on_rtde|intros ?]). cbv zeta.
  apply preserves_bind; [apply built_setupRecipes|intros _].
  apply preserves_bind; [apply built_on_rtde|intros _].
  apply preserves_bind; [keep_rx_built|intros _]. apply built_start.
Qed.

Lemma defined_setup (slices : nat) :
  defined_on built
    (RTDEReceiveInterface.on_rtde RTDE.connect ;;
     RTDEReceiveInterface.on_rtde RTDE.negotiateProtocolVersion ;;
     controller_version <- RTDEReceiveInterface.on_rtde RTDE.getControllerVersion ;;
     let major_version := MAJOR_VERSION controller_version in
     let frequency := 125 in
     let frequency := if major_version >? CB3_MAJOR_VERSION then 500 else frequency in
     setupRecipes frequency ;;
     RTDEReceiveInterface.on_rtde RTDE.sendStart ;;
     modify (fun s => set_stop_thread s false) ;;
     start_worker slices).
Proof.
  do 3 (apply defined_bind;
        [apply defined_on_rtde; intros; apply session_op_defined
        |apply built_on_rtde|intros ?]).
  cbv zeta.
  apply defined_bind; [apply defined_setupRecipes|apply built_setupRecipes|intros _].
  apply defined_bind;
    [apply defined_on_rtde; intros; apply session_op_defined|apply built_on_rtde|intros _].
  apply defined_bind; [apply defined_modify|keep_rx_built|intros _]. apply defined_start.
Qed.

Lemma built_reconnect (slices : nat) : preserves built (reconnect slices).
Proof.
  unfold reconnect, RTDEReceiveInterface.isConnected.
  apply preserves_bind; [apply preserves_gets|intros not_null].
  apply preserves_bind; [|intros _; apply built_on_rtde].
  destruct not_null; [apply built_setup|apply preserves_ret].
Qed.

Lemma defined_reconnect (slices : nat) : defined_on built (reconnect slices).
Proof.
  unfold reconnect, RTDEReceiveInterface.isConnected.
  apply defined_bind; [apply defined_gets|apply preserves_gets|intros not_null].
  apply defined_bind;
    [ | |intros _; apply defined_on_rtde; intros; apply session_op_defined].
  - destruct not_null; [apply defined_setup|apply defined_ret].
  - destruct not_null; [apply built_setup|apply preserves_ret].
Qed.

Lemma built_new (p : Peer) (slices : nat) (hostname : string) (variables : list string)
    (port : Z) (verbose : bool) :
  fst (new p slices hostname variables port verbose) = Ret tt ->
  built (snd (new p slices hostname variables port verbose)).
Proof.
  unfold new, constructor_body, RTDE.new.
  destruct variables as [|v vs]; unfold_rx;
    repeat (progress (simpl_rx; try destruct_faults)); cbn [fst snd];
    try discriminate.
  all: match goal with
       | |- context [start_worker ?n ?x] =>
           destruct (built_start_worker n x) as [Hb _];
           [discriminate|discriminate|];
           destruct (start_worker n x) as [[[]| | |] s1]
       end; cbn [fst snd] in *; intros H; try discriminate H; exact Hb.
Qed.

(** X24.  After construction the receive interface goes through no null
    pointer: an object whose constructor returned has its session, its
    snapshot and its worker handle, and the worker loop, [disconnect],
    [reconnect] and [setupRecipes] leave the three set and never end in
    undefined behaviour, whatever the link does and wherever the worker
    is when it is joined. *)
Theorem rx_pointers_stay_set :
  (forall (p : Peer) (slices : nat) (hostname : string) (variables : list string)
          (port : Z) (verbose : bool),
     fst (new p slices hostname variables port verbose) = Ret tt ->
     built (snd (new p slices hostname variables port verbose)))
  /\ (forall fuel, preserves built (receiveCallback fuel)
                   /\ defined_on built (receiveCallback fuel))
  /\ (forall in_flight, preserves built (disconnect in_flight)
                         /\ defined_on built (disconnect in_flight))
  /\ (forall slices, preserves built (reconnect slices)
                     /\ defined_on built (reconnect slices))
  /\ (forall frequency, preserves built (setupRecipes frequency)
                        /\ defined_on built (setupRecipes frequency)).
Proof.
  split; [exact built_new|].
  split; [intros fuel; split; [apply built_receiveCallback|apply defined_receiveCallback]|].
  split; [intros in_flight; split; [apply built_disconnect|apply defined_disconnect]|].
  split; [intros slices; split; [apply built_reconnect|apply defined_reconnect]|].
  intros frequency. split; [apply built_setupRecipes|apply defined_setupRecipes].
Qed.

Lemma rx_pointers_stay_set_witness :
  built (snd (reconnect 2 (snd (disconnect true (rx_session (lossy 6 true))))))
  /\ fst (reconnect 2 (snd (disconnect true (rx_session (lossy 6 true))))) <> Undefined.
Proof.
  assert (H0 : built (rx_session (lossy 6 true))).
  { apply (proj1 rx_pointers_stay_set (lossy 6 true) 0%nat "192.168.0.10"%string []
             30004 false).
    vm_compute. reflexivity. }
  assert (H1 : built (snd (disconnect true (rx_session (lossy 6 true))))).
  { exact (proj1 (proj1 (proj2 (proj2 rx_pointers_stay_set)) true) _ H0). }
  split.
  - exact (proj1 (proj1 (proj2 (proj2 (proj2 rx_pointers_stay_set))) 2%nat) _ H1).
  - exact (proj2 (proj1 (proj2 (proj2 (proj2 rx_pointers_stay_set))) 2%nat) _ H1).
Defined.

(** X25.  [reconnect] of the receive interface reports a setup that
    fails by an exception, not by returning false: when one of the five
    setup requests fails, the transport error leaves [reconnect], the
    stop flag and the worker handle are as they were and no frame has
    been received.  The session then shows connected exactly when the
    error did not drop the link and either the connect had gone through
    or, the connect itself being the request that failed, the session
    showed connected before the call. *)
Theorem reconnect_setup_failure_throws (slices : nat) (s : RTDEReceiveInterface.t)
    (r : RTDE.t) (j : nat) (dropped : bool) :
  rtde_ s = Some r ->
  (j <= 4)%nat ->
  (forall k, (clock r <= k < clock r + j)%nat -> faults (peer r) k = Pass) ->
  faults (peer r) (clock r + j) = Fail dropped ->
  exists s',
    reconnect slices s = (Throw (system_error "RTDE"), s')
    /\ stop_thread s' = stop_thread s
    /\ th_ s' = th_ s
    /\ robot_state_ s' = robot_state_ s
    /\ receives (session_log s') = receives (log r)
    /\ session_connected s' = (if (j =? 0)%nat then connected r else true) && negb dropped.
Proof.
  intros Hr Hj Hpass Hfail.
  destruct s as [va h po ve rt rs stp th ce]. destruct r as [rh p conn c lg].
  cbn [rtde_ peer clock log connected] in *. subst rt.
  assert (C : (j = 0 \/ j = 1 \/ j = 2 \/ j = 3 \/ j = 4)%nat) by lia.
  unfold reconnect.
  destruct C as [-> | [-> | [-> | [-> | ->]]]];
    [ rewrite Nat.add_0_r in Hfail
    | replace (c + 1)%nat with (S c) in Hfail by lia
    | replace (c + 2)%nat with (S (S c)) in Hfail by lia
    | replace (c + 3)%nat with (S (S (S c))) in Hfail by lia
    | replace (c + 4)%nat with (S (S (S (S c)))) in Hfail by lia ];
    destruct va as [|v vs]; unfold_rx;
    repeat (progress (simpl_rx; rewrite ?Hpass by lia)); rewrite Hfail; simpl_rx;
    (eexists; split; [reflexivity|]);
    unfold session_connected, session_log;
    cbn [rtde_ connected log stop_thread th_ robot_state_ Nat.eqb];
    rewrite ?receives_app; cbn [receives flat_map app]; rewrite ?app_nil_r;
    repeat split; destruct dropped; reflexivity.
Qed.

Lemma reconnect_setup_failure_throws_witness :
  exists s',
    reconnect 4 (after_error (rx_session (going_down 5)) (rx_link (going_down 5)) true)
    = (Throw (system_error "RTDE"), s')
    /\ stop_thread s' = true
    /\ session_connected s' = false.
Proof.
  destruct (reconnect_setup_failure_throws 4
              (after_error (rx_session (going_down 5)) (rx_link (going_down 5)) true)
              (logged (rx_link (going_down 5)) ReceiveData false false) 0 true)
    as (s' & Hrun & Hstop & _ & _ & _ & Hconn).
  - vm_compute. reflexivity.
  - lia.
  - intros k Hk. lia.
  - reflexivity.
  - exists s'. split; [exact Hrun|]. split; [exact Hstop|exact Hconn].
Defined.

End ReceiveMoreProofs.
